(** * LithosGuard Pro: physics engine, scenario generator, classifier stub
      and monitoring loop

    A shallow embedding of [src/physics_engine.py], [src/data_simulator.py],
    [src/ml_engine.py] and the session logic of [app.py], with the
    properties of the specification proved about it.

    - Numeric code is written once, over the interface [PyFloat] of the
      float operations the sources use.  It is instantiated at IEEE
      binary64 ([PrimFloat]: bit-exact, and it computes) and at the real
      numbers (exact arithmetic: no rounding, no overflow), where the
      closed-form statements about [tan], [exp] and the time grid live.
    - A Python exception is a value of [result]; [try/except] is
      [try_except].
    - numpy's global random state, the wall clock, the file system and the
      unpickled classifier are explicit inputs.
    - The Streamlit session state is the record [SessionState]; one run
      of the LIVE STREAM loop is [live_stream], one run of MANUAL
      FORENSICS is [manual_forensics]; rendering is kept only as the
      values shown, [Rendered]. *)

From Stdlib Require Import ZArith List Bool String Lia.
From Stdlib Require Import Reals Lra.
From Stdlib Require Import Uint63 Floats.
From stdpp Require Import base option list strings gmap.

Set Default Proof Using "Type".
Local Open Scope Z_scope.

(** ** Python exceptions as values *)

Inductive exn : Type :=
| ValueError
| IndexError
| KeyError
| ImportError
| AttributeError
| OverflowError.

Inductive result (A : Type) : Type :=
| Ok (a : A)
| Raise (e : exn).
Arguments Ok {A} a.
Arguments Raise {A} e.

Definition rbind {A B : Type} (m : result A) (k : A -> result B) : result B :=
  match m with
  | Ok a => k a
  | Raise e => Raise e
  end.

#[export] Instance result_bind : MBind result := fun A B k m => rbind m k.
#[export] Instance result_ret : MRet result := fun A a => Ok a.

Declare Scope py_scope.
Delimit Scope py_scope with py.

(** ** The float operations the sources use *)

Class PyFloat (F : Type) : Type := {
  fadd : F -> F -> F;
  fsub : F -> F -> F;
  fmul : F -> F -> F;
  fdiv : F -> F -> F;
  fneg : F -> F;
  fabs : F -> F;
  flt : F -> F -> bool;
  fle : F -> F -> bool;
  feqb : F -> F -> bool;
  of_Z : Z -> F;
  ftrunc : F -> result Z
}.

(** [np.tan], [np.sin], [np.exp] and [np.pi]. *)
Class PyTranscendental (F : Type) : Type := {
  ftan : F -> F;
  fsin : F -> F;
  fexp : F -> F;
  fpi : F
}.

(** Python's builtin [round(x, ndigits)] on a float. *)
Class PyRound (F : Type) : Type := {
  fround : F -> nat -> F
}.

Infix "+" := fadd : py_scope.
Infix "-" := fsub : py_scope.
Infix "*" := fmul : py_scope.
Infix "/" := fdiv : py_scope.
Notation "- x" := (fneg x) : py_scope.
Infix "<?" := flt : py_scope.
Infix "<=?" := fle : py_scope.
Infix "=?" := feqb : py_scope.

(** IEEE binary64. *)
Definition f64_of_Z (z : Z) : float :=
  match z with
  | Z0 => PrimFloat.zero
  | Zpos _ => PrimFloat.of_uint63 (Uint63.of_Z z)
  | Zneg p => PrimFloat.opp (PrimFloat.of_uint63 (Uint63.of_Z (Zpos p)))
  end.

(** [int(x)]: truncation toward zero; Python raises on nan and on the
    infinities. *)
Definition f64_trunc (x : float) : result Z :=
  match Prim2SF x with
  | S754_zero _ => Ok 0
  | S754_finite s m e =>
      let v := if (0 <=? e)%Z then (Zpos m * 2 ^ e)%Z else (Zpos m / 2 ^ (- e))%Z in
      Ok (if s then (- v)%Z else v)
  | S754_infinity _ => Raise OverflowError
  | S754_nan => Raise ValueError
  end.

#[export] Instance f64_ops : PyFloat float := {|
  fadd := PrimFloat.add;
  fsub := PrimFloat.sub;
  fmul := PrimFloat.mul;
  fdiv := PrimFloat.div;
  fneg := PrimFloat.opp;
  fabs := PrimFloat.abs;
  flt := PrimFloat.ltb;
  fle := PrimFloat.leb;
  feqb := PrimFloat.eqb;
  of_Z := f64_of_Z;
  ftrunc := f64_trunc
|}.

(** Exact real arithmetic. *)
Definition Rltb (x y : R) : bool := if Rlt_dec x y then true else false.
Definition Rleb (x y : R) : bool := if Rle_dec x y then true else false.
Definition Reqb (x y : R) : bool := if Req_dec_T x y then true else false.

Definition Rtrunc (x : R) : Z :=
  if Rle_dec 0 x then Int_part x else (- Int_part (- x))%Z.

#[export] Instance R_ops : PyFloat R := {|
  fadd := Rplus;
  fsub := Rminus;
  fmul := Rmult;
  fdiv := Rdiv;
  fneg := Ropp;
  fabs := Rabs;
  flt := Rltb;
  fle := Rleb;
  feqb := Reqb;
  of_Z := IZR;
  ftrunc := fun x => Ok (Rtrunc x)
|}.

#[export] Instance R_transcendental : PyTranscendental R := {|
  ftan := tan;
  fsin := sin;
  fexp := exp;
  fpi := PI
|}.

(** The nearest integer, a tie going to the even one. *)
Definition Rround_half_even (x : R) : Z :=
  let lo := Int_part x in
  let rest := (x - IZR lo)%R in
  if Rlt_dec rest (1 / 2) then lo
  else if Rlt_dec (1 / 2) rest then (lo + 1)%Z
  else if Z.even lo then lo else (lo + 1)%Z.

(** [round(x, ndigits)] in exact arithmetic: the nearest multiple of
    [10^-ndigits], ties to even. *)
#[export] Instance R_round : PyRound R := {|
  fround := fun x ndigits =>
    (IZR (Rround_half_even (x * IZR (10 ^ Z.of_nat ndigits))) / IZR (10 ^ Z.of_nat ndigits))%R
|}.

(** ** Python and numpy helpers *)

Section PyHelpers.
Context {F : Type} `{PyFloat F}.
Local Open Scope py_scope.

(** A decimal literal [m * 10^-k], e.g. [dec 1 1] for [0.1] and
    [dec 105 2] for [1.05]: the quotient of two exactly representable
    integers, hence the nearest double in binary64 and the exact
    rational over the reals. *)
Definition dec (m : Z) (k : nat) : F := of_Z m / of_Z (10 ^ Z.of_nat k).

(** Python's builtin [max(a, b)]: the first argument unless the second
    is strictly greater. *)
Definition pymax (a b : F) : F := if a <? b then b else a.

(** Python's builtin [min(a, b)]: the first argument unless the second
    is strictly smaller. *)
Definition pymin (a b : F) : F := if b <? a then b else a.

(** [l[start:]] with Python's treatment of negative and out-of-range
    indices. *)
Definition py_slice_from {A : Type} (start : Z) (l : list A) : list A :=
  let len := Z.of_nat (length l) in
  let start := if (start <? 0)%Z then Z.max (start + len) 0 else Z.min start len in
  drop (Z.to_nat start) l.

(** [l[:stop]], likewise. *)
Definition py_slice_to {A : Type} (stop : Z) (l : list A) : list A :=
  let len := Z.of_nat (length l) in
  let stop := if (stop <? 0)%Z then Z.max (stop + len) 0 else Z.min stop len in
  take (Z.to_nat stop) l.

(** [l[i]], raising [IndexError] out of range. *)
Definition py_index {A : Type} (l : list A) (i : Z) : result A :=
  let len := Z.of_nat (length l) in
  let j := if (i <? 0)%Z then (i + len)%Z else i in
  if (j <? 0)%Z || (len <=? j)%Z then Raise IndexError
  else match l !! Z.to_nat j with
       | Some a => Ok a
       | None => Raise IndexError
       end.

(** [np.diff(x)]: [x[i+1] - x[i]]. *)
Definition np_diff (x : list F) : list F :=
  zip_with (fun lo hi => hi - lo) x (drop 1 x).

(** The spacing [np.gradient] works with: a scalar when the samples are
    evenly spaced (or no coordinates are given), the array of steps
    otherwise. *)
Inductive spacing : Type :=
| Uniform (dx : F)
| NonUniform (diffx : list F).

(** [np.gradient(f)] and [np.gradient(f, x)] for a 1-d array [f] and the
    default [edge_order=1], after numpy's [lib.function_base.gradient]:
    second-order central differences inside, first-order one-sided
    differences at both ends. *)
Definition np_gradient_spacing (f : list F) (x : option (list F)) : result spacing :=
  match x with
  | None => Ok (Uniform (of_Z 1))
  | Some distances =>
      if negb (length distances =? length f)%nat then Raise ValueError
      else
        let diffx := np_diff distances in
        d0 ← py_index diffx 0;
        if forallb (fun d => d =? d0) diffx then Ok (Uniform d0)
        else Ok (NonUniform diffx)
  end.

Definition np_gradient_interior (f : list F) (ax_dx : spacing) : list F :=
  match ax_dx with
  | Uniform dx =>
      (* out[1:-1] = (f[2:] - f[:-2]) / (2. * ax_dx) *)
      zip_with (fun lo hi => (hi - lo) / (of_Z 2 * dx)) f (drop 2 f)
  | NonUniform diffx =>
      let dx1 := py_slice_to (-1) diffx in
      let dx2 := drop 1 diffx in
      let a := zip_with (fun d1 d2 => (- d2) / (d1 * (d1 + d2))) dx1 dx2 in
      let b := zip_with (fun d1 d2 => (d2 - d1) / (d1 * d2)) dx1 dx2 in
      let c := zip_with (fun d1 d2 => d1 / (d2 * (d1 + d2))) dx1 dx2 in
      (* out[1:-1] = a * f[:-2] + b * f[1:-1] + c * f[2:] *)
      zip_with fadd
        (zip_with fadd (zip_with fmul a (py_slice_to (-2) f))
                       (zip_with fmul b (py_slice_to (-1) (drop 1 f))))
        (zip_with fmul c (drop 2 f))
  end.

Definition np_gradient (f : list F) (x : option (list F)) : result (list F) :=
  ax_dx ← np_gradient_spacing f x;
  if (length f <? 2)%nat then Raise ValueError
  else
    let interior := np_gradient_interior f ax_dx in
    dx_0 ← match ax_dx with Uniform dx => Ok dx | NonUniform diffx => py_index diffx 0 end;
    f0 ← py_index f 0;
    f1 ← py_index f 1;
    dx_n ← match ax_dx with Uniform dx => Ok dx | NonUniform diffx => py_index diffx (-1) end;
    fn1 ← py_index f (-1);
    fn2 ← py_index f (-2);
    Ok ([(f1 - f0) / dx_0] ++ interior ++ [(fn1 - fn2) / dx_n]).

End PyHelpers.

(** ** src/physics_engine.py: class GeotechPhysics *)

Section GeotechPhysics.
Context {F : Type} `{PyFloat F}.
Local Open Scope py_scope.

(** [np.radians]: degrees times pi/180. *)
Definition np_radians `{PyTranscendental F} (deg : F) : F := deg * (fpi / of_Z 180).

Definition calculate_fos `{PyTranscendental F}
    (cohesion friction_angle normal_stress pore_pressure shear_stress : F) : F :=
  let effective_normal_stress := pymax (normal_stress - pore_pressure) (dec 1 1) in
  let tan_phi := ftan (np_radians friction_angle) in
  let shear_strength := cohesion + (effective_normal_stress * tan_phi) in
  let fos := shear_strength / pymax shear_stress (dec 1 1) in
  fos.

Definition inverse_velocity (displacement_series : list F) (time_series : option (list F))
    : result F :=
  let displacement_array := displacement_series in
  if (length displacement_array <? 5)%nat then Ok (of_Z 999)
  else
    let recent_displacement := py_slice_from (-10) displacement_array in
    velocity ←
      match time_series with
      | Some ts =>
          let time_array := py_slice_from (-10) ts in
          g ← np_gradient recent_displacement (Some time_array);
          py_index g (-1)
      | None =>
          g ← np_gradient recent_displacement None;
          py_index g (-1)
      end;
    if fabs velocity <? dec 1 4 then Ok (of_Z 99)
    else Ok (of_Z 1 / fabs velocity).

Definition calculate_ttf (displacement_series : list F) (time_series : option (list F))
    (scaling_factor : F) : result F :=
  inv_v ← inverse_velocity displacement_series time_series;
  let ttf_hours := inv_v * scaling_factor in
  Ok ttf_hours.

(** The default [scaling_factor=0.5]. *)
Definition calculate_ttf_default (displacement_series : list F)
    (time_series : option (list F)) : result F :=
  calculate_ttf displacement_series time_series (dec 5 1).

Definition calculate_shear_stress (displacement base_stress stress_increase_rate : F) : F :=
  base_stress + (displacement * stress_increase_rate).

(** The defaults [base_stress=80.0], [stress_increase_rate=2.5]. *)
Definition calculate_shear_stress_default (displacement : F) : F :=
  calculate_shear_stress displacement (of_Z 80) (dec 25 1).

End GeotechPhysics.

(** ** numpy's global random generator and [np.linspace] *)

(** The legacy global [np.random] state: the stream of standard normal
    variates and of raw integers it will hand out, and how many have been
    consumed.  Each call draws its samples at the cursor and advances it,
    so two calls never see the same variate. *)
Record RandomState (F : Type) : Type := mkRandomState {
  std_normal : nat -> F;
  raw_integers : nat -> Z;
  cursor : nat
}.
Arguments mkRandomState {F} _ _ _.
Arguments std_normal {F} _ _.
Arguments raw_integers {F} _ _.
Arguments cursor {F} _.

Section Numpy.
Context {F : Type} `{PyFloat F}.
Local Open Scope py_scope.

Definition advance (n : nat) (g : RandomState F) : RandomState F :=
  mkRandomState (std_normal g) (raw_integers g) (cursor g + n)%nat.

(** [np.random.normal(loc, scale, size)]. *)
Definition random_normal (loc scale : F) (size : nat) (g : RandomState F)
    : list F * RandomState F :=
  (map (fun i => loc + scale * std_normal g (cursor g + i)%nat) (seq 0 size),
   advance size g).

(** [np.random.randint(low, high, size)]: integers in [low, high). *)
Definition random_randint (low high : Z) (size : nat) (g : RandomState F)
    : list Z * RandomState F :=
  (map (fun i => (low + raw_integers g (cursor g + i)%nat mod (high - low))%Z) (seq 0 size),
   advance size g).

(** [np.arange(0, num)] as floats. *)
Definition np_arange (num : Z) : list F :=
  map (fun i => of_Z (Z.of_nat i)) (seq 0 (Z.to_nat num)).

(** [np.linspace(start, stop, num)] with the default [endpoint=True]. *)
Definition np_linspace (start stop : F) (num : Z) : result (list F) :=
  if (num <? 0)%Z then Raise ValueError
  else
    let div := (num - 1)%Z in
    let y := np_arange num in
    let delta := stop - start in
    let y :=
      if (0 <? div)%Z then
        let step := delta / of_Z div in
        if step =? of_Z 0 then map (fun v => (v / of_Z div) * delta) y
        else map (fun v => v * step) y
      else map (fun v => v * delta) y in
    let y := map (fun v => v + start) y in
    if (1 <? num)%Z then Ok (py_slice_to (-1) y ++ [stop]) else Ok y.

(** [np.zeros(n)]. *)
Definition np_zeros (n : Z) : list F := replicate (Z.to_nat n) (of_Z 0).

(** [dst[mask] = vals]: the values go, in order, to the positions where
    the mask holds.  The callers pass exactly as many values as the mask
    has true entries. *)
Fixpoint masked_assign (mask : list bool) (dst vals : list F) : list F :=
  match mask, dst with
  | true :: mask', d :: dst' =>
      match vals with
      | v :: vals' => v :: masked_assign mask' dst' vals'
      | [] => d :: masked_assign mask' dst' []
      end
  | false :: mask', d :: dst' => d :: masked_assign mask' dst' vals
  | _, _ => dst
  end.

(** [np.sum(mask)] of a boolean array. *)
Definition np_sum_bool (mask : list bool) : nat := length (filter (fun b => b = true) mask).

(** [np.sum(x)] of a float array.  numpy adds pairwise; in exact
    arithmetic, and in binary64 for fewer than eight entries, that is the
    sum from left to right. *)
Definition np_sum (x : list F) : F := fold_left fadd x (of_Z 0).

(** [np.mean(x)]: the sum over the count ([nan] on an empty array). *)
Definition np_mean (x : list F) : F := np_sum x / of_Z (Z.of_nat (length x)).

(** [np.var(x)] with the default [ddof=0]: the mean of the squared
    deviations from the mean. *)
Definition np_var (x : list F) : F :=
  let arrmean := np_mean x in
  np_mean (map (fun v => (v - arrmean) * (v - arrmean)) x).

End Numpy.

(** ** src/data_simulator.py *)

Record ScenarioData (F : Type) : Type := mkScenarioData {
  sd_pressure : list F;
  sd_acoustic : list F;
  sd_displacement : list F;
  sd_intensity : list F
}.
Arguments mkScenarioData {F} _ _ _ _.
Arguments sd_pressure {F} _.
Arguments sd_acoustic {F} _.
Arguments sd_displacement {F} _.
Arguments sd_intensity {F} _.

(** The GSI Bhukosh data frame, column by column. *)
Record DataFrame (F : Type) : Type := mkDataFrame {
  Time_Hrs : list F;
  Lithology : list string;
  RQD : list Z;
  Pore_Water_Pressure_kPa : list F;
  Raw_Acoustic_Emission_g : list F;
  Displacement_mm : list F;
  Scenario_Intensity : list F
}.
Arguments mkDataFrame {F} _ _ _ _ _ _ _.
Arguments Time_Hrs {F} _.
Arguments Lithology {F} _.
Arguments RQD {F} _.
Arguments Pore_Water_Pressure_kPa {F} _.
Arguments Raw_Acoustic_Emission_g {F} _.
Arguments Displacement_mm {F} _.
Arguments Scenario_Intensity {F} _.

Section DataSimulator.
Context {F : Type} `{PyFloat F} `{PyTranscendental F}.
Local Open Scope py_scope.

(** [len(df)]: the number of rows. *)
Definition df_len (df : DataFrame F) : nat := length (Time_Hrs df).

(** [pd.DataFrame({...})]: every column must have the same length. *)
Definition pd_DataFrame (time_hrs : list F) (lithology : list string) (rqd : list Z)
    (pressure acoustic displacement intensity : list F) : result (DataFrame F) :=
  let n := length time_hrs in
  if (length lithology =? n)%nat && (length rqd =? n)%nat && (length pressure =? n)%nat
     && (length acoustic =? n)%nat && (length displacement =? n)%nat
     && (length intensity =? n)%nat
  then Ok (mkDataFrame time_hrs lithology rqd pressure acoustic displacement intensity)
  else Raise ValueError.

(** The logistic rain intensity of the monsoon scenario at hour [t]. *)
Definition monsoon_rain_event (t : F) : F :=
  of_Z 1 / (of_Z 1 + fexp ((- dec 5 1) * (t - of_Z 18))).

(** The monsoon pore pressure at hour [t]. *)
Definition monsoon_pressure (t : F) : F :=
  of_Z 20 + (monsoon_rain_event t * of_Z 65).

Definition _generate_monsoon_scenario (time_hrs : list F) (rows : Z) (g : RandomState F)
    : ScenarioData F * RandomState F :=
  let rain_event := map monsoon_rain_event time_hrs in
  let pressure := map (fun r => of_Z 20 + (r * of_Z 65)) rain_event in
  let truck_noise :=
    map (fun t => dec 2 1 * fsin (((of_Z 2 * fpi) * dec 5 1) * t)) time_hrs in
  let fracture_signal := np_zeros rows in
  let mask := map (fun p => of_Z 60 <? p) pressure in
  let '(noise, g) := random_normal (of_Z 0) (of_Z 1) (np_sum_bool mask) g in
  let fracture_signal :=
    masked_assign mask fracture_signal (map (fun z => dec 5 2 * z) noise) in
  let '(background, g) := random_normal (of_Z 0) (dec 1 2) (Z.to_nat rows) g in
  let acoustic := zip_with fadd (zip_with fadd truck_noise fracture_signal) background in
  let displacement := map (fun p => dec 5 1 * fexp (dec 3 1 * (p / of_Z 10))) pressure in
  (mkScenarioData pressure acoustic displacement rain_event, g).

(** [(time_hrs - 12) ** 2] is the product of the difference with itself. *)
Definition _generate_seismic_scenario (time_hrs : list F) (rows : Z) (g : RandomState F)
    : ScenarioData F * RandomState F :=
  let '(noise, g) := random_normal (of_Z 0) (of_Z 2) (Z.to_nat rows) g in
  let pressure := map (fun z => of_Z 30 + z) noise in
  let seismic_pulse :=
    map (fun t => fexp ((- ((t - of_Z 12) * (t - of_Z 12))) / of_Z 2)) time_hrs in
  let '(noise, g) := random_normal (of_Z 0) (dec 5 2) (Z.to_nat rows) g in
  let acoustic := zip_with fadd (map (fun s => s * of_Z 2) seismic_pulse) noise in
  let displacement := map (fun s => of_Z 1 + (s * of_Z 8)) seismic_pulse in
  (mkScenarioData pressure acoustic displacement seismic_pulse, g).

Definition _generate_stable_scenario (time_hrs : list F) (rows : Z) (g : RandomState F)
    : result (ScenarioData F * RandomState F) :=
  let '(noise, g) := random_normal (of_Z 0) (of_Z 1) (Z.to_nat rows) g in
  let pressure := map (fun z => of_Z 25 + z) noise in
  let '(noise, g) := random_normal (of_Z 0) (dec 1 2) (Z.to_nat rows) g in
  let acoustic :=
    zip_with fadd
      (map (fun t => dec 2 2 * fsin (((of_Z 2 * fpi) * dec 5 1) * t)) time_hrs) noise in
  ramp ← np_linspace (dec 5 1) (dec 15 1) rows;
  let '(noise, g) := random_normal (of_Z 0) (dec 5 2) (Z.to_nat rows) g in
  let displacement := zip_with fadd ramp noise in
  Ok (mkScenarioData pressure acoustic displacement (np_zeros rows), g).

Definition generate_gsi_dataset (rows : Z) (scenario : string) (g : RandomState F)
    : result (DataFrame F * RandomState F) :=
  time_hrs ← np_linspace (of_Z 0) (of_Z 24) rows;
  let lithology := replicate (Z.to_nat rows) "Quartzite (Fractured)"%string in
  let '(rqd, g) := random_randint 40 50 (Z.to_nat rows) g in
  '(data, g) ←
    (if String.eqb scenario "monsoon" then Ok (_generate_monsoon_scenario time_hrs rows g)
     else if String.eqb scenario "seismic" then Ok (_generate_seismic_scenario time_hrs rows g)
     else _generate_stable_scenario time_hrs rows g);
  df ← pd_DataFrame time_hrs lithology rqd (sd_pressure data) (sd_acoustic data)
         (sd_displacement data) (sd_intensity data);
  Ok (df, g).

(** The default [rows=1000]. *)
Definition generate_gsi_dataset_default (scenario : string) (g : RandomState F)
    : result (DataFrame F * RandomState F) :=
  generate_gsi_dataset 1000 scenario g.

Definition perform_fft_analysis (signal_array : list F) (sampling_rate : F) : F * F :=
  let signal := signal_array in
  let low_freq_energy := np_mean (map fabs signal) * dec 8 1 in
  let high_freq_energy := np_var signal * of_Z 100 in
  (low_freq_energy, high_freq_energy).

(** The default [sampling_rate=1.0]. *)
Definition perform_fft_analysis_default (signal_array : list F) : F * F :=
  perform_fft_analysis signal_array (of_Z 1).

End DataSimulator.

(** ** src/ml_engine.py: class LithosML *)

(** The unpickled classifier: an opaque collaborator whose two methods
    may raise.  [predict] returns the label array, [predict_proba] one
    row of class probabilities per input row. *)
Record Classifier (F : Type) : Type := mkClassifier {
  predict : F -> F -> result (list Z);
  predict_proba : F -> F -> result (list (list F))
}.
Arguments mkClassifier {F} _ _.
Arguments predict {F} _ _ _.
Arguments predict_proba {F} _ _ _.

(** What [_load_model] and [predict_risk] find in their environment:
    whether [joblib] and [pandas] import, whether the model file exists,
    and what [joblib.load] does with it. *)
Record PyEnv (F : Type) : Type := mkPyEnv {
  joblib_imports : bool;
  pandas_imports : bool;
  os_path_exists : string -> bool;
  joblib_load : string -> result (Classifier F)
}.
Arguments mkPyEnv {F} _ _ _ _.
Arguments joblib_imports {F} _.
Arguments pandas_imports {F} _.
Arguments os_path_exists {F} _ _.
Arguments joblib_load {F} _ _.

Record LithosML (F : Type) : Type := mkLithosML {
  model_path : string;
  model : option (Classifier F);
  model_loaded : bool
}.
Arguments mkLithosML {F} _ _ _.
Arguments model_path {F} _.
Arguments model {F} _.
Arguments model_loaded {F} _.

(** [try: body / except Exception: handler]; every [exn] stands for a
    subclass of [Exception]. *)
Definition try_except {A : Type} (body : result A) (handler : exn -> result A) : result A :=
  match body with
  | Ok a => Ok a
  | Raise e => handler e
  end.

(** The values of the dictionary [get_model_info] returns. *)
Inductive info_value : Type :=
| InfoBool (b : bool)
| InfoStr (s : string).

Section LithosMLMethods.
Context {F : Type} `{PyFloat F}.
Local Open Scope py_scope.

Definition _load_model (env : PyEnv F) (self : LithosML F) : LithosML F :=
  let attempt : result (LithosML F) :=
    if negb (joblib_imports env) then Raise ImportError
    else if os_path_exists env (model_path self) then
      m ← joblib_load env (model_path self);
      Ok (mkLithosML (model_path self) (Some m) true)
    else Ok self in
  match try_except attempt (fun _ => Ok self) with
  | Ok self' => self'
  | Raise _ => self
  end.

(** [LithosML(model_path)]: the constructor. *)
Definition LithosML_init (env : PyEnv F) (path : string) : LithosML F :=
  _load_model env (mkLithosML path None false).

Definition predict_risk (env : PyEnv F) (self : LithosML F) (pressure displacement : F)
    : result (string * F) :=
  if negb (model_loaded self) then Ok ("Model Not Loaded"%string, of_Z 0)
  else
    try_except
      (if negb (pandas_imports env) then Raise ImportError
       else
         match model self with
         | None => Raise AttributeError
         | Some m =>
             labels ← predict m pressure displacement;
             prediction ← py_index labels 0;
             probas ← predict_proba m pressure displacement;
             probability ← py_index probas 0;
             let risk_label :=
               if (prediction =? 1)%Z then "CRITICAL FAILURE"%string else "Stable"%string in
             risk_prob ←
               (if (1 <? length probability)%nat then py_index probability 1
                else Ok (dec 5 1));
             Ok (risk_label, risk_prob)
         end)
      (fun _ => Ok ("Error"%string, of_Z 0)).

Definition classify_seismic_event (vibration_amplitude dominant_frequency : F) : string :=
  if dominant_frequency <? of_Z 60 then "Heavy Machinery (Noise)"
  else if (of_Z 1000 <? dominant_frequency) && (dec 3 1 <? vibration_amplitude)
  then "CRITICAL FRACTURE"
  else if of_Z 1000 <? dominant_frequency then "Rock Micro-seismicity"
  else "Background Vibration".

(** [np.random.exponential(scale)] is [scale] times a standard
    exponential variate; [std_exponential] is the variate the generator
    hands out when asked. *)
Definition analyze_crack_image `{PyRound F} (crack_intensity confidence_threshold : F)
    (std_exponential : F) : F * F :=
  let base_width := dec 5 1 in
  let crack_width :=
    if dec 7 1 <? crack_intensity then
      let growth := (crack_intensity * of_Z 5) * std_exponential in
      base_width + growth
    else base_width + (crack_intensity * dec 5 1) in
  let confidence := pymin (dec 98 2) (dec 85 2 + (crack_intensity * dec 13 2)) in
  (fround crack_width 2, fround confidence 3).

(** The default [confidence_threshold=0.95]. *)
Definition analyze_crack_image_default `{PyRound F} (crack_intensity std_exponential : F)
    : F * F :=
  analyze_crack_image crack_intensity (dec 95 2) std_exponential.

Definition get_model_info (self : LithosML F) : gmap string info_value :=
  <["xgboost_loaded" := InfoBool (model_loaded self)]>
    (<["model_path" := InfoStr (model_path self)]>
       (<["efficientnet_status" := InfoStr "Simulated (Edge-Optimized)"]>
          (<["architecture" := InfoStr "Multi-Modal (XGBoost + EfficientNet-B0)"]> ∅))).

End LithosMLMethods.

(** ** app.py: session state, sidebar controls and the monitoring loop *)

Record SessionState (F : Type) : Type := mkSessionState {
  inject_failure : bool;
  data_source : string;
  test_siren : bool;
  alarm_triggered : bool;
  command_log : list string;
  alarm_already_logged : bool;
  telemetry_buffer : gmap string (list F);
  api_connected : bool
}.
Arguments mkSessionState {F} _ _ _ _ _ _ _ _.
Arguments inject_failure {F} _.
Arguments data_source {F} _.
Arguments test_siren {F} _.
Arguments alarm_triggered {F} _.
Arguments command_log {F} _.
Arguments alarm_already_logged {F} _.
Arguments telemetry_buffer {F} _.
Arguments api_connected {F} _.

(** One row of the frame, as [full_data.iloc[i]] returns it. *)
Record Row (F : Type) : Type := mkRow {
  row_Time_Hrs : F;
  row_Lithology : string;
  row_RQD : Z;
  row_Pore_Water_Pressure_kPa : F;
  row_Raw_Acoustic_Emission_g : F;
  row_Displacement_mm : F;
  row_Scenario_Intensity : F
}.
Arguments mkRow {F} _ _ _ _ _ _ _.
Arguments row_Time_Hrs {F} _.
Arguments row_Pore_Water_Pressure_kPa {F} _.
Arguments row_Displacement_mm {F} _.

(** What one evaluation puts on the screen. *)
Record Rendered (F : Type) : Type := mkRendered {
  r_fos : F;
  r_ttf : F;
  r_ml_risk : string;
  r_ml_prob : F;
  r_is_critical : bool
}.
Arguments mkRendered {F} _ _ _ _ _.
Arguments r_fos {F} _.
Arguments r_ttf {F} _.
Arguments r_ml_risk {F} _.
Arguments r_ml_prob {F} _.
Arguments r_is_critical {F} _.

(** The widgets of the sidebar and of the dashboard tab, as one run of
    the script reads them. *)
Inductive Button : Type :=
| NoButton
| TestSirenButton
| InjectFailureButton
| ResetButton.

Inductive Mode (F : Type) : Type :=
| MANUAL_FORENSICS (timeline_hour : F)
| LIVE_STREAM (source_option : string) (playback_speed : Z).
Arguments MANUAL_FORENSICS {F} _.
Arguments LIVE_STREAM {F} _ _.

(** What one run of the script reads from outside the session state:
    the widgets, the wall clock (once for the sidebar and the forensics
    stamp, and at every tick of the replay), the state of numpy's
    generator when [get_dataset] filled its cache entry, and the
    classifier with its environment. *)
Record Inputs (F : Type) : Type := mkInputs {
  in_button : Button;
  in_mode : Mode F;
  in_scenario : string;
  in_clock : string;
  in_tick_clock : Z -> string;
  in_rng : RandomState F;
  in_env : PyEnv F;
  in_ml_engine : LithosML F
}.
Arguments mkInputs {F} _ _ _ _ _ _ _ _.
Arguments in_button {F} _.
Arguments in_mode {F} _.
Arguments in_scenario {F} _.
Arguments in_clock {F} _.
Arguments in_tick_clock {F} _.
Arguments in_rng {F} _.
Arguments in_env {F} _.
Arguments in_ml_engine {F} _.

(** What the dashboard tab has rendered when the run ends. *)
Inductive Shown (F : Type) : Type :=
| StreamShown (trace : list (Z * Rendered F))
| ForensicsShown (r : Rendered F).
Arguments StreamShown {F} _.
Arguments ForensicsShown {F} _.

(** One polygon of the sector heatmap and the trace drawn for it. *)
Record Sector (F : Type) : Type := mkSector {
  sec_x : list Z;
  sec_y : list Z;
  sec_fos : F
}.
Arguments mkSector {F} _ _ _.
Arguments sec_x {F} _.
Arguments sec_y {F} _.
Arguments sec_fos {F} _.

Record SectorTrace (F : Type) : Type := mkSectorTrace {
  tr_name : string;
  tr_fillcolor : string;
  tr_line_color : string;
  tr_center_x : F;
  tr_center_y : F
}.
Arguments mkSectorTrace {F} _ _ _ _ _.
Arguments tr_name {F} _.
Arguments tr_fillcolor {F} _.
Arguments tr_line_color {F} _.
Arguments tr_center_x {F} _.
Arguments tr_center_y {F} _.

(** The double quote character of the JSON payloads. *)
Definition dq : string := String (Ascii.ascii_of_nat 34) EmptyString.

Definition stamped (current_time body : string) : string :=
  "[" +:+ current_time +:+ "] " +:+ body.

(** The outbound command batch of the LIVE STREAM loop. *)
Definition stream_alarm_batch (current_time : string) : list string :=
  [ stamped current_time
      ("MQTT >> mine/pit1/control/alarm {" +:+ dq +:+ "cmd" +:+ dq +:+ ": "
       +:+ dq +:+ "SIREN_ON" +:+ dq +:+ "}");
    stamped current_time
      ("API >> POST /v1/trigger/alarm {" +:+ dq +:+ "sector" +:+ dq +:+ ": 4, "
       +:+ dq +:+ "severity" +:+ dq +:+ ": " +:+ dq +:+ "CRITICAL" +:+ dq +:+ "}");
    stamped current_time "SMS >> Broadcast to 42 workers: EVACUATE SECTOR 4";
    stamped current_time "RELAY >> Truck #091 engine cutoff activated";
    stamped current_time "RELAY >> Emergency lighting Zone 4: ON" ].

(** The outbound command batch of MANUAL FORENSICS. *)
Definition forensic_alarm_batch (ct : string) : list string :=
  [ stamped ct
      ("MQTT >> mine/pit1/control/alarm {" +:+ dq +:+ "cmd" +:+ dq +:+ ": "
       +:+ dq +:+ "SIREN_ON" +:+ dq +:+ "}");
    stamped ct "API >> POST /v1/trigger/alarm";
    stamped ct "SMS >> 42 workers notified";
    stamped ct "RELAY >> Truck #091 cutoff" ].

(** [range(start, stop, step)]. *)
Definition py_range (start stop step : Z) : result (list Z) :=
  if (step =? 0)%Z then Raise ValueError
  else
    let n :=
      if (0 <? step)%Z then ((stop - start + step - 1) / step)%Z
      else ((start - stop - step - 1) / (- step))%Z in
    Ok (map (fun k => (start + Z.of_nat k * step)%Z) (seq 0 (Z.to_nat n))).

Section App.
Context {F : Type} `{PyFloat F} `{PyTranscendental F}.
Local Open Scope py_scope.

Definition empty_buffer : gmap string (list F) :=
  <["time" := []]> (<["pressure" := []]> (<["displacement" := []]> (<["fos" := []]> ∅))).

(** The session state a fresh session starts from. *)
Definition initial_session : SessionState F :=
  mkSessionState false "SIMULATOR" false false [] false empty_buffer false.

Definition set_buffer (buf : gmap string (list F)) (st : SessionState F) : SessionState F :=
  mkSessionState (inject_failure st) (data_source st) (test_siren st) (alarm_triggered st)
    (command_log st) (alarm_already_logged st) buf (api_connected st).

Definition set_alarm (triggered logged : bool) (st : SessionState F) : SessionState F :=
  mkSessionState (inject_failure st) (data_source st) (test_siren st) triggered
    (command_log st) logged (telemetry_buffer st) (api_connected st).

Definition log_extend (entries : list string) (st : SessionState F) : SessionState F :=
  mkSessionState (inject_failure st) (data_source st) (test_siren st) (alarm_triggered st)
    (command_log st ++ entries) (alarm_already_logged st) (telemetry_buffer st)
    (api_connected st).

(** The TEST SIREN button: the flag is raised while the entry is logged
    and lowered again before the script reruns. *)
Definition press_test_siren (current_time : string) (st : SessionState F) : SessionState F :=
  let st :=
    mkSessionState (inject_failure st) (data_source st) true (alarm_triggered st)
      (command_log st) (alarm_already_logged st) (telemetry_buffer st) (api_connected st) in
  let st := log_extend [stamped current_time "TEST: Manual siren test initiated"] st in
  mkSessionState (inject_failure st) (data_source st) false (alarm_triggered st)
    (command_log st) (alarm_already_logged st) (telemetry_buffer st) (api_connected st).

(** The INJECT FAILURE button. *)
Definition press_inject_failure (st : SessionState F) : SessionState F :=
  mkSessionState true (data_source st) (test_siren st) (alarm_triggered st)
    (command_log st) false (telemetry_buffer st) (api_connected st).

(** The Reset button, shown while a failure is injected. *)
Definition press_reset (st : SessionState F) : SessionState F :=
  if inject_failure st then
    mkSessionState false (data_source st) (test_siren st) false [] false empty_buffer
      (api_connected st)
  else st.

(** [buffer[key].append(x)]. *)
Definition buffer_append (key : string) (x : F) (buf : gmap string (list F))
    : result (gmap string (list F)) :=
  match buf !! key with
  | Some l => Ok (<[key := l ++ [x]]> buf)
  | None => Raise KeyError
  end.

(** [buffer[key]]. *)
Definition buffer_get (key : string) (buf : gmap string (list F)) : result (list F) :=
  match buf !! key with
  | Some l => Ok l
  | None => Raise KeyError
  end.

(** [df.iloc[i]]. *)
Definition iloc (df : DataFrame F) (i : Z) : result (Row F) :=
  t ← py_index (Time_Hrs df) i;
  l ← py_index (Lithology df) i;
  q ← py_index (RQD df) i;
  p ← py_index (Pore_Water_Pressure_kPa df) i;
  a ← py_index (Raw_Acoustic_Emission_g df) i;
  d ← py_index (Displacement_mm df) i;
  s ← py_index (Scenario_Intensity df) i;
  Ok (mkRow t l q p a d s).

(** [df.iloc[:stop]]. *)
Definition iloc_to (stop : Z) (df : DataFrame F) : DataFrame F :=
  mkDataFrame (py_slice_to stop (Time_Hrs df)) (py_slice_to stop (Lithology df))
    (py_slice_to stop (RQD df)) (py_slice_to stop (Pore_Water_Pressure_kPa df))
    (py_slice_to stop (Raw_Acoustic_Emission_g df)) (py_slice_to stop (Displacement_mm df))
    (py_slice_to stop (Scenario_Intensity df)).

(** [col[mask]] for one column. *)
Definition mask_column {A : Type} (mask : list bool) (col : list A) : list A :=
  snd <$> filter (fun bx => bx.1 = true) (zip mask col).

(** [df[mask]]: the rows where the boolean mask holds. *)
Definition df_mask (mask : list bool) (df : DataFrame F) : DataFrame F :=
  mkDataFrame (mask_column mask (Time_Hrs df)) (mask_column mask (Lithology df))
    (mask_column mask (RQD df)) (mask_column mask (Pore_Water_Pressure_kPa df))
    (mask_column mask (Raw_Acoustic_Emission_g df)) (mask_column mask (Displacement_mm df))
    (mask_column mask (Scenario_Intensity df)).

(** [get_dataset(scenario)]. *)
Definition get_dataset (scenario_type : string) (g : RandomState F)
    : result (DataFrame F * RandomState F) :=
  generate_gsi_dataset 1000 scenario_type g.

(** [full_data.loc[spike_start:, 'Pore_Water_Pressure_kPa'] *= 1.5] with
    [spike_start = int(len(full_data) * 0.8)]. *)
Definition inject_failure_spike (full_data : DataFrame F) : result (DataFrame F) :=
  spike_start ← ftrunc (of_Z (Z.of_nat (df_len full_data)) * dec 8 1);
  let pressure :=
    imap (fun i p => if (spike_start <=? Z.of_nat i)%Z then p * dec 15 1 else p)
      (Pore_Water_Pressure_kPa full_data) in
  Ok (mkDataFrame (Time_Hrs full_data) (Lithology full_data) (RQD full_data) pressure
        (Raw_Acoustic_Emission_g full_data) (Displacement_mm full_data)
        (Scenario_Intensity full_data)).

(** The data both modes work on. *)
Definition load_full_data (scenario : string) (st : SessionState F) (g : RandomState F)
    : result (DataFrame F) :=
  '(full_data, _) ← get_dataset scenario g;
  if inject_failure st then inject_failure_spike full_data else Ok full_data.

(** The evaluation both modes run on a point and its history. *)
Definition point_fos (point : Row F) : F :=
  let shear_stress := calculate_shear_stress_default (row_Displacement_mm point) in
  calculate_fos (of_Z 50) (of_Z 35) (of_Z 120) (row_Pore_Water_Pressure_kPa point) shear_stress.

Definition is_critical_fos (fos : F) : bool := fos <? dec 105 2.

Definition max_buffer : nat := 200.

(** app.py, lines 497-506: append the point to the session buffer and keep the
    last [max_buffer] entries of every key. *)
Definition buffer_point (current_point : Row F) (buf : gmap string (list F))
    : result (gmap string (list F)) :=
  buf ← buffer_append "time" (row_Time_Hrs current_point) buf;
  buf ← buffer_append "pressure" (row_Pore_Water_Pressure_kPa current_point) buf;
  buf ← buffer_append "displacement" (row_Displacement_mm current_point) buf;
  times ← buffer_get "time" buf;
  if (max_buffer <? length times)%nat
  then Ok (py_slice_from (- Z.of_nat max_buffer) <$> buf)
  else Ok buf.

(** app.py, lines 516-518: append the factor of safety and trim its series. *)
Definition buffer_fos (fos : F) (buf : gmap string (list F))
    : result (gmap string (list F)) :=
  buf ← buffer_append "fos" fos buf;
  foss ← buffer_get "fos" buf;
  if (max_buffer <? length foss)%nat
  then Ok (<["fos" := py_slice_from (- Z.of_nat max_buffer) foss]> buf)
  else Ok buf.

(** app.py, lines 522-533: trigger the alarm only once. *)
Definition stream_alarm (current_time : string) (is_critical : bool) (st : SessionState F)
    : SessionState F :=
  if is_critical && negb (alarm_already_logged st)
  then log_extend (stream_alarm_batch current_time) (set_alarm true true st)
  else st.

(** app.py, lines 714-726: the alarm of MANUAL FORENSICS, which clears itself. *)
Definition forensic_alarm (ct : string) (is_critical : bool) (st : SessionState F)
    : SessionState F :=
  if is_critical && negb (alarm_already_logged st)
  then log_extend (forensic_alarm_batch ct) (set_alarm true true st)
  else if negb is_critical && alarm_already_logged st
  then set_alarm false false st
  else st.

(** One iteration of the LIVE STREAM loop at replay index [i]; the
    boolean says whether the loop breaks after it. *)
Definition live_stream_tick (env : PyEnv F) (ml_engine : LithosML F) (now : Z -> string)
    (full_data : DataFrame F) (i : Z) (st : SessionState F)
    : result (SessionState F * Rendered F * bool) :=
  current_point ← iloc full_data i;
  buf ← buffer_point current_point (telemetry_buffer st);
  let history := iloc_to (i + 1) full_data in
  let fos := point_fos current_point in
  ttf ← calculate_ttf_default (Displacement_mm history) (Some (Time_Hrs history));
  '(ml_risk, ml_prob) ← predict_risk env ml_engine
      (row_Pore_Water_Pressure_kPa current_point) (row_Displacement_mm current_point);
  buf ← buffer_fos fos buf;
  let st := set_buffer buf st in
  let is_critical := is_critical_fos fos in
  let st := stream_alarm (now i) is_critical st in
  Ok (st, mkRendered fos ttf ml_risk ml_prob is_critical, is_critical && (800 <? i)%Z).

(** [for i in range(0, len(full_data), playback_speed): ...; break]:
    the session state after the loop and what was rendered, tick by
    tick. *)
Fixpoint live_stream_loop (env : PyEnv F) (ml_engine : LithosML F) (now : Z -> string)
    (full_data : DataFrame F) (indices : list Z) (st : SessionState F)
    : result (SessionState F * list (Z * Rendered F)) :=
  match indices with
  | [] => Ok (st, [])
  | i :: rest =>
      '(st, shown, stop) ← live_stream_tick env ml_engine now full_data i st;
      if stop : bool then Ok (st, [(i, shown)])
      else
        '(st, trace) ← live_stream_loop env ml_engine now full_data rest st;
        Ok (st, (i, shown) :: trace)
  end.

Definition live_stream (env : PyEnv F) (ml_engine : LithosML F) (now : Z -> string)
    (full_data : DataFrame F) (playback_speed : Z) (st : SessionState F)
    : result (SessionState F * list (Z * Rendered F)) :=
  indices ← py_range 0 (Z.of_nat (df_len full_data)) playback_speed;
  live_stream_loop env ml_engine now full_data indices st.

(** One run of MANUAL FORENSICS at slider position [timeline_hour]. *)
Definition manual_forensics (env : PyEnv F) (ml_engine : LithosML F) (ct : string)
    (full_data : DataFrame F) (timeline_hour : F) (st : SessionState F)
    : result (SessionState F * Rendered F) :=
  let current_data :=
    df_mask (map (fun t => t <=? timeline_hour) (Time_Hrs full_data)) full_data in
  let current_data :=
    if (df_len current_data =? 0)%nat then iloc_to 1 full_data else current_data in
  latest ← iloc current_data (-1);
  let fos := point_fos latest in
  ttf ← calculate_ttf_default (Displacement_mm current_data) (Some (Time_Hrs current_data));
  '(ml_risk, ml_prob) ← predict_risk env ml_engine
      (row_Pore_Water_Pressure_kPa latest) (row_Displacement_mm latest);
  let is_critical := is_critical_fos fos in
  let st := forensic_alarm ct is_critical st in
  Ok (st, mkRendered fos ttf ml_risk ml_prob is_critical).

(** app.py, lines 304-306: the siren indicator of the sidebar. *)
Definition siren_active (st : SessionState F) : bool := alarm_triggered st || test_siren st.

Definition siren_status (st : SessionState F) : string :=
  if siren_active st then "ALARM ACTIVE" else "IDLE".

(** app.py, lines 344-352: the status shown for the four sensor nodes. *)
Definition node_status (st : SessionState F) : string :=
  if String.eqb (data_source st) "PHYSICAL API" && negb (api_connected st)
  then "OFFLINE" else "ACTIVE".

(** app.py, lines 379-389: the data source radio of LIVE STREAM mode;
    switching sources resets the telemetry buffer. *)
Definition select_source (source_option : string) (st : SessionState F) : SessionState F :=
  let st :=
    if negb (String.eqb source_option (data_source st)) then
      mkSessionState (inject_failure st) (data_source st) (test_siren st) (alarm_triggered st)
        (command_log st) (alarm_already_logged st) empty_buffer false
    else st in
  mkSessionState (inject_failure st) source_option (test_siren st) (alarm_triggered st)
    (command_log st) (alarm_already_logged st) (telemetry_buffer st) (api_connected st).

(** app.py, lines 291-410: the sidebar.  The boolean says whether the
    script asked for a rerun ([st.rerun()]), which ends the run there. *)
Definition sidebar (inp : Inputs F) (st : SessionState F) : SessionState F * bool :=
  match in_button inp with
  | TestSirenButton => (press_test_siren (in_clock inp) st, true)
  | button =>
      let st :=
        match in_mode inp with
        | LIVE_STREAM source_option _ => select_source source_option st
        | MANUAL_FORENSICS _ => st
        end in
      let st :=
        match button with
        | InjectFailureButton => press_inject_failure st
        | _ => st
        end in
      match button with
      | ResetButton => if inject_failure st then (press_reset st, true) else (st, false)
      | _ => (st, false)
      end
  end.

(** app.py, lines 460-726: the dashboard tab. *)
Definition dashboard_tab (inp : Inputs F) (st : SessionState F)
    : result (SessionState F * Shown F) :=
  full_data ← load_full_data (in_scenario inp) st (in_rng inp);
  match in_mode inp with
  | LIVE_STREAM _ playback_speed =>
      '(st, trace) ← live_stream (in_env inp) (in_ml_engine inp) (in_tick_clock inp)
          full_data playback_speed st;
      Ok (st, StreamShown trace)
  | MANUAL_FORENSICS timeline_hour =>
      '(st, shown) ← manual_forensics (in_env inp) (in_ml_engine inp) (in_clock inp)
          full_data timeline_hour st;
      Ok (st, ForensicsShown shown)
  end.

Definition no_button (inp : Inputs F) : Inputs F :=
  mkInputs NoButton (in_mode inp) (in_scenario inp) (in_clock inp) (in_tick_clock inp)
    (in_rng inp) (in_env inp) (in_ml_engine inp).

(** One interaction: the script runs from the top with the pressed
    button; a rerun starts it again with the button released. *)
Definition script_run (inp : Inputs F) (st : SessionState F)
    : result (SessionState F * Shown F) :=
  let '(st, rerun) := sidebar inp st in
  if rerun then
    let '(st, _) := sidebar (no_button inp) st in
    dashboard_tab (no_button inp) st
  else dashboard_tab inp st.

(** app.py, lines 589-603 and 774-788: the colours of a sector. *)
Definition sector_colors (sector_fos : F) : string * string :=
  if dec 12 1 <? sector_fos then ("rgba(0, 255, 136, 0.6)", "#00ff88")
  else if sector_fos <? dec 105 2 then ("rgba(255, 0, 60, 0.8)", "#ff003c")
  else ("rgba(255, 170, 0, 0.6)", "#ffaa00").

Definition sector_polys (fos : F) : list (string * Sector F) :=
  [ ("Sector 1", mkSector [0; 1; 1; 0; 0] [2; 2; 3; 3; 2] (dec 18 1));
    ("Sector 2", mkSector [1; 2; 2; 1; 1] [2; 2; 3; 3; 2] (dec 16 1));
    ("Sector 3", mkSector [2; 3; 3; 2; 2] [2; 2; 3; 3; 2] (dec 15 1));
    ("Sector 4", mkSector [0; 1; 1; 0; 0] [1; 1; 2; 2; 1] fos);
    ("Sector 5", mkSector [1; 2; 2; 1; 1] [1; 1; 2; 2; 1] (dec 17 1)) ]%string.

(** [sum(coords[:-1]) / 4]. *)
Definition sector_center (coords : list Z) : F :=
  of_Z (foldr Z.add 0%Z (py_slice_to (-1) coords)) / of_Z 4.

(** The sector heatmap: for each polygon its fill, its outline and the
    position of its label. *)
Definition heatmap (fos : F) : list (SectorTrace F) :=
  map (fun '(sector_name, data) =>
         let sector_fos := sec_fos data in
         let '(color, line_color) := sector_colors sector_fos in
         mkSectorTrace sector_name color line_color
           (sector_center (sec_x data)) (sector_center (sec_y data)))
      (sector_polys fos).

End App.

(** * Vocabulary of the statements *)

(** The most recent [n] entries of a series, in their order. *)
Definition lastn {A : Type} (n : nat) (l : list A) : list A := drop (length l - n) l.

(** ** Vocabulary of the statements about the monitoring loop *)

Section AppVocabulary.
Context {F : Type} `{PyFloat F} `{PyTranscendental F}.

(** Every column of the frame has as many entries as the frame has rows:
    what [pd.DataFrame] guarantees. *)
Definition df_wf (df : DataFrame F) : Prop :=
  length (Lithology df) = df_len df /\ length (RQD df) = df_len df
  /\ length (Pore_Water_Pressure_kPa df) = df_len df
  /\ length (Raw_Acoustic_Emission_g df) = df_len df
  /\ length (Displacement_mm df) = df_len df
  /\ length (Scenario_Intensity df) = df_len df.

(** The four series the telemetry buffer holds. *)
Definition buffer_holds (buf : gmap string (list F)) (times pressures displacements foss : list F)
    : Prop :=
  buf !! "time"%string = Some times /\ buf !! "pressure"%string = Some pressures
  /\ buf !! "displacement"%string = Some displacements /\ buf !! "fos"%string = Some foss.

(** [is_critical] at replay index [i]: FoS below 1.05 there. *)
Definition is_critical_at (df : DataFrame F) (i : Z) : bool :=
  match iloc df i with
  | Ok row => is_critical_fos (point_fos row)
  | Raise _ => false
  end.

(** The replay indices the loop gets to: all of them up to and including
    the first critical one past index 800. *)
Fixpoint processed (df : DataFrame F) (indices : list Z) : list Z :=
  match indices with
  | [] => []
  | i :: rest =>
      if is_critical_at df i && (800 <? i)%Z then [i] else i :: processed df rest
  end.

Definition rows_at (df : DataFrame F) (indices : list Z) : list (Row F) :=
  omap (fun i => match iloc df i with Ok row => Some row | Raise _ => None end) indices.

(** The alarm block run over a list of replay indices. *)
Definition stream_alarms (now : Z -> string) (df : DataFrame F) (indices : list Z)
    (st : SessionState F) : SessionState F :=
  fold_left (fun st i => stream_alarm (now i) (is_critical_at df i) st) indices st.

(** The buffer holds its four series, the three point series in step
    with each other, and none longer than the cap. *)
Definition buffer_synced (buf : gmap string (list F)) : Prop :=
  exists lt lp ld lf,
    buffer_holds buf lt lp ld lf /\ length lp = length lt /\ length ld = length lt
    /\ (length lt <= max_buffer)%nat /\ (length lf <= max_buffer)%nat.


End AppVocabulary.

Section ForensicVocabulary.
Context {F : Type} `{PyFloat F} `{PyTranscendental F}.

(** The slice MANUAL FORENSICS looks at for a slider position. *)
Definition forensic_slice (df : DataFrame F) (timeline_hour : F) : DataFrame F :=
  let current_data := df_mask (map (fun t => fle t timeline_hour) (Time_Hrs df)) df in
  if (df_len current_data =? 0)%nat then iloc_to 1 df else current_data.

(** [is_critical] as MANUAL FORENSICS evaluates it at a slider position. *)
Definition forensic_critical (df : DataFrame F) (timeline_hour : F) : bool :=
  match iloc (forensic_slice df timeline_hour) (-1) with
  | Ok latest => is_critical_fos (point_fos latest)
  | Raise _ => false
  end.

End ForensicVocabulary.

(** ** The reference definition of the inverse velocity *)

Section InverseVelocityReference.
Context {F : Type} `{PyFloat F}.

(** The sample indices 0, 1, ..., n-1 as coordinates. *)
Definition sample_index (n : nat) : list F :=
  map (fun i => of_Z (Z.of_nat i)) (seq 0 n).

(** The inverse velocity as the specification words it: fewer than five
    samples give the sentinel 999.0; otherwise the last ten samples are
    differentiated numerically with respect to the given time series, or
    to the sample index when none is given, the last value of the
    derivative is the velocity [v], and the result is the sentinel 99.0
    when [|v| < 1e-4] and [1/|v|] otherwise. *)
Definition inverse_velocity_reference (displacement_series : list F)
    (time_series : option (list F)) : result F :=
  if (length displacement_series <? 5)%nat then Ok (of_Z 999)
  else
    let recent := lastn 10 displacement_series in
    let coordinates :=
      match time_series with
      | Some ts => lastn 10 ts
      | None => sample_index (length recent)
      end in
    derivative ← np_gradient recent (Some coordinates);
    match last derivative with
    | None => Raise IndexError
    | Some v =>
        if flt (fabs v) (dec 1 4) then Ok (of_Z 99) else Ok (fdiv (of_Z 1) (fabs v))
    end.

End InverseVelocityReference.

(** ** Vocabulary about series of reals *)

(** Each value is strictly below every later one. *)
Definition strictly_increasing (l : list R) : Prop :=
  forall (i j : nat) (x y : R),
    l !! i = Some x -> l !! j = Some y -> (i < j)%nat -> (x < y)%R.

(** A generator state whose every variate is zero. *)
Definition zero_rng : RandomState R := mkRandomState (fun _ => 0%R) (fun _ => 0%Z) 0.

(** The step the last difference is divided by: 1 without a time
    series, the difference of the last two time values with one. *)
Definition last_step (t : option (list R)) (step : R) : Prop :=
  match t with
  | None => step = 1%R
  | Some ts => exists ts' s u, ts = ts' ++ [s; u] /\ step = (u - s)%R
  end.

(** ** A three-point frame and an environment without a model *)

(** Hours 0, 1, 2: a point under full pore pressure, a drained point on a
    relaxed slope, and a point under full pore pressure again. *)
Definition demo_frame : DataFrame R :=
  mkDataFrame [0; 1; 2]%R
    (replicate 3 "Quartzite (Fractured)"%string) [45; 45; 45]%Z
    [200; 0; 200]%R [0; 0; 0]%R [0; -20; 0]%R [0; 0; 0]%R.

Definition no_model_env : PyEnv R :=
  mkPyEnv false false (fun _ => false) (fun _ => Raise ImportError).

Definition demo_engine : LithosML R :=
  LithosML_init no_model_env "models/seismic_classifier.pkl".

Definition noon : Z -> string := fun _ => "12:00:00"%string.

(** What one run of the script gets in LIVE STREAM mode on the monsoon
    scenario at playback speed 5, with the clock standing at [clock]. *)
Definition demo_inputs (button : Button) (source_option clock : string) : Inputs R :=
  mkInputs button (LIVE_STREAM source_option 5) "monsoon" clock (fun _ => clock)
    zero_rng no_model_env demo_engine.

(** ** Vocabulary of the statements about the generated frames *)

Section GeneratorVocabulary.
Context {F : Type} `{PyFloat F} `{PyTranscendental F}.

(** The scenario branch of [generate_gsi_dataset]. *)
Definition scenario_data (time_hrs : list F) (rows : Z) (scenario : string)
    (g : RandomState F) : result (ScenarioData F * RandomState F) :=
  if String.eqb scenario "monsoon" then Ok (_generate_monsoon_scenario time_hrs rows g)
  else if String.eqb scenario "seismic" then Ok (_generate_seismic_scenario time_hrs rows g)
  else _generate_stable_scenario time_hrs rows g.

(** The creep displacement of the monsoon scenario under pore pressure [p]. *)
Definition monsoon_displacement (p : F) : F :=
  fmul (dec 5 1) (fexp (fmul (dec 3 1) (fdiv p (of_Z 10)))).

(** The pulse of the seismic scenario at hour [t]. *)
Definition seismic_pulse (t : F) : F :=
  fexp (fdiv (fneg (fmul (fsub t (of_Z 12)) (fsub t (of_Z 12)))) (of_Z 2)).

(** The [i]-th sample of a call [np.random.normal(loc, scale, size)] made
    when [consumed] variates have already been drawn from state [g]. *)
Definition normal_sample (loc scale : F) (g : RandomState F) (consumed i : nat) : F :=
  fadd loc (fmul scale (std_normal g (cursor g + consumed + i)%nat)).

End GeneratorVocabulary.

(** The hour of row [i] in a frame of [N] rows. *)
Definition grid_hour (N : Z) (i : nat) : R := (INR i * (24 / IZR (N - 1)))%R.

(** The sum of a series of reals. *)
Fixpoint Rsum (l : list R) : R :=
  match l with
  | [] => 0%R
  | x :: l' => (x + Rsum l')%R
  end.

(** ** Vocabulary of the statements about sessions *)

Section SessionVocabulary.
Context {F : Type} `{PyFloat F} `{PyTranscendental F}.

(** What the widgets can deliver: the playback slider runs from 1 to 20. *)
Definition valid_inputs (inp : Inputs F) : Prop :=
  match in_mode inp with
  | LIVE_STREAM _ playback_speed => (1 <= playback_speed <= 20)%Z
  | MANUAL_FORENSICS _ => True
  end.

(** The four series of the buffer are there, equally long, and within
    the cap. *)
Definition buffer_aligned (buf : gmap string (list F)) : Prop :=
  exists lt lp ld lf,
    buffer_holds buf lt lp ld lf /\ length lp = length lt /\ length ld = length lt
    /\ length lf = length lt /\ (length lt <= max_buffer)%nat.

Definition session_invariant (st : SessionState F) : Prop :=
  buffer_aligned (telemetry_buffer st)
  /\ api_connected st = false
  /\ test_siren st = false
  /\ (alarm_already_logged st = true -> alarm_triggered st = true /\ command_log st <> []).

(** The session states a user can bring about: a fresh session, and any
    state a run of the script leaves behind. *)
Inductive reachable : SessionState F -> Prop :=
| reachable_fresh : reachable initial_session
| reachable_run (inp : Inputs F) (st st' : SessionState F) (shown : Shown F) :
    reachable st -> valid_inputs inp -> script_run inp st = Ok (st', shown) ->
    reachable st'.

(** [int(1000 * 0.8)] returns: the product is neither infinite nor a
    nan, as in binary64 and over the reals. *)
Definition spike_start_returns : Prop :=
  exists k : Z, ftrunc (fmul (of_Z 1000) (dec 8 1)) = Ok k.

End SessionVocabulary.

(** A classifier that always predicts failure with probability 0.875,
    and an engine and an environment holding it. *)
Definition alarmed_classifier : Classifier float :=
  mkClassifier (fun _ _ => Ok [1]%Z) (fun _ _ => Ok [[0.125; 0.875]%float]).

Definition loaded_env : PyEnv float :=
  mkPyEnv true true (fun _ => true) (fun _ => Ok alarmed_classifier).

Definition loaded_engine : LithosML float :=
  LithosML_init loaded_env "models/seismic_classifier.pkl".

(** * Tactics *)

(** Decide the integer comparisons a Python index computation branches on. *)
Ltac zbool :=
  repeat match goal with
  | |- context [(?a <? ?b)%Z] => destruct (Z.ltb_spec a b); try lia
  | |- context [(?a <=? ?b)%Z] => destruct (Z.leb_spec a b); try lia
  | |- context [(?a =? ?b)%Z] => destruct (Z.eqb_spec a b); try lia
  end.

(** Unfold the float interface at the reals and evaluate the powers of
    ten of the decimal literals. *)
Ltac at_R :=
  unfold dec in *;
  cbn [fadd fsub fmul fdiv fneg fabs of_Z ftan fsin fexp fpi R_ops R_transcendental] in *;
  repeat match goal with
  | |- context [(10 ^ Z.of_nat ?k)%Z] =>
      let z := eval vm_compute in (10 ^ Z.of_nat k)%Z in
      change (10 ^ Z.of_nat k)%Z with z
  | H : context [(10 ^ Z.of_nat ?k)%Z] |- _ =>
      let z := eval vm_compute in (10 ^ Z.of_nat k)%Z in
      change (10 ^ Z.of_nat k)%Z with z in H
  end.

(** Evaluate [Z.of_nat] at the literals in the goal. *)
Ltac of_nat_literals :=
  repeat match goal with
  | |- context [Z.of_nat ?n] =>
      let z := eval vm_compute in (Z.of_nat n) in change (Z.of_nat n) with z
  end.

(** * Properties *)

(** ** The embedding computes in binary64 *)

Example f64_decimal_literals :
  (dec 1 1 =? 0x1.999999999999ap-4)%float = true
  /\ (dec 1 4 =? 0x1.a36e2eb1c432dp-14)%float = true
  /\ (dec 105 2 =? 0x1.0cccccccccccdp+0)%float = true
  /\ (dec 25 1 =? 2.5)%float = true.
Proof. vm_compute. repeat split; reflexivity. Qed.

Example f64_linspace_five : np_linspace 0%float 24%float 5 = Ok [0; 6; 12; 18; 24]%float.
Proof. vm_compute. reflexivity. Qed.

Example f64_gradient_uneven :
  np_gradient (map f64_of_Z [1; 2; 4; 8; 16]) (Some (map f64_of_Z [0; 1; 2; 4; 8]))
  = Ok [1; 1.5; 2; 2; 2]%float.
Proof. vm_compute. reflexivity. Qed.

Example range_by_300 : py_range 0 1000 300 = Ok [0; 300; 600; 900].
Proof. reflexivity. Qed.

Example f64_int_of_800 : ftrunc (fmul (of_Z 1000) (dec 8 1) : float) = Ok 800.
Proof. vm_compute. reflexivity. Qed.

(** ** Python indexing and slicing *)

Section PyListFacts.
Context {A : Type}.
Implicit Types l : list A.

Lemma py_index_nonneg l (i : nat) x :
  l !! i = Some x -> py_index l (Z.of_nat i) = Ok x.
Proof.
  intros Hx. pose proof (lookup_lt_Some _ _ _ Hx) as Hlt.
  unfold py_index. cbv zeta. zbool.
  simpl. rewrite Nat2Z.id, Hx. reflexivity.
Qed.

Lemma py_index_from_end l (k : nat) x :
  (0 < k <= length l)%nat -> l !! (length l - k)%nat = Some x ->
  py_index l (- Z.of_nat k) = Ok x.
Proof.
  intros Hk Hx. unfold py_index. cbv zeta. zbool.
  simpl.
  replace (Z.to_nat (- Z.of_nat k + Z.of_nat (length l))) with (length l - k)%nat by lia.
  rewrite Hx. reflexivity.
Qed.

Lemma py_index_in_range l (i : Z) :
  (- Z.of_nat (length l) <= i < Z.of_nat (length l))%Z -> exists x, py_index l i = Ok x.
Proof.
  intros Hi. destruct (Z.ltb_spec i 0) as [Hneg|Hpos].
  - destruct (lookup_lt_is_Some_2 l (length l - Z.to_nat (- i))%nat) as [x Hx]; [lia|].
    exists x. replace i with (- Z.of_nat (Z.to_nat (- i)))%Z by lia.
    apply py_index_from_end; [lia | exact Hx].
  - destruct (lookup_lt_is_Some_2 l (Z.to_nat i)) as [x Hx]; [lia|].
    exists x. replace i with (Z.of_nat (Z.to_nat i)) by lia.
    apply py_index_nonneg, Hx.
Qed.

Lemma py_index_last l x : py_index (l ++ [x]) (-1) = Ok x.
Proof.
  apply (py_index_from_end _ 1).
  - rewrite length_app. simpl. lia.
  - rewrite length_app. simpl.
    replace (length l + 1 - 1)%nat with (length l) by lia.
    apply list_lookup_middle. reflexivity.
Qed.

Lemma py_slice_from_lastn (n : nat) l :
  (0 < n)%nat -> py_slice_from (- Z.of_nat n) l = lastn n l.
Proof.
  intros Hn. unfold py_slice_from, lastn. cbv zeta. zbool.
  f_equal. lia.
Qed.

Lemma py_slice_to_length (k : Z) l :
  length (py_slice_to k l) =
  Z.to_nat (if (k <? 0)%Z then Z.max (k + Z.of_nat (length l)) 0
            else Z.min k (Z.of_nat (length l))).
Proof.
  unfold py_slice_to. cbv zeta. rewrite length_take. zbool; lia.
Qed.

Lemma lastn_length (n : nat) l : length (lastn n l) = Nat.min (length l) n.
Proof. unfold lastn. rewrite length_drop. lia. Qed.

Lemma lastn_all (n : nat) l : (length l <= n)%nat -> lastn n l = l.
Proof.
  intros Hle. unfold lastn. replace (length l - n)%nat with 0%nat by lia. reflexivity.
Qed.

Lemma lastn_app_lastn (n : nat) l l' : lastn n (lastn n l ++ l') = lastn n (l ++ l').
Proof.
  destruct (Nat.le_gt_cases (length l) n) as [Hle|Hgt].
  - rewrite (lastn_all n l) by exact Hle. reflexivity.
  - unfold lastn at 1 3. rewrite !length_app, lastn_length.
    destruct (Nat.le_gt_cases n (length l')) as [Hl'|Hl'].
    + rewrite !drop_app_ge by (rewrite ?lastn_length; lia).
      rewrite lastn_length. f_equal. lia.
    + rewrite !drop_app_le by (rewrite ?lastn_length; lia).
      f_equal. unfold lastn. rewrite drop_drop. f_equal. lia.
Qed.

End PyListFacts.

(** ** The exception monad *)

Lemma bind_Ok {A B : Type} (a : A) (k : A -> result B) : (Ok a ≫= k) = k a.
Proof. reflexivity. Qed.

Lemma bind_Ok_inv {A B : Type} (m : result A) (k : A -> result B) (b : B) :
  (m ≫= k) = Ok b -> exists a, m = Ok a /\ k a = Ok b.
Proof. destruct m as [a|e]; [eauto | discriminate]. Qed.

(** ** [np.gradient] returns, and ends with the one-sided difference *)

Section GradientFacts.
Context {F : Type} `{PyFloat F}.
Local Open Scope py_scope.

Lemma np_diff_length (x : list F) : length (np_diff x) = (length x - 1)%nat.
Proof. unfold np_diff. rewrite length_zip_with, length_drop. lia. Qed.

Lemma np_gradient_spacing_total (f : list F) (x : option (list F)) :
  (2 <= length f)%nat ->
  (forall xs, x = Some xs -> length xs = length f) ->
  exists ax_dx, np_gradient_spacing f x = Ok ax_dx /\
    match ax_dx with
    | Uniform _ => True
    | NonUniform diffx => (1 <= length diffx)%nat
    end.
Proof.
  intros Hf Hx. destruct x as [xs|]; simpl.
  - rewrite (Hx xs eq_refl), Nat.eqb_refl. simpl.
    destruct (py_index_in_range (np_diff xs) 0) as [d0 Hd0].
    { rewrite np_diff_length, (Hx xs eq_refl). lia. }
    rewrite Hd0, bind_Ok.
    destruct (forallb _ _).
    + eexists; split; [reflexivity | exact I].
    + eexists; split; [reflexivity|]. simpl.
      rewrite np_diff_length, (Hx xs eq_refl). lia.
  - eexists; split; [reflexivity | exact I].
Qed.

Lemma np_gradient_total (f : list F) (x : option (list F)) :
  (2 <= length f)%nat ->
  (forall xs, x = Some xs -> length xs = length f) ->
  exists g v, np_gradient f x = Ok (g ++ [v]).
Proof.
  intros Hf Hx. unfold np_gradient.
  destruct (np_gradient_spacing_total f x Hf Hx) as (ax_dx & -> & Hdx).
  rewrite bind_Ok.
  replace (length f <? 2)%nat with false by (symmetry; apply Nat.ltb_ge; lia).
  assert (exists dx_0,
    match ax_dx with Uniform dx => Ok dx | NonUniform diffx => py_index diffx 0 end
    = Ok dx_0) as [dx_0 ->].
  { destruct ax_dx as [dx|diffx]; [eauto|]. apply py_index_in_range. lia. }
  assert (exists dx_n,
    match ax_dx with Uniform dx => Ok dx | NonUniform diffx => py_index diffx (-1) end
    = Ok dx_n) as [dx_n ->].
  { destruct ax_dx as [dx|diffx]; [eauto|]. apply py_index_in_range. lia. }
  destruct (py_index_in_range f 0) as [f0 ->]; [lia|].
  destruct (py_index_in_range f 1) as [f1 ->]; [lia|].
  destruct (py_index_in_range f (-1)) as [fn1 ->]; [lia|].
  destruct (py_index_in_range f (-2)) as [fn2 ->]; [lia|].
  rewrite !bind_Ok.
  exists ([fdiv (fsub f1 f0) dx_0] ++ np_gradient_interior f ax_dx), (fdiv (fsub fn1 fn2) dx_n).
  rewrite <- app_assoc. reflexivity.
Qed.

(** [inverse_velocity] returns whenever the recent windows of the two
    series have the same length. *)
Lemma inverse_velocity_total (d : list F) (t : option (list F)) :
  (forall ts, t = Some ts ->
     length (py_slice_from (-10) ts) = length (py_slice_from (-10) d)) ->
  exists r, inverse_velocity d t = Ok r.
Proof.
  intros Ht. unfold inverse_velocity. cbv zeta.
  destruct (Nat.ltb_spec (length d) 5) as [Hlt|Hge]; [eauto|].
  assert (2 <= length (py_slice_from (-10) d))%nat as Hrecent.
  { rewrite (py_slice_from_lastn 10) by lia. rewrite lastn_length. lia. }
  assert (exists v,
    match t with
    | Some ts =>
        np_gradient (py_slice_from (-10) d) (Some (py_slice_from (-10) ts)) ≫=
        (fun g => py_index g (-1))
    | None => np_gradient (py_slice_from (-10) d) None ≫= (fun g => py_index g (-1))
    end = Ok v) as [v ->].
  { destruct t as [ts|].
    - destruct (np_gradient_total (py_slice_from (-10) d) (Some (py_slice_from (-10) ts)))
        as (g & v & ->); [exact Hrecent | | ].
      + intros xs [= <-]. apply Ht. reflexivity.
      + rewrite bind_Ok, py_index_last. eauto.
    - destruct (np_gradient_total (py_slice_from (-10) d) None) as (g & v & ->);
        [exact Hrecent | discriminate | ].
      rewrite bind_Ok, py_index_last. eauto. }
  rewrite bind_Ok. destruct (flt _ _); eauto.
Qed.

Lemma calculate_ttf_default_total (d ts : list F) :
  length ts = length d -> exists r, calculate_ttf_default d (Some ts) = Ok r.
Proof.
  intros Hlen. unfold calculate_ttf_default, calculate_ttf.
  destruct (inverse_velocity_total d (Some ts)) as [r ->]; [|rewrite bind_Ok; eauto].
  intros ? [= <-]. rewrite !(py_slice_from_lastn 10), !lastn_length by lia. lia.
Qed.

End GradientFacts.

(** ** The classifier stub never raises *)

Section LithosMLFacts.
Context {F : Type} `{PyFloat F}.

Lemma _load_model_absent (env : PyEnv F) (self : LithosML F) :
  model_loaded self = false ->
  os_path_exists env (model_path self) = false \/ joblib_imports env = false
  \/ (exists e, joblib_load env (model_path self) = Raise e) ->
  model_loaded (_load_model env self) = false.
Proof.
  intros Hself Hcase. unfold _load_model.
  destruct (joblib_imports env); simpl; [|exact Hself].
  destruct (os_path_exists env (model_path self)); simpl; [|exact Hself].
  destruct Hcase as [Hc|[Hc|[e Hc]]]; try discriminate.
  rewrite Hc. simpl. exact Hself.
Qed.

Lemma predict_risk_total (env : PyEnv F) (self : LithosML F) (pressure displacement : F) :
  exists label prob, predict_risk env self pressure displacement = Ok (label, prob).
Proof.
  unfold predict_risk. destruct (model_loaded self); simpl; [|eauto].
  match goal with |- context [try_except ?body _] => destruct body as [[label prob]|] end;
    simpl; eauto.
Qed.

(** C9.  [predict_risk] returns a pair for every environment, engine and
    input; an engine whose model is not loaded answers
    [("Model Not Loaded", 0.0)] (in particular the engine constructed
    when the artifact is absent or fails to load), and a loaded engine
    whose [predict] or [predict_proba] call raises answers
    [("Error", 0.0)]. *)
Theorem predict_risk_never_raises (env : PyEnv F) (self : LithosML F)
    (pressure displacement : F) :
  (exists label prob, predict_risk env self pressure displacement = Ok (label, prob))
  /\ (model_loaded self = false ->
      predict_risk env self pressure displacement = Ok ("Model Not Loaded"%string, of_Z 0))
  /\ (forall path,
        os_path_exists env path = false \/ joblib_imports env = false
        \/ (exists e, joblib_load env path = Raise e) ->
        predict_risk env (LithosML_init env path) pressure displacement
        = Ok ("Model Not Loaded"%string, of_Z 0))
  /\ (forall m e,
        model_loaded self = true -> model self = Some m ->
        predict m pressure displacement = Raise e
        \/ predict_proba m pressure displacement = Raise e ->
        predict_risk env self pressure displacement = Ok ("Error"%string, of_Z 0)).
Proof.
  repeat split.
  - apply predict_risk_total.
  - intros Hnot. unfold predict_risk. rewrite Hnot. reflexivity.
  - intros path Hcase. unfold predict_risk, LithosML_init.
    rewrite _load_model_absent; [reflexivity | reflexivity | exact Hcase].
  - intros m e Hloaded Hm Hraise. unfold predict_risk. rewrite Hloaded, Hm. simpl.
    destruct (pandas_imports env); simpl; [|reflexivity].
    destruct Hraise as [Hp|Hp].
    + rewrite Hp. reflexivity.
    + rewrite Hp. destruct (predict m pressure displacement) as [labels|]; simpl;
        [|reflexivity].
      destruct (py_index labels 0); reflexivity.
Qed.

End LithosMLFacts.

(** ** The monitoring loop: frames, buffer and a tick *)

Section AppFacts.
Context {F : Type} `{PyFloat F} `{PyTranscendental F}.

Lemma iloc_total (df : DataFrame F) (i : Z) :
  df_wf df -> (- Z.of_nat (df_len df) <= i < Z.of_nat (df_len df))%Z ->
  exists row, iloc df i = Ok row.
Proof.
  intros (Hl & Hq & Hp & Ha & Hd & Hs) Hi. unfold iloc.
  destruct (py_index_in_range (Time_Hrs df) i) as [t ->]; [exact Hi|].
  destruct (py_index_in_range (Lithology df) i) as [l ->]; [rewrite Hl; exact Hi|].
  destruct (py_index_in_range (RQD df) i) as [q ->]; [rewrite Hq; exact Hi|].
  destruct (py_index_in_range (Pore_Water_Pressure_kPa df) i) as [p ->];
    [rewrite Hp; exact Hi|].
  destruct (py_index_in_range (Raw_Acoustic_Emission_g df) i) as [a ->];
    [rewrite Ha; exact Hi|].
  destruct (py_index_in_range (Displacement_mm df) i) as [d ->]; [rewrite Hd; exact Hi|].
  destruct (py_index_in_range (Scenario_Intensity df) i) as [s ->]; [rewrite Hs; exact Hi|].
  rewrite !bind_Ok. eauto.
Qed.

Lemma iloc_to_columns (df : DataFrame F) (k : Z) :
  df_wf df -> length (Time_Hrs (iloc_to k df)) = length (Displacement_mm (iloc_to k df)).
Proof.
  intros (_ & _ & _ & _ & Hd & _). unfold iloc_to. simpl.
  rewrite !py_slice_to_length, Hd. reflexivity.
Qed.

Lemma buffer_append_Some (key : string) (x : F) (buf : gmap string (list F)) (l : list F) :
  buf !! key = Some l -> buffer_append key x buf = Ok (<[key := l ++ [x]]> buf).
Proof. intros Hl. unfold buffer_append. rewrite Hl. reflexivity. Qed.

Lemma buffer_get_Some (key : string) (buf : gmap string (list F)) (l : list F) :
  buf !! key = Some l -> buffer_get key buf = Ok l.
Proof. intros Hl. unfold buffer_get. rewrite Hl. reflexivity. Qed.

Lemma buffer_point_spec (row : Row F) (buf : gmap string (list F)) (lt lp ld lf : list F) :
  buffer_holds buf lt lp ld lf -> length lp = length lt -> length ld = length lt ->
  exists buf' lf',
    buffer_point row buf = Ok buf'
    /\ buffer_holds buf'
         (lastn max_buffer (lt ++ [row_Time_Hrs row]))
         (lastn max_buffer (lp ++ [row_Pore_Water_Pressure_kPa row]))
         (lastn max_buffer (ld ++ [row_Displacement_mm row])) lf'
    /\ (lf' = lf \/ lf' = lastn max_buffer lf).
Proof.
  intros (Ht & Hp & Hd & Hf) Hlp Hld. unfold buffer_point.
  rewrite (buffer_append_Some _ _ _ lt) by exact Ht. rewrite bind_Ok.
  rewrite (buffer_append_Some _ _ _ lp) by (rewrite lookup_insert_ne by done; exact Hp).
  rewrite bind_Ok.
  rewrite (buffer_append_Some _ _ _ ld)
    by (rewrite !lookup_insert_ne by done; exact Hd).
  rewrite bind_Ok.
  rewrite (buffer_get_Some _ _ (lt ++ [row_Time_Hrs row]))
    by (rewrite !lookup_insert_ne by done; apply lookup_insert_eq).
  rewrite bind_Ok.
  destruct (Nat.ltb_spec max_buffer (length (lt ++ [row_Time_Hrs row]))) as [Hlong|Hshort].
  - eexists _, (lastn max_buffer lf). split; [reflexivity|]. split; [|right; reflexivity].
    unfold buffer_holds. rewrite !lookup_fmap.
    repeat first [rewrite lookup_insert_eq | rewrite lookup_insert_ne by done].
    rewrite Hf. simpl.
    rewrite !py_slice_from_lastn by (unfold max_buffer; lia). auto.
  - eexists _, lf. split; [reflexivity|]. split; [|left; reflexivity].
    rewrite length_app in Hshort. simpl in Hshort.
    unfold buffer_holds.
    repeat first [rewrite lookup_insert_eq | rewrite lookup_insert_ne by done].
    rewrite Hf.
    rewrite !lastn_all by (rewrite length_app; simpl; lia). auto.
Qed.

Lemma buffer_fos_spec (fos : F) (buf : gmap string (list F)) (lf : list F) :
  buf !! "fos"%string = Some lf ->
  exists buf',
    buffer_fos fos buf = Ok buf'
    /\ buf' !! "fos"%string = Some (lastn max_buffer (lf ++ [fos]))
    /\ (forall k, k <> "fos"%string -> buf' !! k = buf !! k).
Proof.
  intros Hf. unfold buffer_fos.
  rewrite (buffer_append_Some _ _ _ lf) by exact Hf. rewrite bind_Ok.
  rewrite (buffer_get_Some _ _ (lf ++ [fos])) by apply lookup_insert_eq.
  rewrite bind_Ok.
  destruct (Nat.ltb_spec max_buffer (length (lf ++ [fos]))) as [Hlong|Hshort].
  - eexists. split; [reflexivity|]. split.
    + rewrite lookup_insert_eq, py_slice_from_lastn by (unfold max_buffer; lia).
      reflexivity.
    + intros k Hk. rewrite !lookup_insert_ne by done. reflexivity.
  - eexists. split; [reflexivity|]. split.
    + rewrite lookup_insert_eq, lastn_all by lia. reflexivity.
    + intros k Hk. rewrite lookup_insert_ne by done. reflexivity.
Qed.

Lemma live_stream_tick_spec (env : PyEnv F) (ml_engine : LithosML F) (now : Z -> string)
    (df : DataFrame F) (i : Z) (st : SessionState F) (lt lp ld lf : list F) :
  df_wf df -> (0 <= i < Z.of_nat (df_len df))%Z ->
  buffer_holds (telemetry_buffer st) lt lp ld lf ->
  length lp = length lt -> length ld = length lt ->
  exists row ttf ml_risk ml_prob buf',
    iloc df i = Ok row
    /\ live_stream_tick env ml_engine now df i st
       = Ok (stream_alarm (now i) (is_critical_fos (point_fos row)) (set_buffer buf' st),
             mkRendered (point_fos row) ttf ml_risk ml_prob (is_critical_fos (point_fos row)),
             is_critical_fos (point_fos row) && (800 <? i)%Z)
    /\ buffer_holds buf'
         (lastn max_buffer (lt ++ [row_Time_Hrs row]))
         (lastn max_buffer (lp ++ [row_Pore_Water_Pressure_kPa row]))
         (lastn max_buffer (ld ++ [row_Displacement_mm row]))
         (lastn max_buffer (lf ++ [point_fos row])).
Proof.
  intros Hwf Hi Hbuf Hlp Hld.
  destruct (iloc_total df i Hwf) as [row Hrow]; [lia|].
  destruct (buffer_point_spec row _ _ _ _ _ Hbuf Hlp Hld)
    as (buf1 & lf1 & Hpoint & (Ht1 & Hp1 & Hd1 & Hf1) & Hlf1).
  destruct (calculate_ttf_default_total (Displacement_mm (iloc_to (i + 1) df))
              (Time_Hrs (iloc_to (i + 1) df)) (iloc_to_columns df _ Hwf)) as [ttf Httf].
  destruct (predict_risk_total env ml_engine (row_Pore_Water_Pressure_kPa row)
              (row_Displacement_mm row)) as (ml_risk & ml_prob & Hml).
  destruct (buffer_fos_spec (point_fos row) buf1 lf1 Hf1) as (buf2 & Hfos & Hf2 & Hother).
  exists row, ttf, ml_risk, ml_prob, buf2. split; [exact Hrow|]. split.
  - unfold live_stream_tick. cbv zeta.
    rewrite Hrow, bind_Ok, Hpoint, bind_Ok, Httf, bind_Ok, Hml, bind_Ok, Hfos, bind_Ok.
    reflexivity.
  - unfold buffer_holds. rewrite !Hother by done. rewrite Hf2.
    repeat split; try assumption.
    destruct Hlf1 as [->| ->]; [reflexivity|]. f_equal. apply lastn_app_lastn.
Qed.

End AppFacts.

(** ** The LIVE STREAM loop as a whole *)

Section LoopFacts.
Context {F : Type} `{PyFloat F} `{PyTranscendental F}.

Lemma set_buffer_id (st : SessionState F) : set_buffer (telemetry_buffer st) st = st.
Proof. destruct st; reflexivity. Qed.

Lemma stream_alarm_set_buffer (ct : string) (c : bool) (b : gmap string (list F))
    (st : SessionState F) :
  stream_alarm ct c (set_buffer b st) = set_buffer b (stream_alarm ct c st).
Proof.
  unfold stream_alarm. simpl. destruct (c && negb (alarm_already_logged st)); reflexivity.
Qed.

Lemma stream_alarms_set_buffer (now : Z -> string) (df : DataFrame F) (indices : list Z)
    (b : gmap string (list F)) (st : SessionState F) :
  stream_alarms now df indices (set_buffer b st)
  = set_buffer b (stream_alarms now df indices st).
Proof.
  revert st. induction indices as [|i rest IH]; intros st; [reflexivity|].
  unfold stream_alarms in *. simpl. rewrite stream_alarm_set_buffer. apply IH.
Qed.

Lemma is_critical_at_row (df : DataFrame F) (i : Z) (row : Row F) :
  iloc df i = Ok row -> is_critical_at df i = is_critical_fos (point_fos row).
Proof. intros Hrow. unfold is_critical_at. rewrite Hrow. reflexivity. Qed.

Lemma rows_at_cons (df : DataFrame F) (i : Z) (rest : list Z) (row : Row F) :
  iloc df i = Ok row -> rows_at df (i :: rest) = row :: rows_at df rest.
Proof. intros Hrow. unfold rows_at. simpl. rewrite Hrow. reflexivity. Qed.

(** The loop returns; it renders exactly the indices of [processed]; the
    session state it leaves is the alarm block folded over them, with
    the buffer holding the last [max_buffer] entries of each series. *)
Lemma live_stream_loop_spec (env : PyEnv F) (ml_engine : LithosML F) (now : Z -> string)
    (df : DataFrame F) (indices : list Z) :
  df_wf df ->
  Forall (fun i => (0 <= i < Z.of_nat (df_len df))%Z) indices ->
  forall (st : SessionState F) (lt lp ld lf : list F),
  buffer_holds (telemetry_buffer st) lt lp ld lf ->
  length lp = length lt -> length ld = length lt ->
  (length lt <= max_buffer)%nat -> (length lf <= max_buffer)%nat ->
  exists trace buf',
    live_stream_loop env ml_engine now df indices st
    = Ok (set_buffer buf' (stream_alarms now df (processed df indices) st), trace)
    /\ map fst trace = processed df indices
    /\ map (fun ir => r_is_critical ir.2) trace = map (is_critical_at df) (processed df indices)
    /\ map (fun ir => r_fos ir.2) trace = map point_fos (rows_at df (processed df indices))
    /\ length (rows_at df (processed df indices)) = length trace
    /\ buffer_holds buf'
         (lastn max_buffer (lt ++ map row_Time_Hrs (rows_at df (processed df indices))))
         (lastn max_buffer
            (lp ++ map row_Pore_Water_Pressure_kPa (rows_at df (processed df indices))))
         (lastn max_buffer (ld ++ map row_Displacement_mm (rows_at df (processed df indices))))
         (lastn max_buffer (lf ++ map point_fos (rows_at df (processed df indices)))).
Proof.
  intros Hwf Hidx. induction Hidx as [|i rest Hi Hrest IH];
    intros st lt lp ld lf Hbuf Hlp Hld Hlt Hlf.
  - exists [], (telemetry_buffer st). simpl. rewrite set_buffer_id.
    do 5 (split; [reflexivity|]).
    unfold rows_at. simpl. rewrite !app_nil_r, !lastn_all by lia. exact Hbuf.
  - destruct (live_stream_tick_spec env ml_engine now df i st lt lp ld lf
                Hwf Hi Hbuf Hlp Hld)
      as (row & ttf & ml_risk & ml_prob & buf1 & Hrow & Htick & Hbuf1).
    simpl. rewrite Htick, bind_Ok. rewrite (is_critical_at_row df i row Hrow).
    destruct (is_critical_fos (point_fos row) && (800 <? i)%Z) eqn:Hstop.
    + eexists [(i, _)], buf1. rewrite (rows_at_cons df i [] row Hrow).
      unfold stream_alarms. simpl. rewrite (is_critical_at_row df i row Hrow).
      rewrite stream_alarm_set_buffer.
      do 5 (split; [reflexivity|]). exact Hbuf1.
    + destruct (IH (stream_alarm (now i) (is_critical_fos (point_fos row)) (set_buffer buf1 st))
                  (lastn max_buffer (lt ++ [row_Time_Hrs row]))
                  (lastn max_buffer (lp ++ [row_Pore_Water_Pressure_kPa row]))
                  (lastn max_buffer (ld ++ [row_Displacement_mm row]))
                  (lastn max_buffer (lf ++ [point_fos row])))
        as (trace & buf2 & Hloop & Hfst & Hcrit & Hfos & Hlen & Hbuf2).
      { rewrite stream_alarm_set_buffer. exact Hbuf1. }
      { rewrite !lastn_length, !length_app. simpl. lia. }
      { rewrite !lastn_length, !length_app. simpl. lia. }
      { rewrite lastn_length. lia. }
      { rewrite lastn_length. lia. }
      rewrite Hloop, bind_Ok.
      eexists ((i, _) :: trace), buf2.
      rewrite (rows_at_cons df i _ row Hrow).
      split.
      { f_equal. f_equal. unfold stream_alarms. simpl.
        rewrite (is_critical_at_row df i row Hrow).
        rewrite stream_alarm_set_buffer.
        fold (stream_alarms now df (processed df rest)
                (set_buffer buf1 (stream_alarm (now i) (is_critical_fos (point_fos row)) st))).
        rewrite stream_alarms_set_buffer. reflexivity. }
      simpl. rewrite Hfst, Hcrit, Hfos, Hlen, (is_critical_at_row df i row Hrow).
      do 4 (split; [reflexivity|]).
      destruct Hbuf2 as (Ht2 & Hp2 & Hd2 & Hf2).
      rewrite !lastn_app_lastn, <- !app_assoc in Ht2, Hp2, Hd2, Hf2.
      repeat split; assumption.
Qed.

Lemma py_range_from_zero (stop step : Z) :
  (0 < step)%Z ->
  exists indices, py_range 0 stop step = Ok indices
    /\ Forall (fun i => (0 <= i < stop)%Z) indices.
Proof.
  intros Hstep. unfold py_range. zbool. eexists. split; [reflexivity|].
  apply Forall_forall. intros i Hin. apply list_elem_of_In, in_map_iff in Hin.
  destruct Hin as (k & <- & Hk). apply in_seq in Hk.
  assert (Z.of_nat k < (stop - 0 + step - 1) / step)%Z as Hlt by lia.
  assert (Z.of_nat k * step <= stop - 0 + step - 1 - step)%Z; [|lia].
  assert (Z.of_nat k + 1 <= (stop - 0 + step - 1) / step)%Z as Hle by lia.
  pose proof (Z.mul_div_le (stop - 0 + step - 1) step Hstep) as Hdiv.
  nia.
Qed.

End LoopFacts.

(** ** The alarm latch and the early stop, on the pure side *)

Section LatchFacts.
Context {F : Type} `{PyFloat F} `{PyTranscendental F}.

Lemma stream_alarms_latched (now : Z -> string) (df : DataFrame F) (indices : list Z)
    (st : SessionState F) :
  alarm_already_logged st = true -> stream_alarms now df indices st = st.
Proof.
  revert st. induction indices as [|i rest IH]; intros st Hst; [reflexivity|].
  unfold stream_alarms in *. simpl. unfold stream_alarm at 2. rewrite Hst.
  rewrite andb_false_r. apply IH, Hst.
Qed.

Lemma stream_alarms_first_critical (now : Z -> string) (df : DataFrame F)
    (indices : list Z) (st : SessionState F) (i : Z) :
  alarm_already_logged st = false -> i ∈ indices -> is_critical_at df i = true ->
  exists pre i0 post,
    indices = pre ++ i0 :: post
    /\ Forall (fun j => is_critical_at df j = false) pre
    /\ is_critical_at df i0 = true
    /\ stream_alarms now df indices st
       = log_extend (stream_alarm_batch (now i0)) (set_alarm true true st).
Proof.
  revert st. induction indices as [|j rest IH]; intros st Hst Hin Hcrit.
  - apply elem_of_nil in Hin. destruct Hin.
  - destruct (is_critical_at df j) eqn:Hj.
    + exists [], j, rest. split; [reflexivity|]. split; [constructor|].
      split; [exact Hj|].
      unfold stream_alarms. simpl. unfold stream_alarm at 2. rewrite Hj, Hst. simpl.
      apply stream_alarms_latched. reflexivity.
    + apply elem_of_cons in Hin. destruct Hin as [->|Hin]; [congruence|].
      destruct (IH st Hst Hin Hcrit) as (pre & i0 & post & -> & Hpre & Hi0 & Hst').
      exists (j :: pre), i0, post. split; [reflexivity|].
      split; [constructor; assumption|]. split; [exact Hi0|].
      unfold stream_alarms in *. simpl. unfold stream_alarm at 2. rewrite Hj. simpl.
      exact Hst'.
Qed.

(** The Reset button clears the alarm state, the log and the buffer. *)
Lemma press_reset_clears (st : SessionState F) :
  inject_failure st = true ->
  alarm_triggered (press_reset st) = false
  /\ alarm_already_logged (press_reset st) = false
  /\ command_log (press_reset st) = []
  /\ telemetry_buffer (press_reset st) = empty_buffer.
Proof. intros Hst. unfold press_reset. rewrite Hst. repeat split. Qed.

(** The INJECT FAILURE button re-arms the latch and keeps the log. *)
Lemma press_inject_failure_rearms (st : SessionState F) :
  alarm_already_logged (press_inject_failure st) = false
  /\ command_log (press_inject_failure st) = command_log st.
Proof. split; reflexivity. Qed.

(** The loop breaks only at a critical tick, so the first critical index
    of a replay is always among the processed ones. *)
Lemma processed_keeps_critical (df : DataFrame F) (indices : list Z) (i : Z) :
  i ∈ indices -> is_critical_at df i = true ->
  exists i0, i0 ∈ processed df indices /\ is_critical_at df i0 = true.
Proof.
  induction indices as [|j rest IH]; intros Hin Hcrit.
  - apply elem_of_nil in Hin. destruct Hin.
  - simpl. destruct (is_critical_at df j) eqn:Hj.
    + exists j. split; [|exact Hj]. destruct (800 <? j)%Z; simpl; apply elem_of_cons; auto.
    + simpl. apply elem_of_cons in Hin. destruct Hin as [->|Hin]; [congruence|].
      destruct (IH Hin Hcrit) as (i0 & Hi0 & Hc). exists i0. split; [|exact Hc].
      apply elem_of_cons. auto.
Qed.

Lemma processed_stops (df : DataFrame F) (indices pre post : list Z) (i : Z) :
  processed df indices = pre ++ i :: post ->
  is_critical_at df i = true -> (800 < i)%Z -> post = [].
Proof.
  revert pre. induction indices as [|j rest IH]; intros pre Heq Hcrit Hi; simpl in Heq.
  - destruct pre; discriminate.
  - destruct (is_critical_at df j && (800 <? j)%Z) eqn:Hstop.
    + destruct pre as [|p pre]; simpl in Heq.
      * injection Heq as _ <-. reflexivity.
      * injection Heq as _ Heq. destruct pre; discriminate.
    + destruct pre as [|p pre]; simpl in Heq.
      * injection Heq as -> _. rewrite Hcrit in Hstop. simpl in Hstop.
        apply Z.ltb_ge in Hstop. lia.
      * injection Heq as _ Heq. apply (IH pre Heq Hcrit Hi).
Qed.

Lemma processed_all (df : DataFrame F) (indices : list Z) :
  Forall (fun i => is_critical_at df i && (800 <? i)%Z = false) indices ->
  processed df indices = indices.
Proof.
  induction 1 as [|i rest Hi _ IH]; simpl; [reflexivity|]. rewrite Hi, IH. reflexivity.
Qed.

Lemma buffer_synced_empty : buffer_synced (empty_buffer (F := F)).
Proof.
  exists [], [], [], []. unfold buffer_holds, empty_buffer.
  repeat first [rewrite lookup_insert_eq | rewrite lookup_insert_ne by done].
  simpl. repeat split; lia.
Qed.

(** What [live_stream] does, for any well-formed frame and playback
    speed. *)
Lemma live_stream_spec (env : PyEnv F) (ml_engine : LithosML F) (now : Z -> string)
    (df : DataFrame F) (playback_speed : Z) (st : SessionState F) (lt lp ld lf : list F) :
  df_wf df -> (0 < playback_speed)%Z ->
  buffer_holds (telemetry_buffer st) lt lp ld lf ->
  length lp = length lt -> length ld = length lt ->
  (length lt <= max_buffer)%nat -> (length lf <= max_buffer)%nat ->
  exists indices trace buf',
    py_range 0 (Z.of_nat (df_len df)) playback_speed = Ok indices
    /\ live_stream env ml_engine now df playback_speed st
       = Ok (set_buffer buf' (stream_alarms now df (processed df indices) st), trace)
    /\ map fst trace = processed df indices
    /\ map (fun ir => r_is_critical ir.2) trace = map (is_critical_at df) (processed df indices)
    /\ map (fun ir => r_fos ir.2) trace = map point_fos (rows_at df (processed df indices))
    /\ length (rows_at df (processed df indices)) = length trace
    /\ buffer_holds buf'
         (lastn max_buffer (lt ++ map row_Time_Hrs (rows_at df (processed df indices))))
         (lastn max_buffer
            (lp ++ map row_Pore_Water_Pressure_kPa (rows_at df (processed df indices))))
         (lastn max_buffer (ld ++ map row_Displacement_mm (rows_at df (processed df indices))))
         (lastn max_buffer (lf ++ map point_fos (rows_at df (processed df indices)))).
Proof.
  intros Hwf Hspeed Hbuf Hlp Hld Hlt Hlf.
  destruct (py_range_from_zero (Z.of_nat (df_len df)) playback_speed Hspeed)
    as (indices & Hrange & Hidx).
  destruct (live_stream_loop_spec env ml_engine now df indices Hwf Hidx st lt lp ld lf
              Hbuf Hlp Hld Hlt Hlf) as (trace & buf' & Hloop & Hrest).
  exists indices, trace, buf'. split; [exact Hrange|]. split; [|exact Hrest].
  unfold live_stream. rewrite Hrange, bind_Ok. exact Hloop.
Qed.

(** Whatever a tick renders, its flag is FoS < 1.05 of the factor of
    safety it shows, and the loop breaks after it exactly when the flag
    is set past index 800. *)
Lemma live_stream_tick_flag (env : PyEnv F) (ml_engine : LithosML F) (now : Z -> string)
    (df : DataFrame F) (i : Z) (st st' : SessionState F) (shown : Rendered F) (stop : bool) :
  live_stream_tick env ml_engine now df i st = Ok (st', shown, stop) ->
  r_is_critical shown = flt (r_fos shown) (dec 105 2)
  /\ stop = r_is_critical shown && (800 <? i)%Z.
Proof.
  unfold live_stream_tick. intros Hrun.
  apply bind_Ok_inv in Hrun as (current_point & _ & Hrun).
  apply bind_Ok_inv in Hrun as (buf & _ & Hrun). cbv zeta in Hrun.
  apply bind_Ok_inv in Hrun as (ttf & _ & Hrun).
  apply bind_Ok_inv in Hrun as ([ml_risk ml_prob] & _ & Hrun).
  apply bind_Ok_inv in Hrun as (buf' & _ & Hrun).
  injection Hrun as _ <- <-. split; reflexivity.
Qed.

Lemma live_stream_loop_flags (env : PyEnv F) (ml_engine : LithosML F) (now : Z -> string)
    (df : DataFrame F) (indices : list Z) (st st' : SessionState F)
    (trace : list (Z * Rendered F)) :
  live_stream_loop env ml_engine now df indices st = Ok (st', trace) ->
  Forall (fun ir => r_is_critical ir.2 = flt (r_fos ir.2) (dec 105 2)) trace.
Proof.
  revert st st' trace. induction indices as [|i rest IH]; intros st st' trace Hrun;
    simpl in Hrun.
  - injection Hrun as _ <-. constructor.
  - apply bind_Ok_inv in Hrun as ([[st1 shown] stop] & Htick & Hrun).
    pose proof (live_stream_tick_flag _ _ _ _ _ _ _ _ _ Htick) as [Hflag _].
    destruct stop.
    + injection Hrun as _ <-. constructor; [exact Hflag | constructor].
    + apply bind_Ok_inv in Hrun as ([st2 trace2] & Hloop & Hrun).
      injection Hrun as _ <-. constructor; [exact Hflag | exact (IH _ _ _ Hloop)].
Qed.

Lemma live_stream_flags (env : PyEnv F) (ml_engine : LithosML F) (now : Z -> string)
    (df : DataFrame F) (playback_speed : Z) (st st' : SessionState F)
    (trace : list (Z * Rendered F)) :
  live_stream env ml_engine now df playback_speed st = Ok (st', trace) ->
  Forall (fun ir => r_is_critical ir.2 = flt (r_fos ir.2) (dec 105 2)) trace.
Proof.
  unfold live_stream. intros Hrun.
  apply bind_Ok_inv in Hrun as (indices & _ & Hrun).
  exact (live_stream_loop_flags _ _ _ _ _ _ _ _ Hrun).
Qed.


(** The processed indices are a prefix of the replay indices, and all of
    them unless the last processed one is critical and past index 800. *)
Lemma processed_prefix (df : DataFrame F) (indices : list Z) :
  exists rest,
    indices = processed df indices ++ rest
    /\ (rest = []
        \/ exists i, last (processed df indices) = Some i
                     /\ is_critical_at df i = true /\ (800 < i)%Z).
Proof.
  induction indices as [|i rest IH]; simpl.
  - exists []. split; [reflexivity | left; reflexivity].
  - destruct (is_critical_at df i && (800 <? i)%Z) eqn:Hstop.
    + apply andb_prop in Hstop as [Hc Hi]. apply Z.ltb_lt in Hi.
      exists rest. split; [reflexivity|]. right. exists i. repeat split; assumption.
    + destruct IH as (rest' & Heq & Hlast). exists rest'.
      split; [simpl; f_equal; exact Heq|].
      destruct Hlast as [->|(j & Hj & Hcj & Hgt)]; [left; reflexivity|].
      right. exists j. split; [|split; assumption].
      destruct (processed df rest); [discriminate Hj | exact Hj].
Qed.

(** The loop stops at the first index that is critical and past 800. *)
Lemma processed_first_stop (df : DataFrame F) (pre post : list Z) (i : Z) :
  Forall (fun j => is_critical_at df j = false \/ (j <= 800)%Z) pre ->
  is_critical_at df i = true -> (800 < i)%Z ->
  processed df (pre ++ i :: post) = pre ++ [i].
Proof.
  intros Hpre Hi Hgt. induction Hpre as [|j pre Hj _ IH]; simpl.
  - rewrite Hi. replace (800 <? i)%Z with true by (symmetry; apply Z.ltb_lt; exact Hgt).
    reflexivity.
  - replace (is_critical_at df j && (800 <? j)%Z) with false; [rewrite IH; reflexivity|].
    symmetry. destruct Hj as [->|Hj]; [reflexivity|].
    replace (800 <? j)%Z with false by (symmetry; apply Z.ltb_ge; exact Hj).
    apply andb_false_r.
Qed.

End LatchFacts.

(** ** Claims about the LIVE STREAM loop *)

Section StreamClaims.
Context {F : Type} `{PyFloat F} `{PyTranscendental F}.


(** C8.  A replay that starts with the four buffer series in step and at
    most 200 long runs one tick per replay index, all of them unless it
    stops at a critical tick past index 800, and leaves under each key
    the most recent 200 entries of the old series followed by the values
    of the rows it ran through, in that order: [min (old + ticks) 200]
    entries per key, the oldest evicted first. *)
Theorem telemetry_buffer_rolling (env : PyEnv F) (ml_engine : LithosML F)
    (now : Z -> string) (df : DataFrame F) (playback_speed : Z) (st : SessionState F)
    (lt lp ld lf : list F) :
  df_wf df -> (0 < playback_speed)%Z ->
  buffer_holds (telemetry_buffer st) lt lp ld lf ->
  length lp = length lt -> length ld = length lt -> length lf = length lt ->
  (length lt <= max_buffer)%nat ->
  exists indices st' trace rest,
    py_range 0 (Z.of_nat (df_len df)) playback_speed = Ok indices
    /\ live_stream env ml_engine now df playback_speed st = Ok (st', trace)
    /\ indices = map fst trace ++ rest
    /\ (rest = []
        \/ exists i, last (map fst trace) = Some i
                     /\ is_critical_at df i = true /\ (800 < i)%Z)
    /\ let rows := rows_at df (map fst trace) in
       let appends := length trace in
       length rows = appends
       /\ map (fun ir => r_fos ir.2) trace = map point_fos rows
       /\ telemetry_buffer st' !! "time"%string
          = Some (lastn 200 (lt ++ map row_Time_Hrs rows))
       /\ telemetry_buffer st' !! "pressure"%string
          = Some (lastn 200 (lp ++ map row_Pore_Water_Pressure_kPa rows))
       /\ telemetry_buffer st' !! "displacement"%string
          = Some (lastn 200 (ld ++ map row_Displacement_mm rows))
       /\ telemetry_buffer st' !! "fos"%string
          = Some (lastn 200 (lf ++ map (fun ir => r_fos ir.2) trace))
       /\ forall key series,
            key ∈ ["time"; "pressure"; "displacement"; "fos"]%string ->
            telemetry_buffer st' !! key = Some series ->
            length series = Nat.min (length lt + appends) 200.
Proof.
  intros Hwf Hspeed Hbuf Hlp Hld Hlf Hlt.
  destruct (live_stream_spec env ml_engine now df playback_speed st lt lp ld lf
              Hwf Hspeed Hbuf Hlp Hld Hlt)
    as (indices & trace & buf' & Hrange & Hrun & Hfst & _ & Hfos & Hlen & Ht & Hp & Hd & Hf);
    [lia|].
  destruct (processed_prefix df indices) as (rest & Hprefix & Hstop).
  eexists indices, _, trace, rest. split; [exact Hrange|]. split; [exact Hrun|].
  rewrite Hfst. split; [exact Hprefix|]. split; [exact Hstop|].
  cbv zeta. rewrite Hfos.
  split; [exact Hlen|]. split; [reflexivity|]. simpl.
  do 4 (split; [assumption|]).
  intros key series Hkey Hseries.
  assert (forall l new : list F, length l = length lt ->
            length new = length trace ->
            length (lastn max_buffer (l ++ new)) = Nat.min (length lt + length trace) 200)
    as Hcount.
  { intros l new Hl Hnew. rewrite lastn_length, length_app, Hl, Hnew. reflexivity. }
  repeat (apply elem_of_cons in Hkey; destruct Hkey as [->|Hkey]);
    [ rewrite Ht in Hseries | rewrite Hp in Hseries | rewrite Hd in Hseries
    | rewrite Hf in Hseries | apply elem_of_nil in Hkey; destruct Hkey ];
    injection Hseries as <-; apply Hcount; rewrite ?length_map; congruence.
Qed.

End StreamClaims.

(** ** The scenario generator: shape of the frame *)

Section GeneratorShape.
Context {F : Type} `{PyFloat F} `{PyTranscendental F}.

Lemma np_arange_length (num : Z) : length (np_arange (F := F) num) = Z.to_nat num.
Proof. unfold np_arange. rewrite length_map, length_seq. reflexivity. Qed.

Lemma np_linspace_total (start stop : F) (num : Z) :
  (0 <= num)%Z ->
  exists y, np_linspace start stop num = Ok y /\ length y = Z.to_nat num.
Proof.
  intros Hnum. unfold np_linspace. cbv zeta.
  destruct (Z.ltb_spec num 0) as [?|_]; [lia|].
  set (y := map (fun v => fadd v start) _).
  assert (length y = Z.to_nat num) as Hy.
  { unfold y. rewrite length_map.
    destruct (0 <? num - 1)%Z; [destruct (feqb _ _)|];
      rewrite length_map; apply np_arange_length. }
  destruct (Z.ltb_spec 1 num).
  - eexists. split; [reflexivity|].
    rewrite length_app, py_slice_to_length, Hy.
    change (-1 <? 0)%Z with true. cbv iota. simpl length. lia.
  - eexists. split; [reflexivity | exact Hy].
Qed.

Lemma random_normal_length (loc scale : F) (size : nat) (g : RandomState F) :
  length (random_normal loc scale size g).1 = size.
Proof. unfold random_normal. simpl. rewrite length_map, length_seq. reflexivity. Qed.

Lemma random_randint_length (low high : Z) (size : nat) (g : RandomState F) :
  length (random_randint low high size g).1 = size.
Proof. unfold random_randint. simpl. rewrite length_map, length_seq. reflexivity. Qed.

Lemma masked_assign_length (mask : list bool) (dst vals : list F) :
  length (masked_assign mask dst vals) = length dst.
Proof.
  revert dst vals. induction mask as [|b mask IH]; intros dst vals.
  - destruct dst; reflexivity.
  - destruct b, dst, vals; simpl; rewrite ?IH; reflexivity.
Qed.

Lemma np_zeros_length (n : Z) : length (np_zeros (F := F) n) = Z.to_nat n.
Proof. unfold np_zeros. apply length_replicate. Qed.

Lemma monsoon_shape (time_hrs : list F) (rows : Z) (g : RandomState F) :
  length time_hrs = Z.to_nat rows ->
  let data := (_generate_monsoon_scenario time_hrs rows g).1 in
  sd_pressure data = map monsoon_pressure time_hrs
  /\ length (sd_acoustic data) = Z.to_nat rows
  /\ length (sd_displacement data) = Z.to_nat rows
  /\ length (sd_intensity data) = Z.to_nat rows.
Proof.
  intros Hlen. unfold _generate_monsoon_scenario.
  destruct (random_normal _ _ (np_sum_bool _) g) as [noise g1] eqn:Hn1.
  destruct (random_normal _ _ (Z.to_nat rows) g1) as [background g2] eqn:Hn2.
  simpl. split; [rewrite map_map; reflexivity|].
  assert (length background = Z.to_nat rows) as Hb.
  { pose proof (random_normal_length (of_Z 0) (dec 1 2) (Z.to_nat rows) g1) as Hl.
    rewrite Hn2 in Hl. exact Hl. }
  rewrite !length_zip_with, masked_assign_length, np_zeros_length, !length_map, Hb, Hlen.
  repeat split; lia.
Qed.

Lemma seismic_shape (time_hrs : list F) (rows : Z) (g : RandomState F) :
  length time_hrs = Z.to_nat rows ->
  let data := (_generate_seismic_scenario time_hrs rows g).1 in
  length (sd_pressure data) = Z.to_nat rows
  /\ length (sd_acoustic data) = Z.to_nat rows
  /\ length (sd_displacement data) = Z.to_nat rows
  /\ length (sd_intensity data) = Z.to_nat rows.
Proof.
  intros Hlen. unfold _generate_seismic_scenario.
  destruct (random_normal _ _ (Z.to_nat rows) g) as [noise1 g1] eqn:Hn1.
  destruct (random_normal _ _ (Z.to_nat rows) g1) as [noise2 g2] eqn:Hn2.
  simpl.
  pose proof (random_normal_length (of_Z 0) (of_Z 2) (Z.to_nat rows) g) as Hl1.
  pose proof (random_normal_length (of_Z 0) (dec 5 2) (Z.to_nat rows) g1) as Hl2.
  rewrite Hn1 in Hl1. rewrite Hn2 in Hl2. simpl in Hl1, Hl2.
  rewrite !length_zip_with, !length_map, Hl1, Hl2, Hlen. repeat split; lia.
Qed.

Lemma stable_shape (time_hrs : list F) (rows : Z) (g : RandomState F) :
  (0 <= rows)%Z -> length time_hrs = Z.to_nat rows ->
  exists data g',
    _generate_stable_scenario time_hrs rows g = Ok (data, g')
    /\ length (sd_pressure data) = Z.to_nat rows
    /\ length (sd_acoustic data) = Z.to_nat rows
    /\ length (sd_displacement data) = Z.to_nat rows
    /\ length (sd_intensity data) = Z.to_nat rows.
Proof.
  intros Hrows Hlen. unfold _generate_stable_scenario.
  destruct (random_normal _ _ (Z.to_nat rows) g) as [noise1 g1] eqn:Hn1.
  destruct (random_normal _ _ (Z.to_nat rows) g1) as [noise2 g2] eqn:Hn2.
  destruct (np_linspace_total (dec 5 1) (dec 15 1) rows Hrows) as (ramp & -> & Hramp).
  rewrite bind_Ok.
  destruct (random_normal _ _ (Z.to_nat rows) g2) as [noise3 g3] eqn:Hn3.
  pose proof (random_normal_length (of_Z 0) (of_Z 1) (Z.to_nat rows) g) as Hl1.
  pose proof (random_normal_length (of_Z 0) (dec 1 2) (Z.to_nat rows) g1) as Hl2.
  pose proof (random_normal_length (of_Z 0) (dec 5 2) (Z.to_nat rows) g2) as Hl3.
  rewrite Hn1 in Hl1. rewrite Hn2 in Hl2. rewrite Hn3 in Hl3. simpl in Hl1, Hl2, Hl3.
  eexists _, _. split; [reflexivity|]. simpl.
  rewrite !length_zip_with, !length_map, np_zeros_length, Hl1, Hl2, Hl3, Hramp, Hlen.
  repeat split; lia.
Qed.

Lemma pd_DataFrame_Ok (time_hrs : list F) (lithology : list string) (rqd : list Z)
    (pressure acoustic displacement intensity : list F) :
  length lithology = length time_hrs -> length rqd = length time_hrs ->
  length pressure = length time_hrs -> length acoustic = length time_hrs ->
  length displacement = length time_hrs -> length intensity = length time_hrs ->
  pd_DataFrame time_hrs lithology rqd pressure acoustic displacement intensity
  = Ok (mkDataFrame time_hrs lithology rqd pressure acoustic displacement intensity).
Proof.
  intros Hl Hq Hp Ha Hd Hi. unfold pd_DataFrame.
  rewrite Hl, Hq, Hp, Ha, Hd, Hi, !Nat.eqb_refl. reflexivity.
Qed.

(** For a count that is not negative the generator returns a frame with
    that many rows, whose time column is [np.linspace(0, 24, rows)] and,
    in the monsoon scenario, whose pressure column is the logistic curve
    of the time column. *)
Lemma generate_gsi_dataset_shape (rows : Z) (scenario : string) (g : RandomState F) :
  (0 <= rows)%Z ->
  exists time_hrs df g',
    np_linspace (of_Z 0) (of_Z 24) rows = Ok time_hrs
    /\ generate_gsi_dataset rows scenario g = Ok (df, g')
    /\ Time_Hrs df = time_hrs
    /\ df_len df = Z.to_nat rows
    /\ df_wf df
    /\ (scenario = "monsoon"%string ->
        Pore_Water_Pressure_kPa df = map monsoon_pressure time_hrs).
Proof.
  intros Hrows. unfold generate_gsi_dataset.
  destruct (np_linspace_total (of_Z 0) (of_Z 24) rows Hrows) as (time_hrs & Hlin & Hlen).
  exists time_hrs. rewrite Hlin, bind_Ok.
  destruct (random_randint 40 50 (Z.to_nat rows) g) as [rqd g1] eqn:Hq.
  pose proof (random_randint_length 40 50 (Z.to_nat rows) g) as Hlq.
  rewrite Hq in Hlq. simpl in Hlq.
  assert (exists data g2,
    (if String.eqb scenario "monsoon" then Ok (_generate_monsoon_scenario time_hrs rows g1)
     else if String.eqb scenario "seismic"
          then Ok (_generate_seismic_scenario time_hrs rows g1)
          else _generate_stable_scenario time_hrs rows g1) = Ok (data, g2)
    /\ length (sd_pressure data) = Z.to_nat rows
    /\ length (sd_acoustic data) = Z.to_nat rows
    /\ length (sd_displacement data) = Z.to_nat rows
    /\ length (sd_intensity data) = Z.to_nat rows
    /\ (scenario = "monsoon"%string -> sd_pressure data = map monsoon_pressure time_hrs))
    as (data & g2 & -> & Hp & Ha & Hd & Hi & Hmon).
  { destruct (String.eqb_spec scenario "monsoon") as [->|Hne].
    - destruct (monsoon_shape time_hrs rows g1 Hlen) as (Hp & Ha & Hd & Hi).
      destruct (_generate_monsoon_scenario time_hrs rows g1) as [data g2].
      simpl in *. exists data, g2. rewrite Hp at 1. rewrite length_map.
      repeat split; auto.
    - destruct (String.eqb_spec scenario "seismic") as [->|Hne'].
      + destruct (seismic_shape time_hrs rows g1 Hlen) as (Hp & Ha & Hd & Hi).
        destruct (_generate_seismic_scenario time_hrs rows g1) as [data g2].
        simpl in *. exists data, g2. repeat split; auto. intros; congruence.
      + destruct (stable_shape time_hrs rows g1 Hrows Hlen)
          as (data & g2 & -> & Hp & Ha & Hd & Hi).
        exists data, g2. repeat split; auto. intros; congruence. }
  rewrite bind_Ok.
  rewrite pd_DataFrame_Ok by (rewrite ?length_replicate; congruence).
  rewrite bind_Ok. eexists _, _. split; [reflexivity|]. split; [reflexivity|].
  split; [reflexivity|]. split; [exact Hlen|].
  split; [|exact Hmon].
  unfold df_wf, df_len. simpl. rewrite length_replicate. repeat split; congruence.
Qed.

End GeneratorShape.

(** ** The data the dashboard replays, and the early stop *)

Section ReplayData.
Context {F : Type} `{PyFloat F} `{PyTranscendental F}.

Lemma inject_failure_spike_shape (df df' : DataFrame F) :
  inject_failure_spike df = Ok df' -> df_wf df -> df_wf df' /\ df_len df' = df_len df.
Proof.
  unfold inject_failure_spike. intros Hspike (Hl & Hq & Hp & Ha & Hd & Hs).
  apply bind_Ok_inv in Hspike. destruct Hspike as (spike_start & _ & [= <-]).
  unfold df_wf, df_len. simpl. rewrite length_imap. repeat split; assumption.
Qed.

(** Both modes always work on 1000 rows. *)
Lemma load_full_data_shape (scenario : string) (st : SessionState F) (g : RandomState F)
    (full_data : DataFrame F) :
  load_full_data scenario st g = Ok full_data ->
  df_wf full_data /\ df_len full_data = 1000%nat.
Proof.
  unfold load_full_data, get_dataset. intros Hload.
  destruct (generate_gsi_dataset_shape 1000 scenario g) as
    (time_hrs & df & g' & _ & Hgen & _ & Hlen & Hwf & _); [lia|].
  rewrite Hgen, bind_Ok in Hload.
  destruct (inject_failure st).
  - destruct (inject_failure_spike_shape df full_data Hload Hwf) as [Hwf' Hlen'].
    split; [exact Hwf'|]. rewrite Hlen', Hlen. reflexivity.
  - injection Hload as <-. split; [exact Hwf|]. rewrite Hlen. reflexivity.
Qed.

Lemma load_full_data_total (scenario : string) (st : SessionState F) (g : RandomState F) :
  inject_failure st = false -> exists full_data, load_full_data scenario st g = Ok full_data.
Proof.
  intros Hst. unfold load_full_data, get_dataset.
  destruct (generate_gsi_dataset_shape 1000 scenario g) as
    (time_hrs & df & g' & _ & Hgen & _); [lia|].
  rewrite Hgen, bind_Ok, Hst. eauto.
Qed.

(** C5.  On the data the dashboard loads, the LIVE STREAM loop returns;
    every tick it renders carries the verdict of its row, which is
    FoS < 1.05 of the factor of safety it shows; and the loop terminates
    at the first replay index that is critical and exceeds 80% of the
    series length: the ticks are the indices up to and including that
    one, and nothing is rendered after such a tick.  A replay without
    such an index runs through all its indices. *)
Theorem stream_stops_past_80_percent (env : PyEnv F) (ml_engine : LithosML F)
    (now : Z -> string) (scenario : string) (g : RandomState F) (st : SessionState F)
    (playback_speed : Z) (full_data : DataFrame F) :
  load_full_data scenario st g = Ok full_data ->
  (0 < playback_speed)%Z -> buffer_synced (telemetry_buffer st) ->
  exists indices st' trace,
    py_range 0 (Z.of_nat (df_len full_data)) playback_speed = Ok indices
    /\ live_stream env ml_engine now full_data playback_speed st = Ok (st', trace)
    /\ Forall (fun ir => r_is_critical ir.2 = is_critical_at full_data ir.1) trace
    /\ Forall (fun ir => r_is_critical ir.2 = flt (r_fos ir.2) (dec 105 2)) trace
    /\ (forall pre i post,
          indices = pre ++ i :: post ->
          is_critical_at full_data i = true ->
          (8 * Z.of_nat (df_len full_data) < 10 * i)%Z ->
          Forall (fun j => is_critical_at full_data j = false
                           \/ (10 * j <= 8 * Z.of_nat (df_len full_data))%Z) pre ->
          map fst trace = pre ++ [i])
    /\ (forall pre i shown post,
          trace = pre ++ (i, shown) :: post ->
          r_is_critical shown = true ->
          (8 * Z.of_nat (df_len full_data) < 10 * i)%Z ->
          post = [])
    /\ (exists rest, indices = map fst trace ++ rest)
    /\ (Forall (fun i => is_critical_at full_data i = false
                         \/ (10 * i <= 8 * Z.of_nat (df_len full_data))%Z) indices ->
        map fst trace = indices).
Proof.
  intros Hload Hspeed (lt & lp & ld & lf & Hbuf & Hlp & Hld & Hlt & Hlf).
  destruct (load_full_data_shape scenario st g full_data Hload) as [Hwf Hlen].
  destruct (live_stream_spec env ml_engine now full_data playback_speed st lt lp ld lf
              Hwf Hspeed Hbuf Hlp Hld Hlt Hlf)
    as (indices & trace & buf' & Hrange & Hrun & Hfst & Hcrit & _).
  assert (Forall (fun ir => r_is_critical ir.2 = is_critical_at full_data ir.1) trace)
    as Hflags.
  { rewrite <- Hfst, map_map in Hcrit. apply Forall_forall. intros ir Hir.
    apply (proj1 map_ext_in_iff Hcrit ir). apply list_elem_of_In. exact Hir. }
  eexists indices, _, trace. split; [exact Hrange|]. split; [exact Hrun|].
  split; [exact Hflags|].
  split; [exact (live_stream_flags _ _ _ _ _ _ _ _ Hrun)|]. split; [|split; [|split]].
  - intros pre i post -> Hci Hi Hpre. rewrite Hfst. rewrite Hlen in Hi, Hpre.
    apply processed_first_stop; [|exact Hci | lia].
    eapply Forall_impl; [exact Hpre|]. intros j [Hj|Hj]; [left; exact Hj | right; lia].
  - intros pre i shown post Htrace Hshown Hi.
    assert (is_critical_at full_data i = true) as Hci.
    { rewrite Forall_forall in Hflags. rewrite <- Hshown.
      symmetry. apply (Hflags (i, shown)).
      rewrite Htrace. apply elem_of_app. right. apply elem_of_cons. left. reflexivity. }
    assert (processed full_data indices = map fst pre ++ i :: map fst post) as Hsplit.
    { rewrite <- Hfst, Htrace, map_app. reflexivity. }
    pose proof (processed_stops full_data indices _ _ i Hsplit Hci) as Hpost.
    rewrite Hlen in Hi. destruct post; [reflexivity|].
    discriminate Hpost. lia.
  - rewrite Hfst. destruct (processed_prefix full_data indices) as (rest & Hprefix & _).
    exists rest. exact Hprefix.
  - intros Hnone. rewrite Hfst. apply processed_all.
    eapply Forall_impl; [exact Hnone|]. intros i [->|Hi]; [reflexivity|].
    rewrite Hlen in Hi. replace (800 <? i)%Z with false by (symmetry; apply Z.ltb_ge; lia).
    apply andb_false_r.
Qed.

End ReplayData.

(** ** MANUAL FORENSICS *)

Section ForensicFacts.
Context {F : Type} `{PyFloat F} `{PyTranscendental F}.

Lemma mask_column_length {A B : Type} (mask : list bool) (col : list A) (col' : list B) :
  length col = length col' ->
  length (mask_column mask col) = length (mask_column mask col').
Proof.
  unfold mask_column. rewrite !length_fmap.
  revert col col'. induction mask as [|b mask IH]; intros [|x col] [|y col'] Hlen;
    try reflexivity; try discriminate.
  simpl in Hlen. injection Hlen as Hlen. simpl.
  rewrite !filter_cons. simpl. destruct b.
  - rewrite !decide_True by reflexivity. simpl. f_equal. apply IH, Hlen.
  - rewrite !decide_False by discriminate. apply IH, Hlen.
Qed.

Lemma df_mask_wf (mask : list bool) (df : DataFrame F) : df_wf df -> df_wf (df_mask mask df).
Proof.
  intros (Hl & Hq & Hp & Ha & Hd & Hs). unfold df_wf, df_len, df_mask. simpl.
  repeat split; apply mask_column_length; assumption.
Qed.

Lemma iloc_to_wf (k : Z) (df : DataFrame F) : df_wf df -> df_wf (iloc_to k df).
Proof.
  intros (Hl & Hq & Hp & Ha & Hd & Hs). unfold df_wf, df_len, iloc_to. simpl.
  rewrite !py_slice_to_length, Hl, Hq, Hp, Ha, Hd, Hs. repeat split; reflexivity.
Qed.

Lemma forensic_slice_shape (df : DataFrame F) (timeline_hour : F) :
  df_wf df -> (0 < df_len df)%nat ->
  df_wf (forensic_slice df timeline_hour) /\ (0 < df_len (forensic_slice df timeline_hour))%nat.
Proof.
  intros Hwf Hlen. unfold forensic_slice. cbv zeta.
  destruct (Nat.eqb_spec (df_len (df_mask (map (fun t => fle t timeline_hour) (Time_Hrs df)) df)) 0)
    as [Hz|Hnz].
  - split; [apply iloc_to_wf, Hwf|].
    unfold df_len, iloc_to. simpl. rewrite py_slice_to_length.
    change (1 <? 0)%Z with false. cbv iota. unfold df_len in Hlen. lia.
  - split; [apply df_mask_wf, Hwf | lia].
Qed.

Lemma manual_forensics_spec (env : PyEnv F) (ml_engine : LithosML F) (ct : string)
    (df : DataFrame F) (timeline_hour : F) (st : SessionState F) :
  df_wf df -> (0 < df_len df)%nat ->
  exists shown,
    manual_forensics env ml_engine ct df timeline_hour st
    = Ok (forensic_alarm ct (forensic_critical df timeline_hour) st, shown)
    /\ r_is_critical shown = forensic_critical df timeline_hour.
Proof.
  intros Hwf Hlen.
  destruct (forensic_slice_shape df timeline_hour Hwf Hlen) as [Hwf' Hlen'].
  destruct (iloc_total (forensic_slice df timeline_hour) (-1) Hwf') as [latest Hlatest];
    [lia|].
  destruct (calculate_ttf_default_total (Displacement_mm (forensic_slice df timeline_hour))
              (Time_Hrs (forensic_slice df timeline_hour))) as [ttf Httf].
  { destruct Hwf' as (_ & _ & _ & _ & Hd & _). rewrite Hd. reflexivity. }
  destruct (predict_risk_total env ml_engine (row_Pore_Water_Pressure_kPa latest)
              (row_Displacement_mm latest)) as (ml_risk & ml_prob & Hml).
  unfold forensic_critical. rewrite Hlatest.
  eexists. split.
  - unfold manual_forensics. cbv zeta. fold (forensic_slice df timeline_hour).
    rewrite Hlatest, bind_Ok, Httf, bind_Ok, Hml, bind_Ok. reflexivity.
  - reflexivity.
Qed.

(** C4.  In MANUAL FORENSICS a non-critical evaluation of a latched
    alarm resets both flags and leaves the log alone, so over
    evaluations that are critical, not critical and critical again the
    log gains exactly two command batches. *)
Theorem forensic_alarm_refires (env : PyEnv F) (ml_engine : LithosML F)
    (df : DataFrame F) (ct1 ct2 ct3 : string) (t1 t2 t3 : F) (st : SessionState F) :
  df_wf df -> (0 < df_len df)%nat -> alarm_already_logged st = false ->
  forensic_critical df t1 = true -> forensic_critical df t2 = false ->
  forensic_critical df t3 = true ->
  exists st1 shown1 st2 shown2 st3 shown3,
    manual_forensics env ml_engine ct1 df t1 st = Ok (st1, shown1)
    /\ manual_forensics env ml_engine ct2 df t2 st1 = Ok (st2, shown2)
    /\ manual_forensics env ml_engine ct3 df t3 st2 = Ok (st3, shown3)
    /\ (r_is_critical shown1, r_is_critical shown2, r_is_critical shown3) = (true, false, true)
    /\ (alarm_triggered st1, alarm_already_logged st1) = (true, true)
    /\ (alarm_triggered st2, alarm_already_logged st2) = (false, false)
    /\ command_log st2 = command_log st1
    /\ (alarm_triggered st3, alarm_already_logged st3) = (true, true)
    /\ command_log st3
       = command_log st ++ forensic_alarm_batch ct1 ++ forensic_alarm_batch ct3
    /\ length (command_log st3) = (length (command_log st) + 4 + 4)%nat
    /\ forall (latched : SessionState F) (ct : string) (t : F),
         alarm_already_logged latched = true -> forensic_critical df t = false ->
         exists st' shown,
           manual_forensics env ml_engine ct df t latched = Ok (st', shown)
           /\ (alarm_triggered st', alarm_already_logged st') = (false, false)
           /\ command_log st' = command_log latched.
Proof.
  intros Hwf Hlen Hst H1 H2 H3.
  destruct (manual_forensics_spec env ml_engine ct1 df t1 st Hwf Hlen) as (s1 & E1 & C1).
  destruct (manual_forensics_spec env ml_engine ct2 df t2
              (forensic_alarm ct1 (forensic_critical df t1) st) Hwf Hlen) as (s2 & E2 & C2).
  destruct (manual_forensics_spec env ml_engine ct3 df t3
              (forensic_alarm ct2 (forensic_critical df t2)
                 (forensic_alarm ct1 (forensic_critical df t1) st)) Hwf Hlen)
    as (s3 & E3 & C3).
  eexists _, s1, _, s2, _, s3.
  split; [exact E1|]. split; [exact E2|]. split; [exact E3|].
  rewrite C1, C2, C3, H1, H2, H3.
  unfold forensic_alarm. rewrite Hst. simpl.
  rewrite <- app_assoc, !length_app. simpl.
  do 6 (split; [reflexivity|]). split; [lia|].
  intros latched ct t Hlatched Ht.
  destruct (manual_forensics_spec env ml_engine ct df t latched Hwf Hlen) as (s & E & _).
  eexists _, s. split; [exact E|].
  unfold forensic_alarm. rewrite Ht, Hlatched. simpl. split; reflexivity.
Qed.

End ForensicFacts.

(** ** The inverse velocity against its reference definition *)

Section ReferenceFacts.
Context {F : Type} `{PyFloat F}.

Lemma py_index_minus_1 {A : Type} (l : list A) :
  py_index l (-1) = match last l with Some x => Ok x | None => Raise IndexError end.
Proof.
  destruct l as [|x l] using rev_ind; [reflexivity|].
  rewrite py_index_last, last_snoc. reflexivity.
Qed.

(** [np.gradient] reads its coordinates only through their spacing. *)
Lemma np_gradient_same_spacing (f : list F) (x x' : option (list F)) :
  np_gradient_spacing f x = np_gradient_spacing f x' -> np_gradient f x = np_gradient f x'.
Proof. intros Heq. unfold np_gradient. rewrite Heq. reflexivity. Qed.

(** Given that unit-spaced sample indices are recognised as the uniform
    spacing 1 for windows of five to ten samples, the code and the
    reference definition agree on every input. *)
Lemma inverse_velocity_reference_agrees :
  (forall f : list F, (5 <= length f <= 10)%nat ->
     np_gradient_spacing f (Some (sample_index (length f))) = np_gradient_spacing f None) ->
  forall (d : list F) (t : option (list F)),
    inverse_velocity d t = inverse_velocity_reference d t.
Proof.
  intros Hunit d t. unfold inverse_velocity, inverse_velocity_reference. cbv zeta.
  destruct (Nat.ltb_spec (length d) 5) as [Hshort|Hlong]; [reflexivity|].
  rewrite (py_slice_from_lastn 10) by lia.
  destruct t as [ts|].
  - rewrite (py_slice_from_lastn 10) by lia.
    destruct (np_gradient (lastn 10 d) (Some (lastn 10 ts))) as [g|e]; [|reflexivity].
    rewrite !bind_Ok, py_index_minus_1. destruct (last g); reflexivity.
  - rewrite (np_gradient_same_spacing _ (Some (sample_index (length (lastn 10 d)))) None).
    + destruct (np_gradient (lastn 10 d) None) as [g|e]; [|reflexivity].
      rewrite !bind_Ok, py_index_minus_1. destruct (last g); reflexivity.
    + apply Hunit. rewrite lastn_length. lia.
Qed.

End ReferenceFacts.

Lemma list_of_length_5_to_10 {A : Type} (f : list A) :
  (5 <= length f <= 10)%nat ->
  exists x1 x2 x3 x4 x5 rest, f = x1 :: x2 :: x3 :: x4 :: x5 :: rest /\ (length rest <= 5)%nat.
Proof.
  intros [Hlo Hhi].
  destruct f as [|x1 [|x2 [|x3 [|x4 [|x5 rest]]]]]; simpl in Hlo; try lia.
  exists x1, x2, x3, x4, x5, rest. split; [reflexivity|]. simpl in Hhi. lia.
Qed.

Lemma unit_spacing_f64 (f : list float) :
  (5 <= length f <= 10)%nat ->
  np_gradient_spacing f (Some (sample_index (length f))) = np_gradient_spacing f None.
Proof.
  intros Hlen. destruct (list_of_length_5_to_10 f Hlen) as (x1 & x2 & x3 & x4 & x5 & rest & -> & Hrest).
  destruct rest as [|x6 [|x7 [|x8 [|x9 [|x10 [|x11 rest]]]]]];
    try (simpl in Hrest; lia); vm_compute; reflexivity.
Qed.


(** ** The last value of the gradient *)

Section GradientLast.
Context {F : Type} `{PyFloat F}.

Lemma np_diff_cons (a b : F) (rest : list F) :
  np_diff (a :: b :: rest) = fsub b a :: np_diff (b :: rest).
Proof. reflexivity. Qed.

Lemma np_diff_snoc (l : list F) (s u : F) :
  np_diff (l ++ [s; u]) = np_diff (l ++ [s]) ++ [fsub u s].
Proof.
  induction l as [|a l IH]; [reflexivity|].
  destruct l as [|b l].
  - reflexivity.
  - change ((a :: b :: l) ++ [s; u]) with (a :: b :: (l ++ [s; u])).
    change ((a :: b :: l) ++ [s]) with (a :: b :: (l ++ [s])).
    rewrite !np_diff_cons.
    change (b :: l ++ [s; u]) with ((b :: l) ++ [s; u]).
    rewrite IH. reflexivity.
Qed.

Lemma py_index_snoc2_last {A : Type} (l : list A) (a b : A) :
  py_index (l ++ [a; b]) (-1) = Ok b.
Proof.
  change [a; b] with ([a] ++ [b]). rewrite app_assoc. apply py_index_last.
Qed.

Lemma py_index_snoc2_before_last {A : Type} (l : list A) (a b : A) :
  py_index (l ++ [a; b]) (-2) = Ok a.
Proof.
  apply (py_index_from_end _ 2).
  - rewrite length_app. simpl. lia.
  - rewrite length_app. simpl.
    replace (length l + 2 - 2)%nat with (length l) by lia.
    apply list_lookup_middle. reflexivity.
Qed.

(** The last entry of [np.gradient] is the difference of the last two
    samples over the last step: 1 without coordinates, and otherwise the
    difference [u - s] of the last two coordinates, or a common step
    that compares equal to it when the coordinates are evenly spaced. *)
Lemma np_gradient_snoc (f' : list F) (a b : F) (x : option (list F)) :
  (forall xs, x = Some xs -> length xs = length (f' ++ [a; b])) ->
  exists g dx_n,
    np_gradient (f' ++ [a; b]) x = Ok (g ++ [fdiv (fsub b a) dx_n])
    /\ match x with
       | None => dx_n = of_Z 1
       | Some xs =>
           exists xs' s u,
             xs = xs' ++ [s; u] /\ (dx_n = fsub u s \/ feqb (fsub u s) dx_n = true)
       end.
Proof.
  intros Hx.
  assert (2 <= length (f' ++ [a; b]))%nat as Hlen by (rewrite length_app; simpl; lia).
  assert (exists ax_dx dx_n,
    np_gradient_spacing (f' ++ [a; b]) x = Ok ax_dx
    /\ match ax_dx with Uniform dx => Ok dx | NonUniform diffx => py_index diffx (-1) end
       = Ok dx_n
    /\ (exists dx_0,
          match ax_dx with Uniform dx => Ok dx | NonUniform diffx => py_index diffx 0 end
          = Ok dx_0)
    /\ match x with
       | None => dx_n = of_Z 1
       | Some xs =>
           exists xs' s u,
             xs = xs' ++ [s; u] /\ (dx_n = fsub u s \/ feqb (fsub u s) dx_n = true)
       end) as (ax_dx & dx_n & Hspacing & Hdxn & (dx_0 & Hdx0) & Hshape).
  { destruct x as [xs|].
    - specialize (Hx xs eq_refl).
      assert (exists xs' s u, xs = xs' ++ [s; u]) as (xs' & s & u & ->).
      { destruct xs as [|u xs] using rev_ind; [simpl in Hx; lia|].
        destruct xs as [|s xs] using rev_ind; [rewrite length_app in Hx; simpl in Hx; lia|].
        exists xs, s, u. rewrite <- app_assoc. reflexivity. }
      unfold np_gradient_spacing. rewrite Hx, Nat.eqb_refl. simpl negb. cbv iota.
      rewrite np_diff_snoc.
      destruct (py_index_in_range (np_diff (xs' ++ [s]) ++ [fsub u s]) 0) as [d0 Hd0].
      { rewrite length_app. simpl. lia. }
      rewrite Hd0, bind_Ok.
      destruct (forallb (fun d => feqb d d0) (np_diff (xs' ++ [s]) ++ [fsub u s])) eqn:Hall.
      + exists (Uniform d0), d0. split; [reflexivity|]. split; [reflexivity|].
        split; [eauto|]. exists xs', s, u. split; [reflexivity|]. right.
        rewrite forallb_app in Hall. apply andb_true_iff in Hall. destruct Hall as [_ Hlast].
        simpl in Hlast. rewrite andb_true_r in Hlast. exact Hlast.
      + exists (NonUniform (np_diff (xs' ++ [s]) ++ [fsub u s])), (fsub u s).
        split; [reflexivity|]. split; [apply py_index_last|]. split; [eauto|].
        exists xs', s, u. split; [reflexivity|]. left. reflexivity.
    - exists (Uniform (of_Z 1)), (of_Z 1). repeat split; eauto. }
  unfold np_gradient. rewrite Hspacing, bind_Ok.
  replace (length (f' ++ [a; b]) <? 2)%nat with false by (symmetry; apply Nat.ltb_ge; lia).
  rewrite Hdx0, bind_Ok, Hdxn.
  destruct (py_index_in_range (f' ++ [a; b]) 0) as [f0 ->]; [lia|].
  destruct (py_index_in_range (f' ++ [a; b]) 1) as [f1 ->]; [lia|].
  rewrite py_index_snoc2_last, py_index_snoc2_before_last, !bind_Ok.
  eexists (_ ++ _), dx_n. rewrite <- app_assoc. split; [reflexivity | exact Hshape].
Qed.

Lemma lastn_snoc2 {A : Type} (n : nat) (l : list A) (a b : A) :
  lastn (S (S n)) (l ++ [a; b]) = lastn n l ++ [a; b].
Proof.
  unfold lastn. rewrite length_app. simpl length.
  replace (length l + 2 - S (S n))%nat with (length l - n)%nat by lia.
  apply drop_app_le. lia.
Qed.

(** The inverse velocity of a series of at least five samples that ends
    in [a; b]: the velocity is [(b - a) / dx_n]. *)
Lemma inverse_velocity_snoc (d' : list F) (a b : F) (t : option (list F)) :
  (3 <= length d')%nat ->
  (forall ts, t = Some ts -> length (lastn 10 ts) = length (lastn 10 (d' ++ [a; b]))) ->
  exists dx_n,
    inverse_velocity (d' ++ [a; b]) t
    = (let velocity := fdiv (fsub b a) dx_n in
       if flt (fabs velocity) (dec 1 4) then Ok (of_Z 99)
       else Ok (fdiv (of_Z 1) (fabs velocity)))
    /\ match t with
       | None => dx_n = of_Z 1
       | Some ts =>
           exists ts' s u,
             lastn 10 ts = ts' ++ [s; u] /\ (dx_n = fsub u s \/ feqb (fsub u s) dx_n = true)
       end.
Proof.
  intros Hlen Ht. unfold inverse_velocity. cbv zeta.
  replace (length (d' ++ [a; b]) <? 5)%nat with false
    by (symmetry; apply Nat.ltb_ge; rewrite length_app; simpl; lia).
  rewrite (py_slice_from_lastn 10) by lia.
  pose proof (lastn_snoc2 8 d' a b) as Hrecent.
  destruct t as [ts|].
  - rewrite (py_slice_from_lastn 10) by lia.
    destruct (np_gradient_snoc (lastn 8 d') a b (Some (lastn 10 ts)))
      as (g & dx_n & Hg & Hshape).
    { intros xs [= <-]. rewrite <- Hrecent. apply Ht. reflexivity. }
    exists dx_n. rewrite Hrecent, Hg, !bind_Ok, py_index_last, bind_Ok.
    split; [reflexivity | exact Hshape].
  - destruct (np_gradient_snoc (lastn 8 d') a b None) as (g & dx_n & Hg & Hshape);
      [discriminate|].
    exists dx_n. rewrite Hrecent, Hg, !bind_Ok, py_index_last, bind_Ok.
    split; [reflexivity | exact Hshape].
Qed.

End GradientLast.

(** * Exact real arithmetic *)

Local Open Scope R_scope.

(** ** Real analysis: bounds on pi, tan 35 degrees and exp *)

Lemma PI_bounds : 3.14159 < PI < 3.1416.
Proof.
  pose proof (PI_2_3_7_ineq 2) as [Hlo Hhi].
  unfold PI_2_3_7_tg, tg_alt, Ratan_seq in Hlo, Hhi. simpl in Hlo, Hhi.
  split; lra.
Qed.

Lemma INR_fact (n : nat) (z : Z) : Z.of_nat (fact n) = z -> INR (fact n) = IZR z.
Proof. intros <-. apply INR_IZR_INZ. Qed.

Lemma sin_ub_eval (a : R) :
  sin_ub a = a - a^3/6 + a^5/120 - a^7/5040 + a^9/362880.
Proof.
  unfold sin_ub, sin_approx, sin_term. cbn [sum_f_R0 Nat.mul Nat.add].
  rewrite (INR_fact 1 1), (INR_fact 3 6), (INR_fact 5 120), (INR_fact 7 5040),
    (INR_fact 9 362880) by (vm_compute; reflexivity).
  simpl pow. field.
Qed.

Lemma sin_lb_eval (a : R) : sin_lb a = a - a^3/6 + a^5/120 - a^7/5040.
Proof.
  unfold sin_lb, sin_approx, sin_term. cbn [sum_f_R0 Nat.mul Nat.add].
  rewrite (INR_fact 1 1), (INR_fact 3 6), (INR_fact 5 120), (INR_fact 7 5040)
    by (vm_compute; reflexivity).
  simpl pow. field.
Qed.

Lemma cos_lb_eval (a : R) : cos_lb a = 1 - a^2/2 + a^4/24 - a^6/720.
Proof.
  unfold cos_lb, cos_approx, cos_term. cbn [sum_f_R0 Nat.mul Nat.add].
  rewrite (INR_fact 0 1), (INR_fact 2 2), (INR_fact 4 24), (INR_fact 6 720)
    by (vm_compute; reflexivity).
  simpl pow. field.
Qed.

Lemma cos_ub_eval (a : R) : cos_ub a = 1 - a^2/2 + a^4/24 - a^6/720 + a^8/40320.
Proof.
  unfold cos_ub, cos_approx, cos_term. cbn [sum_f_R0 Nat.mul Nat.add].
  rewrite (INR_fact 0 1), (INR_fact 2 2), (INR_fact 4 24), (INR_fact 6 720),
    (INR_fact 8 40320) by (vm_compute; reflexivity).
  simpl pow. field.
Qed.

(** tan 35 degrees is 0.7002 to four places. *)
Lemma tan_35_degrees : 0.70019 < tan (35 * (PI / 180)) < 0.70022.
Proof.
  pose proof PI_bounds as [Hlo Hhi].
  assert (0.61086 < 35 * (PI / 180) < 0.61087) as [Hxlo Hxhi] by (split; lra).
  split.
  - apply Rlt_trans with (tan 0.61086); [|apply tan_increasing; lra].
    destruct (SIN 0.61086) as [Hs _]; [lra | lra |].
    destruct (COS 0.61086) as [_ Hc]; [lra | lra |].
    rewrite sin_lb_eval in Hs. rewrite cos_ub_eval in Hc.
    assert (0 < cos 0.61086) as Hpos by (apply cos_gt_0; lra).
    unfold tan. apply Rmult_lt_reg_r with (cos 0.61086); [exact Hpos|].
    unfold Rdiv. rewrite Rmult_assoc, Rinv_l by lra. lra.
  - apply Rlt_trans with (tan 0.61087); [apply tan_increasing; lra|].
    destruct (SIN 0.61087) as [_ Hs]; [lra | lra |].
    destruct (COS 0.61087) as [Hc _]; [lra | lra |].
    rewrite sin_ub_eval in Hs. rewrite cos_lb_eval in Hc.
    unfold tan.
    assert (0 < 1 - 0.61087 ^ 2 / 2 + 0.61087 ^ 4 / 24 - 0.61087 ^ 6 / 720) as Hpos by lra.
    apply Rmult_lt_reg_r with (cos 0.61087); [lra|].
    unfold Rdiv. rewrite Rmult_assoc, Rinv_l by lra. lra.
Qed.

(** ** The physics engine over the reals *)

Lemma Rltb_true (x y : R) : x < y -> Rltb x y = true.
Proof. intros Hlt. unfold Rltb. destruct (Rlt_dec x y); [reflexivity | contradiction]. Qed.

Lemma Rltb_false (x y : R) : y <= x -> Rltb x y = false.
Proof. intros Hle. unfold Rltb. destruct (Rlt_dec x y); [lra | reflexivity]. Qed.

Lemma Rleb_true (x y : R) : x <= y -> Rleb x y = true.
Proof. intros Hle. unfold Rleb. destruct (Rle_dec x y); [reflexivity | contradiction]. Qed.

Lemma Rleb_false (x y : R) : y < x -> Rleb x y = false.
Proof. intros Hlt. unfold Rleb. destruct (Rle_dec x y); [lra | reflexivity]. Qed.

Lemma Reqb_true (x y : R) : x = y -> Reqb x y = true.
Proof. intros Heq. unfold Reqb. destruct (Req_dec_T x y); [reflexivity | contradiction]. Qed.

Lemma Reqb_false (x y : R) : x <> y -> Reqb x y = false.
Proof. intros Hne. unfold Reqb. destruct (Req_dec_T x y); [contradiction | reflexivity]. Qed.

Lemma Reqb_eq (x y : R) : Reqb x y = true -> x = y.
Proof. unfold Reqb. destruct (Req_dec_T x y); [auto | discriminate]. Qed.

Lemma pymax_R (a b : R) : pymax a b = Rmax a b.
Proof.
  unfold pymax. simpl. unfold Rltb, Rmax.
  destruct (Rlt_dec a b), (Rle_dec a b); lra.
Qed.

Lemma calculate_fos_R (c phi n u tau : R) :
  calculate_fos c phi n u tau
  = (c + Rmax (n - u) 0.1 * tan (phi * (PI / 180))) / Rmax tau 0.1.
Proof.
  unfold calculate_fos, np_radians. cbv zeta. rewrite !pymax_R. at_R.
  replace (1 / 10) with 0.1 by lra. reflexivity.
Qed.

(** C1.  Over the reals [calculate_fos] is the Mohr-Coulomb ratio with
    both floors; at (50, 35, 120, 0, 100) it is 1.34 to within a
    thousandth; and once the pore pressure reaches the normal stress the
    effective normal stress in it is the floor 0.1. *)
Theorem calculate_fos_mohr_coulomb :
  (forall c phi n u tau : R,
     calculate_fos c phi n u tau
     = (c + Rmax (n - u) 0.1 * tan (phi * (PI / 180))) / Rmax tau 0.1)
  /\ Rabs (calculate_fos 50 35 120 0 100 - 1.34) < 0.001
  /\ (forall c phi n u tau : R,
        n <= u ->
        pymax (fsub n u) (dec 1 1) = 0.1
        /\ calculate_fos c phi n u tau = (c + 0.1 * tan (phi * (PI / 180))) / Rmax tau 0.1).
Proof.
  split; [exact calculate_fos_R|]. split.
  - rewrite calculate_fos_R.
    rewrite (Rmax_left (120 - 0) 0.1) by lra. rewrite (Rmax_left 100 0.1) by lra.
    pose proof tan_35_degrees as [Hlo Hhi].
    apply Rabs_def1; lra.
  - intros c phi n u tau Hnu. split.
    + rewrite pymax_R. at_R. apply Rmax_right. lra.
    + rewrite calculate_fos_R. rewrite (Rmax_right (n - u) 0.1) by lra. reflexivity.
Qed.

(** ** Bounds on exp by compound growth *)

Lemma exp_nat_mult (n : nat) (x : R) : exp (INR n * x) = exp x ^ n.
Proof.
  induction n as [|n IH].
  - simpl. rewrite Rmult_0_l. apply exp_0.
  - rewrite S_INR, Rmult_plus_distr_r, Rmult_1_l, exp_plus, IH. simpl. ring.
Qed.

(** [(1 + x/n)^n <= exp x] whenever the base is not negative. *)
Lemma exp_lower_compound (n : nat) (x : R) :
  (0 < n)%nat -> 0 <= 1 + x / INR n -> (1 + x / INR n) ^ n <= exp x.
Proof.
  intros Hn Hbase.
  assert (0 < INR n) as Hpos by (apply lt_0_INR; exact Hn).
  replace (exp x) with (exp (INR n * (x / INR n))) by (f_equal; field; lra).
  rewrite exp_nat_mult. apply pow_incr. split; [exact Hbase | apply exp_ineq1_le].
Qed.

Lemma exp_minus_3_bounds : 0.0489 < exp (-3) < 0.0507.
Proof.
  split.
  - apply Rlt_le_trans with ((1 + -3 / INR 256) ^ 256).
    + rewrite INR_IZR_INZ. change (Z.of_nat 256) with 256%Z. lra.
    + apply exp_lower_compound; [lia|]. rewrite INR_IZR_INZ.
      change (Z.of_nat 256) with 256%Z. lra.
  - replace (-3) with (Ropp 3) by lra. rewrite exp_Ropp.
    assert ((1 + 3 / INR 256) ^ 256 <= exp 3) as Hlow.
    { apply exp_lower_compound; [lia|]. rewrite INR_IZR_INZ.
      change (Z.of_nat 256) with 256%Z. lra. }
    rewrite INR_IZR_INZ in Hlow. change (Z.of_nat 256) with 256%Z in Hlow.
    assert (19.73 < exp 3) as H3 by lra.
    apply Rlt_trans with (/ 19.73); [|lra].
    apply Rinv_lt_contravar; [|exact H3]. apply Rmult_lt_0_compat; lra.
Qed.

Lemma exp_9_lower : 6900 < exp 9.
Proof.
  apply Rlt_le_trans with ((1 + 9 / INR 256) ^ 256).
  - rewrite INR_IZR_INZ. change (Z.of_nat 256) with 256%Z. lra.
  - apply exp_lower_compound; [lia|]. rewrite INR_IZR_INZ.
    change (Z.of_nat 256) with 256%Z. lra.
Qed.

(** ** The inverse velocity over the reals and over binary64 *)

Lemma unit_spacing_R (f : list R) :
  (5 <= length f <= 10)%nat ->
  np_gradient_spacing f (Some (sample_index (length f))) = np_gradient_spacing f None.
Proof.
  intros Hlen.
  destruct (list_of_length_5_to_10 f Hlen) as (x1 & x2 & x3 & x4 & x5 & rest & -> & Hrest).
  destruct rest as [|x6 [|x7 [|x8 [|x9 [|x10 [|x11 rest]]]]]];
    try (simpl in Hrest; lia);
    unfold np_gradient_spacing, sample_index, np_diff; simpl; of_nat_literals;
    rewrite !Reqb_true by lra; simpl; f_equal; f_equal; lra.
Qed.

Lemma list_snoc2 {A : Type} (l : list A) :
  (2 <= length l)%nat -> exists l' a b, l = l' ++ [a; b].
Proof.
  intros Hlen.
  destruct l as [|b l] using rev_ind; [simpl in Hlen; lia|].
  destruct l as [|a l] using rev_ind; [rewrite length_app in Hlen; simpl in Hlen; lia|].
  exists l, a, b. rewrite <- app_assoc. reflexivity.
Qed.

(** Over the reals the velocity is the last difference quotient, over a
    step that is not zero, and the result is a sentinel or its
    reciprocal magnitude. *)
Lemma inverse_velocity_R (d : list R) (t : option (list R)) :
  (forall ts, t = Some ts -> length ts = length d /\ NoDup ts) ->
  (length d < 5)%nat /\ inverse_velocity d t = Ok (of_Z 999)
  \/ (5 <= length d)%nat
     /\ exists d' a b step,
          d = d' ++ [a; b] /\ last_step t step /\ step <> 0
          /\ inverse_velocity d t
             = (if Rltb (Rabs ((b - a) / step)) 0.0001 then Ok (of_Z 99)
                else Ok (of_Z 1 / Rabs ((b - a) / step))%R).
Proof.
  intros Ht. destruct (Nat.lt_ge_cases (length d) 5) as [Hshort|Hlong].
  - left. split; [exact Hshort|]. unfold inverse_velocity.
    replace (length d <? 5)%nat with true by (symmetry; apply Nat.ltb_lt; exact Hshort).
    reflexivity.
  - right. split; [exact Hlong|]. destruct (list_snoc2 d) as (d' & a & b & ->); [lia|].
    rewrite length_app in Hlong. simpl in Hlong.
    destruct (inverse_velocity_snoc d' a b t) as (dx_n & Hv & Hstep); [lia| |].
    + intros ts Hts. destruct (Ht ts Hts) as [Hlen _].
      rewrite !lastn_length, Hlen. reflexivity.
    + exists d', a, b, dx_n. split; [reflexivity|].
      assert (last_step t dx_n /\ dx_n <> 0) as [Hlast Hnz].
      { destruct t as [ts|]; simpl in *; [|split; [exact Hstep | rewrite Hstep; lra]].
        destruct Hstep as (ts' & s & u & Hts & Hdx).
        assert (dx_n = u - s) as ->.
        { destruct Hdx as [->|Heq]; [reflexivity|]. symmetry. apply Reqb_eq, Heq. }
        destruct (Ht ts eq_refl) as [_ Hnodup].
        unfold lastn in Hts. rewrite <- (take_drop (length ts - 10) ts), Hts in Hnodup.
        split.
        - exists (take (length ts - 10) ts ++ ts'), s, u. split; [|reflexivity].
          rewrite <- (take_drop (length ts - 10) ts) at 1. rewrite Hts, app_assoc.
          reflexivity.
        - apply NoDup_app in Hnodup. destruct Hnodup as (_ & _ & Hnodup).
          apply NoDup_app in Hnodup. destruct Hnodup as (_ & _ & Hnodup).
          apply NoDup_cons in Hnodup. destruct Hnodup as [Hsu _].
          intros Hz. apply Hsu. apply list_elem_of_singleton. lra. }
      split; [exact Hlast|]. split; [exact Hnz|].
      rewrite Hv. cbv zeta. at_R.
      replace (1 / 10000) with 0.0001 by lra. reflexivity.
Qed.

Lemma reciprocal_bounds (v : R) : 0.0001 <= Rabs v -> 0 < 1 / Rabs v <= 10000.
Proof.
  intros Hv. assert (0 < Rabs v) as Hpos by lra. split.
  - apply Rdiv_lt_0_compat; lra.
  - apply Rmult_le_reg_r with (Rabs v); [exact Hpos|].
    unfold Rdiv. rewrite Rmult_assoc, Rinv_l by lra. lra.
Qed.

(** C2.  The code agrees with the reference definition on every input,
    in exact real arithmetic and in binary64; on the ramp 1..10 with
    unit time steps, given or implied, it returns 1.0, and on four
    samples the sentinel 999.0. *)
Theorem inverse_velocity_matches_reference :
  (forall (d : list R) (t : option (list R)),
     inverse_velocity d t = inverse_velocity_reference d t)
  /\ (forall (d : list float) (t : option (list float)),
        inverse_velocity d t = inverse_velocity_reference d t)
  /\ inverse_velocity (map f64_of_Z [1; 2; 3; 4; 5; 6; 7; 8; 9; 10]%Z) None = Ok 1%float
  /\ inverse_velocity (map f64_of_Z [1; 2; 3; 4; 5; 6; 7; 8; 9; 10]%Z)
       (Some (map f64_of_Z [0; 1; 2; 3; 4; 5; 6; 7; 8; 9]%Z)) = Ok 1%float
  /\ inverse_velocity (map f64_of_Z [1; 1; 1; 1]%Z) None = Ok 999%float
  /\ inverse_velocity (map IZR [1; 2; 3; 4; 5; 6; 7; 8; 9; 10]%Z) None = Ok 1%R.
Proof.
  split; [exact (inverse_velocity_reference_agrees unit_spacing_R)|].
  split; [exact (inverse_velocity_reference_agrees unit_spacing_f64)|].
  split; [vm_compute; reflexivity|]. split; [vm_compute; reflexivity|].
  split; [vm_compute; reflexivity|].
  destruct (inverse_velocity_snoc (map IZR [1; 2; 3; 4; 5; 6; 7; 8]%Z) 9 10 None)
    as (dx_n & Hv & ->); [simpl; lia | discriminate |].
  change (map IZR [1; 2; 3; 4; 5; 6; 7; 8; 9; 10]%Z)
    with (map IZR [1; 2; 3; 4; 5; 6; 7; 8]%Z ++ [9; 10]).
  rewrite Hv. cbv zeta. at_R.
  replace ((10 - 9) / 1) with 1 by lra. rewrite Rabs_R1.
  rewrite Rltb_false by lra. f_equal. lra.
Qed.

(** C10, the excursion that breaks it: a finite binary64 series whose
    last difference overflows has velocity +infinity, and the code
    returns [1.0 / inf = 0.0], which is not strictly positive. *)
Lemma inverse_velocity_overflow_returns_zero :
  let d := [0; 0; 0; -0x1.e42d130773b76p+1023; 0x1.e42d130773b76p+1023]%float in
  forallb PrimFloat.is_finite d = true
  /\ inverse_velocity d None = Ok 0%float
  /\ calculate_ttf_default d None = Ok 0%float
  /\ PrimFloat.ltb 0 0 = false.
Proof. vm_compute. repeat split; reflexivity. Qed.

Section InverseVelocityCases.
Context {F : Type} `{PyFloat F}.

(** Whatever the arithmetic, a returned value is one of the two
    sentinels or the reciprocal of a velocity magnitude that did not
    compare below 1e-4. *)
Lemma inverse_velocity_cases (d : list F) (t : option (list F)) (r : F) :
  inverse_velocity d t = Ok r ->
  r = of_Z 999 \/ r = of_Z 99
  \/ exists v, flt (fabs v) (dec 1 4) = false /\ r = fdiv (of_Z 1) (fabs v).
Proof.
  unfold inverse_velocity. cbv zeta. destruct (length d <? 5)%nat.
  - intros [= <-]. left. reflexivity.
  - intros Hr. apply bind_Ok_inv in Hr. destruct Hr as (v & _ & Hr).
    destruct (flt (fabs v) (dec 1 4)) eqn:Hv; injection Hr as <-.
    + right. left. reflexivity.
    + right. right. exists v. split; [exact Hv | reflexivity].
Qed.

End InverseVelocityCases.

(** C10, amended.  In exact real arithmetic, for every displacement
    series and, when given, a time series of as many distinct values,
    [inverse_velocity] returns 999 on fewer than five samples and
    otherwise, with [v] the last difference over a step that is not zero,
    99 when [|v| < 1e-4] and [1/|v|] when not: a value in (0, 10000];
    [calculate_ttf] with the default scaling returns half of it, in
    (0, 5000].  In binary64 a returned value is still one of the
    sentinels or [1/|v|] for a [v] that did not compare below 1e-4. *)
Theorem inverse_velocity_positive_bounded :
  (forall (d : list R) (t : option (list R)),
     (forall ts, t = Some ts -> length ts = length d /\ NoDup ts) ->
     exists r,
       inverse_velocity d t = Ok r
       /\ 0 < r <= 10000
       /\ ((length d < 5)%nat /\ r = 999
           \/ (5 <= length d)%nat
              /\ exists d' a b step,
                   d = d' ++ [a; b] /\ last_step t step /\ step <> 0
                   /\ (Rabs ((b - a) / step) < 0.0001 /\ r = 99
                       \/ 0.0001 <= Rabs ((b - a) / step)
                          /\ r = 1 / Rabs ((b - a) / step)))
       /\ exists ttf,
            calculate_ttf_default d t = Ok ttf /\ ttf = r * 0.5 /\ 0 < ttf <= 5000)
  /\ (forall (d : list float) (t : option (list float)) (r : float),
        inverse_velocity d t = Ok r ->
        r = 999%float \/ r = 99%float
        \/ exists v, PrimFloat.ltb (PrimFloat.abs v) 0x1.a36e2eb1c432dp-14 = false
                     /\ r = PrimFloat.div 1 (PrimFloat.abs v))
  /\ PrimFloat.div 1 (PrimFloat.abs PrimFloat.infinity) = 0%float
  /\ PrimFloat.div 1 (PrimFloat.abs PrimFloat.neg_infinity) = 0%float.
Proof.
  split; [|split; [|split; vm_compute; reflexivity]].
  - intros d t Ht.
    assert (exists r,
      inverse_velocity d t = Ok r /\ 0 < r <= 10000
      /\ ((length d < 5)%nat /\ r = 999
          \/ (5 <= length d)%nat
             /\ exists d' a b step,
                  d = d' ++ [a; b] /\ last_step t step /\ step <> 0
                  /\ (Rabs ((b - a) / step) < 0.0001 /\ r = 99
                      \/ 0.0001 <= Rabs ((b - a) / step)
                         /\ r = 1 / Rabs ((b - a) / step))))
      as (r & Hr & Hbound & Hcase).
    { destruct (inverse_velocity_R d t Ht)
        as [[Hshort Hr]|(Hlong & d' & a & b & step & Hd & Hstep & Hnz & Hr)].
      - exists 999. split; [rewrite Hr; at_R; f_equal; lra|]. split; [lra | auto].
      - destruct (Rlt_dec (Rabs ((b - a) / step)) 0.0001) as [Hsmall|Hlarge].
        + rewrite Rltb_true in Hr by exact Hsmall.
          exists 99. split; [rewrite Hr; at_R; f_equal; lra|]. split; [lra|].
          right. split; [exact Hlong|]. exists d', a, b, step.
          repeat split; try assumption. left. split; [exact Hsmall | reflexivity].
        + rewrite Rltb_false in Hr by lra.
          exists (1 / Rabs ((b - a) / step)). split; [rewrite Hr; at_R; f_equal; lra|].
          split; [apply reciprocal_bounds; lra|].
          right. split; [exact Hlong|]. exists d', a, b, step.
          repeat split; try assumption. right. split; [lra | reflexivity]. }
    exists r. split; [exact Hr|]. split; [exact Hbound|]. split; [exact Hcase|].
    exists (r * 0.5). unfold calculate_ttf_default, calculate_ttf.
    rewrite Hr, bind_Ok. at_R. split; [f_equal; lra|]. split; [reflexivity | lra].
  - intros d t r Hr. apply inverse_velocity_cases in Hr.
    destruct Hr as [->|[->|(v & Hv & ->)]].
    + left. vm_compute. reflexivity.
    + right. left. vm_compute. reflexivity.
    + right. right. exists v. split; [exact Hv | reflexivity].
Qed.

(** ** The time axis and the monsoon curve *)

Lemma lookup_map_seq {A : Type} (g : nat -> A) (start n i : nat) :
  map g (seq start n) !! i = if (i <? n)%nat then Some (g (start + i)%nat) else None.
Proof.
  revert start i. induction n as [|n IH]; intros start i; [reflexivity|].
  destruct i as [|i]; simpl.
  - rewrite Nat.add_0_r. reflexivity.
  - rewrite IH. replace (start + S i)%nat with (S start + i)%nat by lia.
    destruct (Nat.ltb_spec i n), (Nat.ltb_spec (S i) (S n)); try lia; reflexivity.
Qed.

(** Over the reals [np.linspace(0, 24, N)] for [N >= 2] is the grid
    [i * 24/(N-1)], [i = 0 .. N-1]. *)
Lemma np_linspace_R (N : Z) :
  (2 <= N)%Z ->
  np_linspace (F := R) (of_Z 0) (of_Z 24) N
  = Ok (map (fun i => INR i * (24 / IZR (N - 1))) (seq 0 (Z.to_nat N))).
Proof.
  intros HN. unfold np_linspace. cbv zeta.
  destruct (Z.ltb_spec N 0) as [?|_]; [lia|].
  destruct (Z.ltb_spec 0 (N - 1)) as [_|?]; [|lia].
  destruct (Z.ltb_spec 1 N) as [_|?]; [|lia].
  assert (0 < IZR (N - 1)) as Hpos by (apply IZR_lt; lia).
  at_R. rewrite Reqb_false by (intros Hz; apply (Rmult_eq_compat_r (IZR (N - 1))) in Hz;
    unfold Rdiv in Hz; rewrite Rmult_assoc, Rinv_l in Hz by lra; lra).
  f_equal. unfold np_arange. rewrite !map_map. at_R.
  destruct (Z.to_nat N) as [|m] eqn:Hm; [lia|].
  rewrite seq_S, !map_app. change (0 + m)%nat with m.
  set (grid := map (fun x => IZR (Z.of_nat x) * ((24 - 0) / IZR (N - 1)) + 0) (seq 0 m)).
  assert (length grid = m) as Hlen by (unfold grid; rewrite length_map, length_seq; reflexivity).
  unfold py_slice_to. cbv zeta. change (-1 <? 0)%Z with true. cbv iota.
  rewrite length_app, Hlen. simpl length.
  replace (Z.to_nat (Z.max (-1 + Z.of_nat (m + 1)) 0)) with m by lia.
  rewrite take_app_length' by (symmetry; exact Hlen).
  f_equal.
  - unfold grid. apply map_ext. intros i. rewrite INR_IZR_INZ. lra.
  - simpl. f_equal. rewrite INR_IZR_INZ. replace (Z.of_nat m) with (N - 1)%Z by lia.
    field. lra.
Qed.

Lemma linspace_grid_increasing (n : nat) (step : R) :
  0 < step -> strictly_increasing (map (fun i => INR i * step) (seq 0 n)).
Proof.
  intros Hstep i j x y Hx Hy Hij. rewrite lookup_map_seq in Hx, Hy.
  destruct (i <? n)%nat; [|discriminate]. destruct (j <? n)%nat; [|discriminate].
  injection Hx as <-. injection Hy as <-. simpl.
  apply Rmult_lt_compat_r; [exact Hstep|]. apply lt_INR. exact Hij.
Qed.

(** C6, the count that breaks it: with [N = 1] the generator returns one
    point, at hour 0, so the series does not end at hour 24. *)
Lemma generate_single_point_ends_at_0 :
  exists df g',
    generate_gsi_dataset 1 "monsoon" zero_rng = Ok (df, g')
    /\ df_len df = 1%nat
    /\ (exists t, Time_Hrs df = [t] /\ t = 0)
    /\ last (Time_Hrs df) <> Some 24.
Proof.
  destruct (generate_gsi_dataset_shape 1 "monsoon" zero_rng)
    as (time_hrs & df & g' & Hlin & Hgen & Htime & Hlen & _); [lia|].
  exists df, g'. split; [exact Hgen|]. split; [exact Hlen|].
  unfold np_linspace in Hlin. simpl in Hlin. change (Z.of_nat 0) with 0%Z in Hlin.
  injection Hlin as <-. rewrite Htime.
  split.
  - eexists. split; [reflexivity|]. lra.
  - simpl. intros [= Heq]. lra.
Qed.

(** C6, amended.  For every count [N >= 2] and every scenario name the
    generator returns a frame of exactly [N] rows whose time column is
    strictly increasing, starts at 0 and ends at 24. *)
Theorem generate_time_axis (N : Z) (scenario : string) (g : RandomState R) :
  (2 <= N)%Z ->
  exists df g',
    generate_gsi_dataset N scenario g = Ok (df, g')
    /\ df_len df = Z.to_nat N /\ df_wf df
    /\ strictly_increasing (Time_Hrs df)
    /\ (exists t, head (Time_Hrs df) = Some t /\ t = 0)
    /\ (exists t, last (Time_Hrs df) = Some t /\ t = 24).
Proof.
  intros HN.
  destruct (generate_gsi_dataset_shape N scenario g)
    as (time_hrs & df & g' & Hlin & Hgen & Htime & Hlen & Hwf & _); [lia|].
  rewrite np_linspace_R in Hlin by exact HN. injection Hlin as <-.
  exists df, g'. split; [exact Hgen|]. split; [exact Hlen|]. split; [exact Hwf|].
  assert (0 < IZR (N - 1)) as Hpos by (apply IZR_lt; lia).
  rewrite Htime. split; [|split].
  - apply linspace_grid_increasing. apply Rdiv_lt_0_compat; lra.
  - destruct (Z.to_nat N) as [|m] eqn:Hm; [lia|]. simpl.
    eexists. split; [reflexivity|]. lra.
  - destruct (Z.to_nat N) as [|m] eqn:Hm; [lia|].
    rewrite seq_S, map_app, Nat.add_0_l. simpl map at 2. rewrite last_snoc.
    eexists. split; [reflexivity|].
    rewrite INR_IZR_INZ. replace (Z.of_nat m) with (N - 1)%Z by lia. field. lra.
Qed.

(** C6 at the dashboard's own count, 1000 rows. *)
Lemma generate_time_axis_witness :
  exists df g',
    generate_gsi_dataset 1000 "seismic" zero_rng = Ok (df, g')
    /\ df_len df = Z.to_nat 1000 /\ df_wf df
    /\ strictly_increasing (Time_Hrs df)
    /\ (exists t, head (Time_Hrs df) = Some t /\ t = 0)
    /\ (exists t, last (Time_Hrs df) = Some t /\ t = 24).
Proof. apply (generate_time_axis 1000 "seismic" zero_rng). lia. Defined.

Lemma monsoon_pressure_R (t : R) :
  monsoon_pressure t = 20 + 65 * (1 / (1 + exp (-0.5 * (t - 18)))).
Proof.
  unfold monsoon_pressure, monsoon_rain_event. at_R.
  replace (- (5 / 10) * (t - 18)) with (-0.5 * (t - 18)) by lra. lra.
Qed.

(** C7, the hour that breaks it: at hour 24 the logistic rise has not
    reached its 85 kPa peak; the pressure is below 82 kPa, more than
    3 kPa short. *)
Lemma monsoon_pressure_hour_24_short_of_85 : 85 - monsoon_pressure 24 > 3.
Proof.
  rewrite monsoon_pressure_R. replace (-0.5 * (24 - 18)) with (-3) by lra.
  pose proof exp_minus_3_bounds as [Hlo Hhi].
  assert (65 * (1 / (1 + exp (-3))) < 62); [|lra].
  apply Rmult_lt_reg_r with (1 + exp (-3)); [lra|].
  unfold Rdiv. rewrite Rmult_1_l, Rmult_assoc, Rinv_l by lra. lra.
Qed.

(** C7, amended.  The monsoon pore pressure is the logistic curve
    [20 + 65 / (1 + exp (-0.5 (t - 18)))] of the hour, and the generated
    pressure column is that curve over the time column; the curve lies
    strictly between the 20 kPa baseline and the 85 kPa peak, is at its
    midpoint 52.5 at hour 18, within 0.01 kPa of 20 at hour 0, and
    between 81.8 and 82 kPa at hour 24. *)
Theorem monsoon_pressure_logistic :
  (forall t : R, monsoon_pressure t = 20 + 65 * (1 / (1 + exp (-0.5 * (t - 18)))))
  /\ (forall (rows : Z) (g : RandomState R),
        (0 <= rows)%Z ->
        exists time_hrs df g',
          np_linspace (of_Z 0) (of_Z 24) rows = Ok time_hrs
          /\ generate_gsi_dataset rows "monsoon" g = Ok (df, g')
          /\ Time_Hrs df = time_hrs
          /\ Pore_Water_Pressure_kPa df = map monsoon_pressure time_hrs)
  /\ (forall t : R, 20 < monsoon_pressure t < 85)
  /\ monsoon_pressure 18 = 52.5
  /\ 20 < monsoon_pressure 0 < 20.01
  /\ 81.8 < monsoon_pressure 24 < 82.
Proof.
  split; [exact monsoon_pressure_R|]. split; [|split; [|split; [|split]]].
  - intros rows g Hrows.
    destruct (generate_gsi_dataset_shape rows "monsoon" g Hrows)
      as (time_hrs & df & g' & Hlin & Hgen & Htime & _ & _ & Hp).
    exists time_hrs, df, g'. auto.
  - intros t. rewrite monsoon_pressure_R.
    pose proof (exp_pos (-0.5 * (t - 18))) as He.
    assert (0 < 1 / (1 + exp (-0.5 * (t - 18))) < 1) as [Hlo Hhi]; [|lra].
    split; [apply Rdiv_lt_0_compat; lra|].
    apply Rmult_lt_reg_r with (1 + exp (-0.5 * (t - 18))); [lra|].
    unfold Rdiv. rewrite Rmult_1_l, Rinv_l by lra. lra.
  - rewrite monsoon_pressure_R. replace (-0.5 * (18 - 18)) with 0 by lra.
    rewrite exp_0. lra.
  - rewrite monsoon_pressure_R. replace (-0.5 * (0 - 18)) with 9 by lra.
    pose proof exp_9_lower as H9.
    assert (0 < 65 * (1 / (1 + exp 9)) < 0.01) as [Hlo Hhi]; [|lra].
    split.
    + apply Rmult_lt_0_compat; [lra|]. apply Rdiv_lt_0_compat; lra.
    + apply Rmult_lt_reg_r with (1 + exp 9); [lra|].
      unfold Rdiv. rewrite Rmult_1_l, Rmult_assoc, Rinv_l by lra. lra.
  - rewrite monsoon_pressure_R. replace (-0.5 * (24 - 18)) with (-3) by lra.
    pose proof exp_minus_3_bounds as [Hlo Hhi].
    assert (61.8 < 65 * (1 / (1 + exp (-3))) < 62) as [Hl Hh]; [|lra].
    split.
    + apply Rmult_lt_reg_r with (1 + exp (-3)); [lra|].
      unfold Rdiv. rewrite Rmult_1_l, (Rmult_assoc 65), Rinv_l by lra. lra.
    + apply Rmult_lt_reg_r with (1 + exp (-3)); [lra|].
      unfold Rdiv. rewrite Rmult_1_l, Rmult_assoc, Rinv_l by lra. lra.
Qed.

(** ** The evaluation of a point over the reals *)

Lemma point_fos_R (row : Row R) :
  point_fos row
  = (50 + Rmax (120 - row_Pore_Water_Pressure_kPa row) 0.1 * tan (35 * (PI / 180)))
    / Rmax (80 + row_Displacement_mm row * 2.5) 0.1.
Proof.
  unfold point_fos, calculate_shear_stress_default, calculate_shear_stress.
  rewrite calculate_fos_R. at_R.
  replace (80 + row_Displacement_mm row * (25 / 10))
    with (80 + row_Displacement_mm row * 2.5) by lra.
  reflexivity.
Qed.

Lemma is_critical_fos_R (fos : R) : is_critical_fos fos = Rltb fos 1.05.
Proof. unfold is_critical_fos. at_R. replace (105 / 100) with 1.05 by lra. reflexivity. Qed.

(** A point whose pore pressure is at least the normal stress, on a slope
    still under at least the base shear stress, is critical. *)
Lemma drowned_point_critical (row : Row R) :
  120 <= row_Pore_Water_Pressure_kPa row -> 0 <= row_Displacement_mm row ->
  is_critical_fos (point_fos row) = true.
Proof.
  intros Hp Hd. rewrite is_critical_fos_R, point_fos_R.
  rewrite Rmax_right by lra. rewrite Rmax_left by lra.
  pose proof tan_35_degrees as [_ Htan].
  apply Rltb_true. apply Rmult_lt_reg_r with (80 + row_Displacement_mm row * 2.5); [lra|].
  unfold Rdiv. rewrite Rmult_assoc, Rinv_l by lra. lra.
Qed.

(** A drained point on a slope relaxed to 30 kPa of shear stress is not. *)
Lemma relaxed_point_not_critical (row : Row R) :
  row_Pore_Water_Pressure_kPa row = 0 -> row_Displacement_mm row = -20 ->
  is_critical_fos (point_fos row) = false.
Proof.
  intros Hp Hd. rewrite is_critical_fos_R, point_fos_R, Hp, Hd.
  rewrite Rmax_left by lra. rewrite Rmax_left by lra.
  pose proof tan_35_degrees as [Htan _].
  apply Rltb_false. apply Rmult_le_reg_r with (80 + -20 * 2.5); [lra|].
  unfold Rdiv. rewrite Rmult_assoc, Rinv_l by lra. lra.
Qed.

Lemma demo_frame_wf : df_wf demo_frame.
Proof. repeat split. Qed.


Lemma demo_frame_forensic_critical :
  forensic_critical demo_frame 0 = true
  /\ forensic_critical demo_frame 1 = false
  /\ forensic_critical demo_frame 2 = true.
Proof.
  unfold forensic_critical, forensic_slice, df_mask, mask_column, demo_frame.
  cbn [Time_Hrs map fle R_ops].
  rewrite (Rleb_true 0 0), (Rleb_true 0 1), (Rleb_true 0 2), (Rleb_true 1 1),
    (Rleb_true 1 2), (Rleb_true 2 2), (Rleb_false 1 0), (Rleb_false 2 0),
    (Rleb_false 2 1) by lra.
  repeat split; cbn -[point_fos is_critical_fos].
  - apply drowned_point_critical; simpl; lra.
  - apply relaxed_point_not_critical; reflexivity.
  - apply drowned_point_critical; simpl; lra.
Qed.

(** ** The claims at concrete inputs *)


(** C4 on the three-point frame with the slider at hours 0, 1 and 2. *)
Lemma forensic_alarm_refires_witness :
  exists st1 shown1 st2 shown2 st3 shown3,
    manual_forensics no_model_env demo_engine "12:00:00" demo_frame 0 initial_session
    = Ok (st1, shown1)
    /\ manual_forensics no_model_env demo_engine "12:05:00" demo_frame 1 st1
       = Ok (st2, shown2)
    /\ manual_forensics no_model_env demo_engine "12:10:00" demo_frame 2 st2
       = Ok (st3, shown3)
    /\ command_log st3
       = forensic_alarm_batch "12:00:00" ++ forensic_alarm_batch "12:10:00".
Proof.
  destruct demo_frame_forensic_critical as (H1 & H2 & H3).
  destruct (forensic_alarm_refires no_model_env demo_engine demo_frame
              "12:00:00" "12:05:00" "12:10:00" 0 1 2 initial_session)
    as (st1 & s1 & st2 & s2 & st3 & s3 & E1 & E2 & E3 & _ & _ & _ & _ & _ & Hlog & _).
  - exact demo_frame_wf.
  - unfold df_len, demo_frame. simpl. lia.
  - reflexivity.
  - exact H1.
  - exact H2.
  - exact H3.
  - exists st1, s1, st2, s2, st3, s3.
    split; [exact E1|]. split; [exact E2|]. split; [exact E3 | exact Hlog].
Defined.

(** C10 on five samples whose last difference is 2: the inverse velocity
    is within the bounds and the time to failure is half of it. *)
Lemma inverse_velocity_positive_bounded_witness :
  exists r ttf,
    inverse_velocity [0; 1; 2; 3; 5] None = Ok r /\ 0 < r <= 10000
    /\ calculate_ttf_default [0; 1; 2; 3; 5] None = Ok ttf /\ 0 < ttf <= 5000.
Proof.
  destruct (proj1 inverse_velocity_positive_bounded [0; 1; 2; 3; 5] None)
    as (r & Hr & Hbound & _ & ttf & Httf & _ & Hbound').
  - intros ts Hts. discriminate Hts.
  - exists r, ttf. split; [exact Hr|]. split; [exact Hbound|].
    split; [exact Httf | exact Hbound'].
Defined.

(** C1 where the pore pressure exceeds the normal stress: the effective
    normal stress is the floor 0.1. *)
Lemma calculate_fos_mohr_coulomb_witness :
  pymax (fsub 100 150) (dec 1 1) = 0.1
  /\ calculate_fos 50 35 100 150 100 = (50 + 0.1 * tan (35 * (PI / 180))) / Rmax 100 0.1.
Proof.
  apply (proj2 (proj2 calculate_fos_mohr_coulomb) 50 35 100 150 100). lra.
Defined.

(** C7 at the dashboard's own count, 1000 rows. *)
Lemma monsoon_pressure_logistic_witness :
  exists time_hrs df g',
    np_linspace (of_Z 0) (of_Z 24) 1000 = Ok time_hrs
    /\ generate_gsi_dataset 1000 "monsoon" zero_rng = Ok (df, g')
    /\ Time_Hrs df = time_hrs
    /\ Pore_Water_Pressure_kPa df = map monsoon_pressure time_hrs.
Proof.
  apply (proj1 (proj2 monsoon_pressure_logistic) 1000%Z zero_rng). lia.
Defined.

(** * Beyond the specification: further properties of the sources *)

(** ** Further properties of the physics engine *)

Lemma tan_degrees_nonneg (phi : R) : 0 <= phi < 90 -> 0 <= tan (phi * (PI / 180)).
Proof.
  intros [Hlo Hhi]. pose proof PI_RGT_0 as Hpi.
  destruct (Req_dec phi 0) as [->|Hnz].
  - rewrite Rmult_0_l, tan_0. lra.
  - left. apply tan_gt_0; nra.
Qed.

Lemma Rmax_floor_pos (x : R) : 0 < Rmax x 0.1.
Proof. pose proof (Rmax_r x 0.1). lra. Qed.

Lemma Rmax_floor_mono (x y : R) : x <= y -> Rmax x 0.1 <= Rmax y 0.1.
Proof. intros Hxy. apply Rle_max_compat_r. exact Hxy. Qed.

Lemma Rdiv_antitone (a b x y : R) :
  0 <= b <= a -> 0 < x <= y -> b / y <= a / x.
Proof.
  intros [Hb Hba] [Hx Hxy].
  apply Rle_trans with (a / y).
  - apply Rmult_le_compat_r; [left; apply Rinv_0_lt_compat; lra | exact Hba].
  - apply Rmult_le_compat_l; [lra|]. apply Rinv_le_contravar; assumption.
Qed.

Lemma mohr_coulomb_ratio_antitone (c T n u1 u2 tau1 tau2 : R) :
  0 <= c -> 0 <= T -> u1 <= u2 -> tau1 <= tau2 ->
  0 <= (c + Rmax (n - u2) 0.1 * T) / Rmax tau2 0.1
    <= (c + Rmax (n - u1) 0.1 * T) / Rmax tau1 0.1.
Proof.
  intros Hc HT Hu Htau.
  pose proof (Rmax_floor_pos (n - u2)) as He2.
  pose proof (Rmax_floor_pos tau1) as Ht1.
  pose proof (Rmax_floor_pos tau2) as Ht2.
  assert (Rmax (n - u2) 0.1 <= Rmax (n - u1) 0.1) as He by (apply Rmax_floor_mono; lra).
  assert (0 <= c + Rmax (n - u2) 0.1 * T) as Hs2 by nra.
  split.
  - apply Rmult_le_pos; [exact Hs2 | left; apply Rinv_0_lt_compat; exact Ht2].
  - apply Rdiv_antitone.
    + split; [exact Hs2 | nra].
    + split; [exact Ht1 | apply Rmax_floor_mono; exact Htau].
Qed.

(** X1.  For a cohesion that is not negative and a friction angle from 0
    up to, but not including, 90 degrees, the factor of safety is never
    negative and never rises when the pore pressure or the shear stress
    rises. *)
Theorem calculate_fos_antitone (c phi n u1 u2 tau1 tau2 : R) :
  0 <= c -> 0 <= phi < 90 -> u1 <= u2 -> tau1 <= tau2 ->
  0 <= calculate_fos c phi n u2 tau2 <= calculate_fos c phi n u1 tau1.
Proof.
  intros Hc Hphi Hu Htau. rewrite !calculate_fos_R.
  apply mohr_coulomb_ratio_antitone; try assumption.
  apply tan_degrees_nonneg. exact Hphi.
Qed.

Lemma calculate_fos_antitone_witness :
  0 <= calculate_fos 50 35 120 85 100 <= calculate_fos 50 35 120 20 80.
Proof. apply calculate_fos_antitone; lra. Defined.

Lemma calculate_shear_stress_default_R (d : R) :
  calculate_shear_stress_default d = 80 + 2.5 * d.
Proof. unfold calculate_shear_stress_default, calculate_shear_stress. at_R. lra. Qed.

(** X2.  With the default base stress and rate the shear stress is
    [80 + 2.5 d], and at the dashboard's parameters a point with more
    pore pressure and more displacement is never rated safer. *)
Theorem point_fos_antitone (row1 row2 : Row R) :
  row_Pore_Water_Pressure_kPa row1 <= row_Pore_Water_Pressure_kPa row2 ->
  row_Displacement_mm row1 <= row_Displacement_mm row2 ->
  calculate_shear_stress_default (row_Displacement_mm row2)
  - calculate_shear_stress_default (row_Displacement_mm row1)
  = 2.5 * (row_Displacement_mm row2 - row_Displacement_mm row1)
  /\ 0 <= point_fos row2 <= point_fos row1
  /\ (is_critical_fos (point_fos row1) = true -> is_critical_fos (point_fos row2) = true).
Proof.
  intros Hp Hd. split; [rewrite !calculate_shear_stress_default_R; lra|].
  assert (0 <= point_fos row2 <= point_fos row1) as Hfos.
  { rewrite !point_fos_R. pose proof tan_35_degrees as [Htan _].
    apply mohr_coulomb_ratio_antitone; lra. }
  split; [exact Hfos|].
  rewrite !is_critical_fos_R. unfold Rltb.
  destruct (Rlt_dec (point_fos row1) 1.05), (Rlt_dec (point_fos row2) 1.05);
    try reflexivity; try discriminate. lra.
Qed.

Lemma point_fos_antitone_witness :
  0 <= point_fos (mkRow 24 "Quartzite (Fractured)" 45 82 0 6 1)
    <= point_fos (mkRow 0 "Quartzite (Fractured)" 45 20 0 1 0).
Proof.
  apply (point_fos_antitone (mkRow 0 "Quartzite (Fractured)" 45 20 0 1 0)
           (mkRow 24 "Quartzite (Fractured)" 45 82 0 6 1)); simpl; lra.
Defined.

Lemma point_not_critical (row : Row R) (p0 d0 : R) :
  row_Pore_Water_Pressure_kPa row <= p0 -> row_Displacement_mm row <= d0 ->
  p0 <= 119.9 -> 0.1 <= 80 + 2.5 * d0 ->
  1.05 * (80 + 2.5 * d0) <= 50 + (120 - p0) * 0.70019 ->
  is_critical_fos (point_fos row) = false.
Proof.
  intros Hp Hd Hp0 Hd0 Hnum. rewrite is_critical_fos_R, point_fos_R.
  pose proof tan_35_degrees as [Htan _].
  apply Rltb_false.
  pose proof (Rmax_floor_pos (80 + row_Displacement_mm row * 2.5)) as Ht.
  assert (Rmax (80 + row_Displacement_mm row * 2.5) 0.1 <= 80 + 2.5 * d0) as Ht'
    by (apply Rmax_lub; lra).
  rewrite (Rmax_left (120 - _)) by lra.
  assert ((120 - p0) * 0.70019
          <= (120 - row_Pore_Water_Pressure_kPa row) * tan (35 * (PI / 180))) as Hprod
    by (apply Rmult_le_compat; lra).
  apply Rmult_le_reg_r with (Rmax (80 + row_Displacement_mm row * 2.5) 0.1); [lra|].
  unfold Rdiv. rewrite Rmult_assoc, Rinv_l by lra. lra.
Qed.

Lemma point_critical (row : Row R) (p0 d0 : R) :
  p0 <= row_Pore_Water_Pressure_kPa row -> d0 <= row_Displacement_mm row ->
  p0 <= 119.9 -> 0 <= d0 ->
  50 + (120 - p0) * 0.70022 < 1.05 * (80 + 2.5 * d0) ->
  is_critical_fos (point_fos row) = true.
Proof.
  intros Hp Hd Hp0 Hd0 Hnum. rewrite is_critical_fos_R, point_fos_R.
  pose proof tan_35_degrees as [Htan0 Htan].
  apply Rltb_true.
  pose proof (Rmax_floor_pos (120 - row_Pore_Water_Pressure_kPa row)) as He.
  assert (Rmax (120 - row_Pore_Water_Pressure_kPa row) 0.1 <= 120 - p0) as He'
    by (apply Rmax_lub; lra).
  rewrite (Rmax_left (80 + _)) by lra.
  assert (Rmax (120 - row_Pore_Water_Pressure_kPa row) 0.1 * tan (35 * (PI / 180))
          <= (120 - p0) * 0.70022) as Hprod
    by (apply Rmult_le_compat; lra).
  apply Rmult_lt_reg_r with (80 + row_Displacement_mm row * 2.5); [lra|].
  unfold Rdiv. rewrite Rmult_assoc, Rinv_l by lra. lra.
Qed.

(** X3.  At the dashboard's parameters a point with at least 75 kPa of
    pore pressure and no negative displacement is critical, and a point
    with at most 60 kPa and at most 1 mm is not. *)
Theorem point_critical_thresholds (row : Row R) :
  (75 <= row_Pore_Water_Pressure_kPa row -> 0 <= row_Displacement_mm row ->
   is_critical_fos (point_fos row) = true)
  /\ (row_Pore_Water_Pressure_kPa row <= 60 -> row_Displacement_mm row <= 1 ->
      is_critical_fos (point_fos row) = false).
Proof.
  split; intros Hp Hd.
  - apply (point_critical row 75 0); lra.
  - apply (point_not_critical row 60 1); lra.
Qed.

(** ** Error and edge behaviour of the inverse velocity *)

Section InverseVelocityEdges.
Context {F : Type} `{PyFloat F}.

Lemma np_gradient_length_mismatch (f xs : list F) :
  length xs <> length f -> np_gradient f (Some xs) = Raise ValueError.
Proof.
  intros Hne. unfold np_gradient, np_gradient_spacing.
  replace (length xs =? length f)%nat with false
    by (symmetry; apply Nat.eqb_neq; exact Hne).
  reflexivity.
Qed.

(** X4.  With fewer than five samples the inverse velocity is the
    sentinel 999 and the time to failure 999 times the scaling factor,
    whatever the time series; with five or more it raises numpy's
    ValueError exactly when the last ten time values and the last ten
    displacements are not equally many, and so does the time to
    failure. *)
Theorem inverse_velocity_window_mismatch (d ts : list F) (scaling_factor : F) :
  ((length d < 5)%nat ->
   inverse_velocity d (Some ts) = Ok (of_Z 999)
   /\ calculate_ttf d (Some ts) scaling_factor = Ok (fmul (of_Z 999) scaling_factor))
  /\ ((5 <= length d)%nat -> Nat.min (length ts) 10 <> Nat.min (length d) 10 ->
      inverse_velocity d (Some ts) = Raise ValueError
      /\ calculate_ttf d (Some ts) scaling_factor = Raise ValueError)
  /\ ((5 <= length d)%nat -> Nat.min (length ts) 10 = Nat.min (length d) 10 ->
      exists r, inverse_velocity d (Some ts) = Ok r
                /\ calculate_ttf d (Some ts) scaling_factor = Ok (fmul r scaling_factor)).
Proof.
  split; [|split].
  - intros Hshort.
    assert (inverse_velocity d (Some ts) = Ok (of_Z 999)) as Hinv.
    { unfold inverse_velocity. cbv zeta.
      replace (length d <? 5)%nat with true by (symmetry; apply Nat.ltb_lt; exact Hshort).
      reflexivity. }
    split; [exact Hinv|]. unfold calculate_ttf. rewrite Hinv. reflexivity.
  - intros Hlong Hne.
    assert (inverse_velocity d (Some ts) = Raise ValueError) as Hinv.
    { unfold inverse_velocity. cbv zeta.
      replace (length d <? 5)%nat with false by (symmetry; apply Nat.ltb_ge; exact Hlong).
      rewrite np_gradient_length_mismatch; [reflexivity|].
      rewrite !(py_slice_from_lastn 10), !lastn_length by lia. lia. }
    split; [exact Hinv|]. unfold calculate_ttf. rewrite Hinv. reflexivity.
  - intros Hlong Heq.
    destruct (inverse_velocity_total d (Some ts)) as [r Hr].
    { intros ? [= <-]. rewrite !(py_slice_from_lastn 10), !lastn_length by lia. lia. }
    exists r. split; [exact Hr|]. unfold calculate_ttf. rewrite Hr. reflexivity.
Qed.

End InverseVelocityEdges.

Lemma inverse_velocity_window_mismatch_witness :
  inverse_velocity (map f64_of_Z [1; 2; 3; 4; 5; 6]%Z) (Some (map f64_of_Z [0; 1; 2]%Z))
  = Raise ValueError.
Proof.
  apply (proj1 (proj2 (inverse_velocity_window_mismatch
           (map f64_of_Z [1; 2; 3; 4; 5; 6]%Z) (map f64_of_Z [0; 1; 2]%Z) (dec 5 1)))).
  - simpl. lia.
  - simpl. lia.
Defined.

(** ** What the inverse velocity does not depend on *)

Lemma last_step_unique (t : option (list R)) (s1 s2 : R) :
  last_step t s1 -> last_step t s2 -> s1 = s2.
Proof.
  destruct t as [ts|]; simpl.
  - intros (ts1 & a1 & b1 & E1 & ->) (ts2 & a2 & b2 & E2 & ->).
    rewrite E1 in E2.
    change [a1; b1] with ([a1] ++ [b1]) in E2. change [a2; b2] with ([a2] ++ [b2]) in E2.
    rewrite !app_assoc in E2.
    apply app_inj_tail in E2 as [E2 ->]. apply app_inj_tail in E2 as [_ ->]. reflexivity.
  - intros -> ->. reflexivity.
Qed.

Lemma snoc2_inj {A : Type} (l1 l2 : list A) (a1 b1 a2 b2 : A) :
  l1 ++ [a1; b1] = l2 ++ [a2; b2] -> l1 = l2 /\ a1 = a2 /\ b1 = b2.
Proof.
  change [a1; b1] with ([a1] ++ [b1]). change [a2; b2] with ([a2] ++ [b2]).
  rewrite !app_assoc. intros E.
  apply app_inj_tail in E as [E ->]. apply app_inj_tail in E as [-> ->]. auto.
Qed.

(** The inverse velocity of a series of five or more samples is a
    function of its last two samples and of the last time step. *)
Lemma inverse_velocity_last_two (d1 d2 : list R) (t : option (list R)) (d' : list R) (a b : R) :
  (forall ts, t = Some ts -> length ts = length d1 /\ NoDup ts) ->
  (5 <= length d1)%nat -> length d2 = length d1 ->
  d1 = d' ++ [a; b] ->
  (exists d'' a' b', d2 = d'' ++ [a'; b'] /\ Rabs (b' - a') = Rabs (b - a)) ->
  inverse_velocity d2 t = inverse_velocity d1 t.
Proof.
  intros Ht Hlong Hlen Hd1 (d'' & a' & b' & Hd2 & Habs).
  destruct (inverse_velocity_R d1 t Ht)
    as [[Hshort _]|(_ & e1 & x1 & y1 & s1 & E1 & Hs1 & Hnz1 & ->)]; [lia|].
  destruct (inverse_velocity_R d2 t)
    as [[Hshort _]|(_ & e2 & x2 & y2 & s2 & E2 & Hs2 & Hnz2 & ->)]; [|lia|].
  { intros ts Hts. rewrite Hlen. apply Ht, Hts. }
  rewrite (last_step_unique t s2 s1 Hs2 Hs1).
  rewrite Hd1 in E1. apply snoc2_inj in E1 as (_ & <- & <-).
  rewrite Hd2 in E2. apply snoc2_inj in E2 as (_ & <- & <-).
  unfold Rdiv. rewrite !Rabs_mult, Habs. reflexivity.
Qed.

(** X5.  In exact arithmetic, with distinct time values, the inverse
    velocity of five or more samples is unchanged when the whole series
    is shifted by a constant, when it is negated, and when any samples but
    the last two are replaced. *)
Theorem inverse_velocity_invariant (d : list R) (t : option (list R)) :
  (forall ts, t = Some ts -> length ts = length d /\ NoDup ts) ->
  (5 <= length d)%nat ->
  (forall c : R, inverse_velocity (map (fun x => x + c) d) t = inverse_velocity d t)
  /\ inverse_velocity (map Ropp d) t = inverse_velocity d t
  /\ (forall earlier : list R,
        (length earlier + 2)%nat = length d ->
        inverse_velocity (earlier ++ lastn 2 d) t = inverse_velocity d t).
Proof.
  intros Ht Hlong.
  destruct (list_snoc2 d) as (d' & a & b & Hd); [lia|].
  split; [|split].
  - intros c. apply (inverse_velocity_last_two d _ t d' a b Ht Hlong);
      [apply length_map | exact Hd |].
    exists (map (fun x => x + c) d'), (a + c), (b + c). split.
    + rewrite Hd, map_app. reflexivity.
    + f_equal. lra.
  - apply (inverse_velocity_last_two d _ t d' a b Ht Hlong);
      [apply length_map | exact Hd |].
    exists (map Ropp d'), (- a), (- b). split.
    + rewrite Hd, map_app. reflexivity.
    + replace (- b - - a) with (- (b - a)) by lra. apply Rabs_Ropp.
  - intros earlier Hlen.
    assert (lastn 2 d = [a; b]) as Hlast.
    { rewrite Hd. rewrite (lastn_snoc2 0). unfold lastn. rewrite drop_ge by lia. reflexivity. }
    apply (inverse_velocity_last_two d _ t d' a b Ht Hlong); [| exact Hd |].
    + rewrite length_app, Hlast. simpl. lia.
    + exists earlier, a, b. split; [rewrite Hlast; reflexivity | reflexivity].
Qed.

Lemma inverse_velocity_invariant_witness :
  inverse_velocity (map (fun x => x + 100) [0; 1; 2; 3; 5]) None
  = inverse_velocity [0; 1; 2; 3; 5] None.
Proof.
  apply (proj1 (inverse_velocity_invariant [0; 1; 2; 3; 5] None
                  ltac:(intros ts Hts; discriminate Hts) ltac:(simpl; lia))).
Defined.

(** ** The scenario generator: what the columns hold *)

Section GeneratorColumns.
Context {F : Type} `{PyFloat F} `{PyTranscendental F}.


Lemma generate_gsi_dataset_columns (rows : Z) (scenario : string) (g : RandomState F) :
  (0 <= rows)%Z ->
  exists time_hrs data g',
    np_linspace (of_Z 0) (of_Z 24) rows = Ok time_hrs
    /\ length time_hrs = Z.to_nat rows
    /\ scenario_data time_hrs rows scenario (random_randint 40 50 (Z.to_nat rows) g).2
       = Ok (data, g')
    /\ generate_gsi_dataset rows scenario g
       = Ok (mkDataFrame time_hrs (replicate (Z.to_nat rows) "Quartzite (Fractured)"%string)
               (random_randint 40 50 (Z.to_nat rows) g).1
               (sd_pressure data) (sd_acoustic data) (sd_displacement data)
               (sd_intensity data), g').
Proof.
  intros Hrows.
  destruct (generate_gsi_dataset_shape rows scenario g Hrows)
    as (time_hrs & df & g' & Hlin & Hgen & Htime & Hlen & _).
  exists time_hrs. unfold generate_gsi_dataset in Hgen |- *.
  rewrite Hlin, bind_Ok in Hgen |- *.
  destruct (random_randint 40 50 (Z.to_nat rows) g) as [rqd g1]. simpl.
  fold (scenario_data time_hrs rows scenario g1) in Hgen |- *.
  destruct (scenario_data time_hrs rows scenario g1) as [[data g2]|e];
    [|discriminate Hgen].
  rewrite bind_Ok in Hgen |- *.
  unfold pd_DataFrame in Hgen |- *.
  destruct (_ && _); [|discriminate Hgen].
  rewrite bind_Ok in Hgen |- *. injection Hgen as <- <-.
  exists data, g2. unfold df_len in Hlen. simpl in Hlen.
  split; [reflexivity|]. split; [exact Hlen|]. split; reflexivity.
Qed.

Lemma random_randint_range (low high : Z) (size : nat) (g : RandomState F) :
  (low < high)%Z ->
  Forall (fun q => (low <= q < high)%Z) (random_randint low high size g).1.
Proof.
  intros Hlh. unfold random_randint. simpl. apply Forall_forall. intros q Hq.
  apply list_elem_of_In, in_map_iff in Hq. destruct Hq as (i & <- & _).
  pose proof (Z.mod_pos_bound (raw_integers g (cursor g + i)) (high - low)). lia.
Qed.

(** X6.  For every row count that is not negative, every scenario name
    and every state of the random generator, the generator returns a
    frame of that many rows whose every Lithology entry is "Quartzite
    (Fractured)" and whose every RQD entry is an integer from 40 to 49. *)
Theorem generate_gsi_dataset_metadata (rows : Z) (scenario : string) (g : RandomState F) :
  (0 <= rows)%Z ->
  exists df g',
    generate_gsi_dataset rows scenario g = Ok (df, g')
    /\ df_len df = Z.to_nat rows /\ df_wf df
    /\ Forall (fun l => l = "Quartzite (Fractured)"%string) (Lithology df)
    /\ Forall (fun q => (40 <= q < 50)%Z) (RQD df).
Proof.
  intros Hrows.
  destruct (generate_gsi_dataset_shape rows scenario g Hrows)
    as (time_hrs0 & df & g0 & _ & Hgen0 & _ & Hlen & Hwf & _).
  destruct (generate_gsi_dataset_columns rows scenario g Hrows)
    as (time_hrs & data & g' & _ & _ & _ & Hgen).
  rewrite Hgen in Hgen0. injection Hgen0 as <- <-.
  eexists _, _. split; [exact Hgen|]. split; [exact Hlen|]. split; [exact Hwf|].
  simpl. split.
  - apply Forall_forall. intros l Hl. apply elem_of_replicate in Hl as [-> _]. reflexivity.
  - apply random_randint_range. lia.
Qed.

(** X7.  A negative row count raises numpy's ValueError, a row count of
    zero gives the frame without rows, and every scenario name other
    than "monsoon" and "seismic" is generated as the stable scenario. *)
Theorem generate_gsi_dataset_arguments (rows : Z) (scenario : string) (g : RandomState F) :
  ((rows < 0)%Z -> generate_gsi_dataset rows scenario g = Raise ValueError)
  /\ (rows = 0%Z ->
      exists g', generate_gsi_dataset rows scenario g = Ok (mkDataFrame [] [] [] [] [] [] [], g')
                 /\ cursor g' = cursor g)
  /\ (scenario <> "monsoon"%string -> scenario <> "seismic"%string ->
      generate_gsi_dataset rows scenario g = generate_gsi_dataset rows "stable" g).
Proof.
  split; [|split].
  - intros Hneg. unfold generate_gsi_dataset, np_linspace.
    replace (rows <? 0)%Z with true by (symmetry; apply Z.ltb_lt; exact Hneg).
    reflexivity.
  - intros ->. unfold generate_gsi_dataset.
    destruct (String.eqb scenario "monsoon"); [|destruct (String.eqb scenario "seismic")];
      (eexists; split; [reflexivity|]; simpl; unfold np_sum_bool; simpl;
       change (Z.to_nat 0) with 0%nat; lia).
  - intros Hm Hs. unfold generate_gsi_dataset.
    replace (String.eqb scenario "monsoon") with false
      by (symmetry; apply String.eqb_neq; exact Hm).
    replace (String.eqb scenario "seismic") with false
      by (symmetry; apply String.eqb_neq; exact Hs).
    reflexivity.
Qed.

End GeneratorColumns.

Lemma generate_gsi_dataset_metadata_witness :
  exists df g',
    generate_gsi_dataset 1000 "seismic" zero_rng = Ok (df, g')
    /\ df_len df = 1000%nat /\ df_wf df
    /\ Forall (fun l => l = "Quartzite (Fractured)"%string) (Lithology df)
    /\ Forall (fun q => (40 <= q < 50)%Z) (RQD df).
Proof. apply (generate_gsi_dataset_metadata 1000 "seismic" zero_rng). lia. Defined.

Lemma generate_gsi_dataset_arguments_witness :
  generate_gsi_dataset (-1) "monsoon" zero_rng = Raise ValueError
  /\ generate_gsi_dataset 1000 "Monsoon" zero_rng = generate_gsi_dataset 1000 "stable" zero_rng.
Proof.
  split.
  - apply (proj1 (generate_gsi_dataset_arguments (-1) "monsoon" zero_rng)). lia.
  - apply (proj2 (proj2 (generate_gsi_dataset_arguments 1000 "Monsoon" zero_rng)));
      discriminate.
Defined.

Section ScenarioColumns.
Context {F : Type} `{PyFloat F} `{PyTranscendental F}.




Lemma random_normal_samples (loc scale : F) (size consumed : nat) (g : RandomState F) :
  (random_normal loc scale size (advance consumed g)).1
  = map (normal_sample loc scale g consumed) (seq 0 size).
Proof. reflexivity. Qed.

Lemma advance_advance (n m : nat) (g : RandomState F) :
  advance m (advance n g) = advance (n + m) g.
Proof. unfold advance. simpl. f_equal. lia. Qed.

Lemma advance_0 (g : RandomState F) : advance 0 g = g.
Proof. destruct g. unfold advance. simpl. f_equal. lia. Qed.

Lemma monsoon_columns (time_hrs : list F) (rows : Z) (g : RandomState F) :
  let data := (_generate_monsoon_scenario time_hrs rows g).1 in
  sd_pressure data = map monsoon_pressure time_hrs
  /\ sd_displacement data = map (fun t => monsoon_displacement (monsoon_pressure t)) time_hrs
  /\ sd_intensity data = map monsoon_rain_event time_hrs.
Proof.
  unfold _generate_monsoon_scenario.
  destruct (random_normal _ _ (np_sum_bool _) g) as [noise g1].
  destruct (random_normal _ _ (Z.to_nat rows) g1) as [background g2].
  simpl. rewrite !map_map. repeat split; reflexivity.
Qed.

Lemma seismic_columns (time_hrs : list F) (rows : Z) (g : RandomState F) (consumed : nat) :
  let data := (_generate_seismic_scenario time_hrs rows (advance consumed g)).1 in
  sd_pressure data
  = map (fun i => fadd (of_Z 30) (normal_sample (of_Z 0) (of_Z 2) g consumed i))
      (seq 0 (Z.to_nat rows))
  /\ sd_displacement data = map (fun t => fadd (of_Z 1) (fmul (seismic_pulse t) (of_Z 8))) time_hrs
  /\ sd_intensity data = map seismic_pulse time_hrs.
Proof.
  unfold _generate_seismic_scenario. simpl. rewrite !map_map. repeat split; reflexivity.
Qed.

Lemma stable_columns (time_hrs : list F) (rows : Z) (g : RandomState F) (consumed : nat) :
  (0 <= rows)%Z ->
  exists ramp data g',
    np_linspace (dec 5 1) (dec 15 1) rows = Ok ramp
    /\ length ramp = Z.to_nat rows
    /\ _generate_stable_scenario time_hrs rows (advance consumed g) = Ok (data, g')
    /\ sd_pressure data
       = map (fun i => fadd (of_Z 25) (normal_sample (of_Z 0) (of_Z 1) g consumed i))
           (seq 0 (Z.to_nat rows))
    /\ sd_displacement data
       = zip_with fadd ramp
           (map (normal_sample (of_Z 0) (dec 5 2) g (consumed + Z.to_nat rows + Z.to_nat rows))
              (seq 0 (Z.to_nat rows)))
    /\ sd_intensity data = np_zeros rows.
Proof.
  intros Hrows.
  destruct (np_linspace_total (dec 5 1) (dec 15 1) rows Hrows) as (ramp & Hramp & Hlen).
  exists ramp. unfold _generate_stable_scenario. simpl. rewrite Hramp, bind_Ok.
  eexists _, _. split; [reflexivity|]. split; [exact Hlen|]. split; [reflexivity|].
  simpl. rewrite !map_map. split; [reflexivity|]. split; [|reflexivity].
  f_equal. apply map_ext. intros i. unfold normal_sample. simpl.
  do 3 f_equal. lia.
Qed.

End ScenarioColumns.

(** ** The monsoon scenario over the reals *)

Lemma exp_upper_compound (n : nat) (x : R) :
  (0 < n)%nat -> 0 < 1 - x / INR n -> exp x <= / (1 - x / INR n) ^ n.
Proof.
  intros Hn Hbase.
  assert ((1 + - x / INR n) ^ n <= exp (- x)) as Hlow.
  { apply exp_lower_compound; [exact Hn|]. unfold Rdiv in *. lra. }
  replace (1 + - x / INR n) with (1 - x / INR n) in Hlow by (unfold Rdiv; lra).
  assert (0 < (1 - x / INR n) ^ n) as Hpow by (apply pow_lt; exact Hbase).
  rewrite exp_Ropp in Hlow.
  rewrite <- (Rinv_inv (exp x)). apply Rinv_le_contravar; assumption.
Qed.

Lemma monsoon_rain_event_R (t : R) :
  monsoon_rain_event t = 1 / (1 + exp (-0.5 * (t - 18))).
Proof. unfold monsoon_rain_event. at_R. do 3 f_equal. lra. Qed.

Lemma monsoon_displacement_R (p : R) : monsoon_displacement p = 0.5 * exp (0.03 * p).
Proof.
  unfold monsoon_displacement. at_R.
  replace (3 / 10 * (p / 10)) with (0.03 * p) by lra. lra.
Qed.

Lemma monsoon_rain_event_range (t : R) : 0 < monsoon_rain_event t < 1.
Proof.
  rewrite monsoon_rain_event_R. pose proof (exp_pos (-0.5 * (t - 18))) as He.
  split.
  - apply Rdiv_lt_0_compat; lra.
  - apply Rmult_lt_reg_r with (1 + exp (-0.5 * (t - 18))); [lra|].
    unfold Rdiv. rewrite Rmult_assoc, Rinv_l by lra. lra.
Qed.

Lemma monsoon_rain_event_increasing (t1 t2 : R) :
  t1 < t2 -> monsoon_rain_event t1 < monsoon_rain_event t2.
Proof.
  intros Ht. rewrite !monsoon_rain_event_R.
  pose proof (exp_pos (-0.5 * (t2 - 18))) as He2.
  assert (exp (-0.5 * (t2 - 18)) < exp (-0.5 * (t1 - 18))) as He
    by (apply exp_increasing; lra).
  unfold Rdiv. rewrite !Rmult_1_l. apply Rinv_lt_contravar; [|lra].
  apply Rmult_lt_0_compat; lra.
Qed.

Lemma monsoon_pressure_rain (t : R) : monsoon_pressure t = 20 + 65 * monsoon_rain_event t.
Proof. unfold monsoon_pressure. at_R. lra. Qed.

Lemma strictly_increasing_map (f : R -> R) (l : list R) :
  (forall x y, x < y -> f x < f y) ->
  strictly_increasing l -> strictly_increasing (map f l).
Proof.
  intros Hf Hl i j x y Hx Hy Hij.
  change (map f l) with (f <$> l) in Hx, Hy.
  rewrite list_lookup_fmap in Hx, Hy.
  destruct (l !! i) as [a|] eqn:Ha; [|discriminate].
  destruct (l !! j) as [b|] eqn:Hb; [|discriminate].
  injection Hx as <-. injection Hy as <-. apply Hf. exact (Hl i j a b Ha Hb Hij).
Qed.

Lemma Forall_map_range {A : Type} (f : A -> R) (P : R -> Prop) (l : list A) :
  (forall t, P (f t)) -> Forall P (map f l).
Proof.
  intros Hf. apply Forall_forall. intros x Hx.
  apply list_elem_of_In, in_map_iff in Hx. destruct Hx as (t & <- & _). apply Hf.
Qed.

Lemma monsoon_displacement_range (t : R) :
  0.91 < monsoon_displacement (monsoon_pressure t) < 6.5.
Proof.
  rewrite monsoon_displacement_R, monsoon_pressure_rain.
  pose proof (monsoon_rain_event_range t) as [Hlo Hhi].
  assert (1.82 < exp 0.6) as H06.
  { apply Rlt_le_trans with ((1 + 0.6 / INR 256) ^ 256).
    - rewrite INR_IZR_INZ. change (Z.of_nat 256) with 256%Z. lra.
    - apply exp_lower_compound; [lia|]. rewrite INR_IZR_INZ.
      change (Z.of_nat 256) with 256%Z. lra. }
  assert (exp 2.55 < 13) as H255.
  { apply Rle_lt_trans with (/ (1 - 2.55 / INR 256) ^ 256).
    - apply exp_upper_compound; [lia|]. rewrite INR_IZR_INZ.
      change (Z.of_nat 256) with 256%Z. lra.
    - rewrite INR_IZR_INZ. change (Z.of_nat 256) with 256%Z. lra. }
  assert (exp 0.6 < exp (0.03 * (20 + 65 * monsoon_rain_event t))) as H1
    by (apply exp_increasing; lra).
  assert (exp (0.03 * (20 + 65 * monsoon_rain_event t)) < exp 2.55) as H2
    by (apply exp_increasing; lra).
  lra.
Qed.

(** X8.  In the monsoon scenario the rain intensity lies strictly between
    0 and 1 and the pore pressure rises strictly with time; the
    displacement is [0.5 exp(0.03 p)] at pore pressure [p], between 0.91
    and 6.5 mm, and rises strictly with the pressure.  So in every
    generated frame of two or more rows the pressure and the
    displacement columns are strictly increasing. *)
Theorem monsoon_scenario_monotone :
  (forall t : R, 0 < monsoon_rain_event t < 1
                 /\ monsoon_pressure t = 20 + 65 * monsoon_rain_event t)
  /\ (forall t1 t2 : R, t1 < t2 -> monsoon_pressure t1 < monsoon_pressure t2)
  /\ (forall p1 p2 : R, p1 < p2 -> monsoon_displacement p1 < monsoon_displacement p2)
  /\ (forall (rows : Z) (g : RandomState R),
        (2 <= rows)%Z ->
        exists df g',
          generate_gsi_dataset rows "monsoon" g = Ok (df, g')
          /\ Scenario_Intensity df = map monsoon_rain_event (Time_Hrs df)
          /\ Displacement_mm df = map monsoon_displacement (Pore_Water_Pressure_kPa df)
          /\ strictly_increasing (Pore_Water_Pressure_kPa df)
          /\ strictly_increasing (Displacement_mm df)
          /\ Forall (fun d => 0.91 < d < 6.5) (Displacement_mm df)).
Proof.
  assert (forall t1 t2 : R, t1 < t2 -> monsoon_pressure t1 < monsoon_pressure t2) as Hp.
  { intros t1 t2 Ht. rewrite !monsoon_pressure_rain.
    pose proof (monsoon_rain_event_increasing t1 t2 Ht). lra. }
  assert (forall p1 p2 : R, p1 < p2 -> monsoon_displacement p1 < monsoon_displacement p2) as Hd.
  { intros p1 p2 Hlt. rewrite !monsoon_displacement_R.
    assert (exp (0.03 * p1) < exp (0.03 * p2)) by (apply exp_increasing; lra). lra. }
  split; [|split; [exact Hp | split; [exact Hd|]]].
  - intros t. split; [apply monsoon_rain_event_range | apply monsoon_pressure_rain].
  - intros rows g Hrows.
    destruct (generate_gsi_dataset_columns rows "monsoon" g)
      as (time_hrs & data & g' & Hlin & _ & Hdata & Hgen); [lia|].
    unfold scenario_data in Hdata.
    change (String.eqb "monsoon" "monsoon") with true in Hdata. cbv iota in Hdata.
    pose proof (monsoon_columns time_hrs rows (random_randint 40 50 (Z.to_nat rows) g).2)
      as Hcols.
    destruct (_generate_monsoon_scenario _ _ _) as [data0 g0].
    injection Hdata as -> ->. cbv zeta in Hcols. destruct Hcols as (Hcp & Hcd & Hci).
    cbn [fst] in Hcp, Hcd, Hci.
    eexists _, _. split; [exact Hgen|]. simpl. rewrite Hcp, Hcd, Hci.
    rewrite np_linspace_R in Hlin by exact Hrows. injection Hlin as <-.
    assert (strictly_increasing
              (map (fun i => INR i * (24 / IZR (rows - 1))) (seq 0 (Z.to_nat rows)))) as Hgrid.
    { apply linspace_grid_increasing. apply Rdiv_lt_0_compat; [lra|]. apply IZR_lt. lia. }
    split; [reflexivity|].
    split; [symmetry; apply (map_map monsoon_pressure monsoon_displacement)|].
    split; [apply strictly_increasing_map; assumption|].
    split.
    + apply (strictly_increasing_map (fun t => monsoon_displacement (monsoon_pressure t)));
        [|exact Hgrid].
      intros x y Hxy. apply Hd, Hp, Hxy.
    + apply (Forall_map_range (fun t => monsoon_displacement (monsoon_pressure t))).
      apply monsoon_displacement_range.
Qed.

Lemma monsoon_scenario_monotone_witness :
  exists df g',
    generate_gsi_dataset 1000 "monsoon" zero_rng = Ok (df, g')
    /\ strictly_increasing (Pore_Water_Pressure_kPa df)
    /\ strictly_increasing (Displacement_mm df).
Proof.
  destruct (proj2 (proj2 (proj2 monsoon_scenario_monotone)) 1000%Z zero_rng)
    as (df & g' & Hgen & _ & _ & Hp & Hd & _); [lia|].
  exists df, g'. split; [exact Hgen|]. split; [exact Hp | exact Hd].
Defined.

(** ** The seismic and the stable scenario over the reals *)

Lemma seismic_pulse_R (t : R) : seismic_pulse t = exp (- ((t - 12) * (t - 12)) / 2).
Proof. unfold seismic_pulse. at_R. reflexivity. Qed.

Lemma seismic_pulse_range (t : R) : 0 < seismic_pulse t <= 1.
Proof.
  rewrite seismic_pulse_R. split; [apply exp_pos|].
  rewrite <- exp_0. destruct (Req_dec t 12) as [->|Hne].
  - right. f_equal. lra.
  - left. apply exp_increasing. nra.
Qed.

(** X9.  The pulse of the seismic scenario is [exp(-(t-12)^2/2)]: 1 at
    hour 12, [exp(-1/2)] one hour before and after, symmetric about hour
    12 and falling with the distance from it.  In every generated frame
    the intensity lies in (0, 1] and the displacement is 1 + 8 times
    the intensity, in (1, 9]. *)
Theorem seismic_scenario_pulse :
  seismic_pulse 12 = 1
  /\ (seismic_pulse 11 = exp (- (1 / 2)) /\ seismic_pulse 13 = exp (- (1 / 2)))
  /\ (forall h : R, seismic_pulse (12 - h) = seismic_pulse (12 + h))
  /\ (forall t1 t2 : R, Rabs (t1 - 12) < Rabs (t2 - 12) -> seismic_pulse t2 < seismic_pulse t1)
  /\ (forall (rows : Z) (g : RandomState R),
        (0 <= rows)%Z ->
        exists df g',
          generate_gsi_dataset rows "seismic" g = Ok (df, g')
          /\ Scenario_Intensity df = map seismic_pulse (Time_Hrs df)
          /\ Displacement_mm df = map (fun s => 1 + 8 * s) (Scenario_Intensity df)
          /\ Forall (fun s => 0 < s <= 1) (Scenario_Intensity df)
          /\ Forall (fun d => 1 < d <= 9) (Displacement_mm df)).
Proof.
  split; [|split; [|split; [|split]]].
  - rewrite seismic_pulse_R, <- exp_0. f_equal. lra.
  - rewrite !seismic_pulse_R. split; f_equal; lra.
  - intros h. rewrite !seismic_pulse_R. f_equal. lra.
  - intros t1 t2 Habs. rewrite !seismic_pulse_R. apply exp_increasing.
    assert ((t1 - 12) * (t1 - 12) < (t2 - 12) * (t2 - 12)); [|lra].
    change ((t1 - 12)² < (t2 - 12)²).
    rewrite (Rsqr_abs (t1 - 12)), (Rsqr_abs (t2 - 12)).
    apply Rsqr_incrst_1; [exact Habs | apply Rabs_pos | apply Rabs_pos].
  - intros rows g Hrows.
    destruct (generate_gsi_dataset_columns rows "seismic" g Hrows)
      as (time_hrs & data & g' & _ & _ & Hdata & Hgen).
    unfold scenario_data in Hdata.
    change (String.eqb "seismic" "monsoon") with false in Hdata.
    change (String.eqb "seismic" "seismic") with true in Hdata. cbv iota in Hdata.
    change (random_randint 40 50 (Z.to_nat rows) g).2 with (advance (Z.to_nat rows) g)
      in Hdata.
    pose proof (seismic_columns time_hrs rows g (Z.to_nat rows)) as Hcols.
    destruct (_generate_seismic_scenario _ _ _) as [data0 g0].
    injection Hdata as -> ->. cbv zeta in Hcols. destruct Hcols as (_ & Hcd & Hci).
    cbn [fst] in Hcd, Hci.
    eexists _, _. split; [exact Hgen|]. simpl. rewrite Hcd, Hci.
    split; [reflexivity|].
    split; [rewrite map_map; apply map_ext; intros t; at_R; lra|].
    split.
    + apply Forall_map_range. apply seismic_pulse_range.
    + apply (Forall_map_range (fun t => fadd (of_Z 1) (fmul (seismic_pulse t) (of_Z 8)))).
      intros t. pose proof (seismic_pulse_range t). at_R. lra.
Qed.

Lemma seismic_scenario_pulse_witness :
  exists df g',
    generate_gsi_dataset 1000 "seismic" zero_rng = Ok (df, g')
    /\ Forall (fun d => 1 < d <= 9) (Displacement_mm df).
Proof.
  destruct (proj2 (proj2 (proj2 (proj2 seismic_scenario_pulse))) 1000%Z zero_rng)
    as (df & g' & Hgen & _ & _ & _ & Hd); [lia|].
  exists df, g'. split; [exact Hgen | exact Hd].
Defined.

(** Over the reals [np.linspace(a, b, N)] for [N >= 2] and [a <> b] is
    the grid [a + i (b - a)/(N-1)], [i = 0 .. N-1]. *)
Lemma np_linspace_grid (a b : R) (N : Z) :
  (2 <= N)%Z -> a <> b ->
  np_linspace a b N
  = Ok (map (fun i => a + INR i * ((b - a) / IZR (N - 1))) (seq 0 (Z.to_nat N))).
Proof.
  intros HN Hab. unfold np_linspace. cbv zeta.
  destruct (Z.ltb_spec N 0) as [?|_]; [lia|].
  destruct (Z.ltb_spec 0 (N - 1)) as [_|?]; [|lia].
  destruct (Z.ltb_spec 1 N) as [_|?]; [|lia].
  assert (0 < IZR (N - 1)) as Hpos by (apply IZR_lt; lia).
  at_R. rewrite Reqb_false by (intros Hz; apply (Rmult_eq_compat_r (IZR (N - 1))) in Hz;
    unfold Rdiv in Hz; rewrite Rmult_assoc, Rinv_l in Hz by lra; lra).
  f_equal. unfold np_arange. rewrite !map_map. at_R.
  destruct (Z.to_nat N) as [|m] eqn:Hm; [lia|].
  rewrite seq_S, !map_app. change (0 + m)%nat with m.
  set (grid := map (fun x => IZR (Z.of_nat x) * ((b - a) / IZR (N - 1)) + a) (seq 0 m)).
  assert (length grid = m) as Hlen by (unfold grid; rewrite length_map, length_seq; reflexivity).
  unfold py_slice_to. cbv zeta. change (-1 <? 0)%Z with true. cbv iota.
  rewrite length_app, Hlen. simpl length.
  replace (Z.to_nat (Z.max (-1 + Z.of_nat (m + 1)) 0)) with m by lia.
  rewrite take_app_length' by (symmetry; exact Hlen).
  f_equal.
  - unfold grid. apply map_ext. intros i. rewrite INR_IZR_INZ. lra.
  - simpl. f_equal. rewrite INR_IZR_INZ. replace (Z.of_nat m) with (N - 1)%Z by lia.
    field. lra.
Qed.

Lemma lookup_zip_with_map_seq (f g : nat -> R) (n i : nat) :
  (i < n)%nat ->
  zip_with Rplus (map f (seq 0 n)) (map g (seq 0 n)) !! i = Some (f i + g i).
Proof.
  intros Hi. rewrite lookup_zip_with, !lookup_map_seq.
  replace (i <? n)%nat with true by (symmetry; apply Nat.ltb_lt; exact Hi).
  reflexivity.
Qed.


(** ** The generated frames, row by row *)


Lemma lookup_map_lt {A B : Type} (f : A -> B) (l : list A) (i : nat) (x : A) :
  l !! i = Some x -> map f l !! i = Some (f x).
Proof.
  intros Hx. change (map f l) with (f <$> l). rewrite list_lookup_fmap, Hx. reflexivity.
Qed.

Lemma lookup_grid (N : Z) (i : nat) :
  (i < Z.to_nat N)%nat ->
  map (fun i => INR i * (24 / IZR (N - 1))) (seq 0 (Z.to_nat N)) !! i = Some (grid_hour N i).
Proof.
  intros Hi. rewrite lookup_map_seq.
  replace (i <? Z.to_nat N)%nat with true by (symmetry; apply Nat.ltb_lt; exact Hi).
  reflexivity.
Qed.

Lemma monsoon_frame_rows (N : Z) (g : RandomState R) :
  (2 <= N)%Z ->
  exists df g',
    generate_gsi_dataset N "monsoon" g = Ok (df, g')
    /\ forall i : nat,
         (i < Z.to_nat N)%nat ->
         Pore_Water_Pressure_kPa df !! i = Some (monsoon_pressure (grid_hour N i))
         /\ Displacement_mm df !! i
            = Some (monsoon_displacement (monsoon_pressure (grid_hour N i))).
Proof.
  intros HN.
  destruct (generate_gsi_dataset_columns N "monsoon" g)
    as (time_hrs & data & g' & Hlin & _ & Hdata & Hgen); [lia|].
  unfold scenario_data in Hdata.
  change (String.eqb "monsoon" "monsoon") with true in Hdata. cbv iota in Hdata.
  pose proof (monsoon_columns time_hrs N (random_randint 40 50 (Z.to_nat N) g).2) as Hcols.
  destruct (_generate_monsoon_scenario _ _ _) as [data0 g0].
  injection Hdata as -> ->. cbv zeta in Hcols. destruct Hcols as (Hcp & Hcd & _).
  cbn [fst] in Hcp, Hcd.
  rewrite np_linspace_R in Hlin by exact HN. injection Hlin as <-.
  eexists _, _. split; [exact Hgen|].
  cbn [Pore_Water_Pressure_kPa Displacement_mm]. rewrite Hcp, Hcd. intros i Hi.
  split.
  - apply (lookup_map_lt monsoon_pressure), lookup_grid, Hi.
  - apply (lookup_map_lt (fun t => monsoon_displacement (monsoon_pressure t))),
      lookup_grid, Hi.
Qed.

Lemma seismic_frame_rows (N : Z) (g : RandomState R) :
  (2 <= N)%Z ->
  exists df g',
    generate_gsi_dataset N "seismic" g = Ok (df, g')
    /\ forall i : nat,
         (i < Z.to_nat N)%nat ->
         Pore_Water_Pressure_kPa df !! i
         = Some (30 + 2 * std_normal g (cursor g + Z.to_nat N + i))
         /\ Displacement_mm df !! i = Some (1 + 8 * seismic_pulse (grid_hour N i)).
Proof.
  intros HN.
  destruct (generate_gsi_dataset_columns N "seismic" g)
    as (time_hrs & data & g' & Hlin & _ & Hdata & Hgen); [lia|].
  unfold scenario_data in Hdata.
  change (String.eqb "seismic" "monsoon") with false in Hdata.
  change (String.eqb "seismic" "seismic") with true in Hdata. cbv iota in Hdata.
  change (random_randint 40 50 (Z.to_nat N) g).2 with (advance (Z.to_nat N) g) in Hdata.
  pose proof (seismic_columns time_hrs N g (Z.to_nat N)) as Hcols.
  destruct (_generate_seismic_scenario _ _ _) as [data0 g0].
  injection Hdata as -> ->. cbv zeta in Hcols. destruct Hcols as (Hcp & Hcd & _).
  cbn [fst] in Hcp, Hcd.
  rewrite np_linspace_R in Hlin by exact HN. injection Hlin as <-.
  eexists _, _. split; [exact Hgen|].
  cbn [Pore_Water_Pressure_kPa Displacement_mm]. rewrite Hcp, Hcd. intros i Hi.
  split.
  - rewrite lookup_map_seq.
    replace (i <? Z.to_nat N)%nat with true by (symmetry; apply Nat.ltb_lt; exact Hi).
    unfold normal_sample. at_R. f_equal. change (0 + i)%nat with i. lra.
  - rewrite (lookup_map_lt _ _ i (grid_hour N i) (lookup_grid N i Hi)).
    f_equal. at_R. lra.
Qed.

Lemma stable_frame_rows (N : Z) (scenario : string) (g : RandomState R) :
  (2 <= N)%Z -> scenario <> "monsoon"%string -> scenario <> "seismic"%string ->
  exists df g',
    generate_gsi_dataset N scenario g = Ok (df, g')
    /\ Scenario_Intensity df = np_zeros N
    /\ forall i : nat,
         (i < Z.to_nat N)%nat ->
         Pore_Water_Pressure_kPa df !! i
         = Some (25 + std_normal g (cursor g + Z.to_nat N + i))
         /\ Displacement_mm df !! i
            = Some (0.5 + INR i / IZR (N - 1)
                    + 0.05 * std_normal g (cursor g + 3 * Z.to_nat N + i)).
Proof.
  intros Hrows Hm Hs.
  destruct (generate_gsi_dataset_columns N scenario g)
    as (time_hrs & data & g' & _ & _ & Hdata & Hgen); [lia|].
  unfold scenario_data in Hdata.
  replace (String.eqb scenario "monsoon") with false in Hdata
    by (symmetry; apply String.eqb_neq; exact Hm).
  replace (String.eqb scenario "seismic") with false in Hdata
    by (symmetry; apply String.eqb_neq; exact Hs).
  change (random_randint 40 50 (Z.to_nat N) g).2 with (advance (Z.to_nat N) g)
    in Hdata.
  destruct (stable_columns time_hrs N g (Z.to_nat N))
    as (ramp & data0 & g0 & Hramp & _ & Hstable & Hcp & Hcd & Hci); [lia|].
  rewrite Hstable in Hdata. injection Hdata as <- <-.
  rewrite np_linspace_grid in Hramp; [|exact Hrows | at_R; lra]. injection Hramp as <-.
  eexists _, _. split; [exact Hgen|].
  cbn [Pore_Water_Pressure_kPa Displacement_mm Scenario_Intensity]. rewrite Hcp, Hcd, Hci.
  split; [reflexivity|]. intros i Hi. split.
  - rewrite lookup_map_seq.
    replace (i <? Z.to_nat N)%nat with true by (symmetry; apply Nat.ltb_lt; exact Hi).
    unfold normal_sample. at_R. f_equal. change (0 + i)%nat with i. lra.
  - change (zip_with fadd) with (zip_with Rplus).
    rewrite lookup_zip_with_map_seq by exact Hi.
    unfold normal_sample. at_R. f_equal.
    replace (cursor g + (Z.to_nat N + Z.to_nat N + Z.to_nat N) + i)%nat
      with (cursor g + 3 * Z.to_nat N + i)%nat by lia.
    replace ((15 / 10 - 5 / 10) / IZR (N - 1)) with (/ IZR (N - 1))
      by (unfold Rdiv; lra).
    unfold Rdiv. lra.
Qed.
(** X10.  In the stable scenario, and under every scenario name other
    than "monsoon" and "seismic", a frame of [N >= 2] rows has intensity
    0 in every row, pore pressure 25 plus a standard normal variate, and
    displacement [0.5 + i/(N-1)], rising linearly from 0.5 to 1.5, plus
    0.05 times a standard normal variate; the variates of the two columns
    are distinct draws. *)
Theorem stable_scenario_columns (rows : Z) (scenario : string) (g : RandomState R) :
  (2 <= rows)%Z -> scenario <> "monsoon"%string -> scenario <> "seismic"%string ->
  exists df g',
    generate_gsi_dataset rows scenario g = Ok (df, g')
    /\ Forall (fun s => s = 0) (Scenario_Intensity df)
    /\ forall i : nat,
         (i < Z.to_nat rows)%nat ->
         Pore_Water_Pressure_kPa df !! i
         = Some (25 + std_normal g (cursor g + Z.to_nat rows + i))
         /\ Displacement_mm df !! i
            = Some (0.5 + INR i / IZR (rows - 1)
                    + 0.05 * std_normal g (cursor g + 3 * Z.to_nat rows + i)).
Proof.
  intros Hrows Hm Hs.
  destruct (stable_frame_rows rows scenario g Hrows Hm Hs)
    as (df & g' & Hgen & Hint & Hrow).
  exists df, g'. split; [exact Hgen|]. split; [|exact Hrow].
  rewrite Hint. apply Forall_forall. intros s Hin. unfold np_zeros in Hin.
  apply elem_of_replicate in Hin as [-> _]. reflexivity.
Qed.

Lemma stable_scenario_columns_witness :
  exists df g',
    generate_gsi_dataset 1000 "stable" zero_rng = Ok (df, g')
    /\ Forall (fun s => s = 0) (Scenario_Intensity df)
    /\ Displacement_mm df !! 999%nat = Some (0.5 + INR 999 / 999 + 0.05 * 0).
Proof.
  destruct (stable_scenario_columns 1000 "stable" zero_rng)
    as (df & g' & Hgen & Hint & Hrow); [lia | discriminate | discriminate |].
  exists df, g'. split; [exact Hgen|]. split; [exact Hint|].
  apply (proj2 (Hrow 999%nat ltac:(lia))).
Defined.

(** ** The simulated frequency analysis over the reals *)


Lemma np_sum_R (l : list R) : np_sum l = Rsum l.
Proof.
  unfold np_sum. at_R.
  assert (forall a, fold_left Rplus l a = a + Rsum l) as Hacc.
  { induction l as [|x l IH]; intros a; simpl; [lra|]. rewrite IH. lra. }
  rewrite Hacc. lra.
Qed.

Lemma np_mean_R (l : list R) : np_mean l = Rsum l / INR (length l).
Proof. unfold np_mean. rewrite np_sum_R. at_R. rewrite <- INR_IZR_INZ. reflexivity. Qed.

Lemma Rsum_nonneg (l : list R) : Forall (fun x => 0 <= x) l -> 0 <= Rsum l.
Proof. induction 1; simpl; lra. Qed.

Lemma Rsum_zero (l : list R) :
  Forall (fun x => 0 <= x) l -> Rsum l = 0 -> Forall (fun x => x = 0) l.
Proof.
  induction 1 as [|x l Hx Hl IH]; simpl; intros Hsum; [constructor|].
  pose proof (Rsum_nonneg l Hl). constructor; [lra | apply IH; lra].
Qed.

Lemma Rsum_scale (k : R) (l : list R) : Rsum (map (Rmult k) l) = k * Rsum l.
Proof. induction l as [|x l IH]; simpl; [lra | rewrite IH; lra]. Qed.

Lemma Rsum_shift (c : R) (l : list R) :
  Rsum (map (fun x => x + c) l) = Rsum l + INR (length l) * c.
Proof.
  induction l as [|x l IH]; [simpl; lra|].
  change (length (x :: l)) with (S (length l)). rewrite S_INR. simpl. rewrite IH. lra.
Qed.

Lemma np_mean_shift (c : R) (l : list R) :
  l <> [] -> np_mean (map (fun x => x + c) l) = np_mean l + c.
Proof.
  intros Hne. rewrite !np_mean_R, length_map, Rsum_shift.
  assert (0 < INR (length l)) by (apply lt_0_INR; destruct l; [congruence | simpl; lia]).
  field. lra.
Qed.

Lemma np_mean_scale (k : R) (l : list R) : np_mean (map (Rmult k) l) = k * np_mean l.
Proof. rewrite !np_mean_R, length_map, Rsum_scale. unfold Rdiv. ring. Qed.

Lemma np_var_R (l : list R) :
  np_var l = Rsum (map (fun v => (v - np_mean l) * (v - np_mean l)) l) / INR (length l).
Proof. unfold np_var. cbv zeta. rewrite np_mean_R, length_map. reflexivity. Qed.

Lemma perform_fft_analysis_R (signal : list R) (sampling_rate : R) :
  perform_fft_analysis signal sampling_rate
  = (Rsum (map Rabs signal) / INR (length signal) * 0.8,
     Rsum (map (fun v => (v - np_mean signal) * (v - np_mean signal)) signal)
     / INR (length signal) * 100).
Proof.
  unfold perform_fft_analysis. cbv zeta. rewrite np_var_R, np_mean_R, length_map. at_R.
  f_equal; lra.
Qed.

(** X11.  In exact arithmetic, for a signal that is not empty, both
    energies of the simulated frequency analysis are at least zero, the
    high-frequency energy is zero exactly when all samples are equal, and
    the sampling rate does not enter the result. *)
Theorem perform_fft_analysis_energies (signal : list R) (sampling_rate : R) :
  signal <> [] ->
  0 <= (perform_fft_analysis signal sampling_rate).1
  /\ 0 <= (perform_fft_analysis signal sampling_rate).2
  /\ ((perform_fft_analysis signal sampling_rate).2 = 0
      <-> exists c, Forall (fun v => v = c) signal)
  /\ forall sampling_rate' : R,
       perform_fft_analysis signal sampling_rate' = perform_fft_analysis signal sampling_rate.
Proof.
  intros Hne. rewrite perform_fft_analysis_R. cbn [fst snd].
  assert (0 < INR (length signal)) as Hn
    by (apply lt_0_INR; destruct signal; [congruence | simpl; lia]).
  assert (0 < / INR (length signal)) as Hinv by (apply Rinv_0_lt_compat; exact Hn).
  set (m := np_mean signal).
  assert (Forall (fun x => 0 <= x) (map Rabs signal)) as Habs.
  { apply Forall_map_range. apply Rabs_pos. }
  assert (Forall (fun x => 0 <= x) (map (fun v => (v - m) * (v - m)) signal)) as Hsq.
  { apply (Forall_map_range (fun v => (v - m) * (v - m))). intros v. apply Rle_0_sqr. }
  pose proof (Rsum_nonneg _ Habs) as Hlow. pose proof (Rsum_nonneg _ Hsq) as Hhigh.
  split; [unfold Rdiv; nra|]. split; [unfold Rdiv; nra|].
  split; [|intros sampling_rate'; rewrite perform_fft_analysis_R; reflexivity].
  split.
  - intros Hzero. exists m.
    assert (Rsum (map (fun v => (v - m) * (v - m)) signal) = 0) as Hsum.
    { unfold Rdiv in Hzero. nra. }
    pose proof (Rsum_zero _ Hsq Hsum) as Hall.
    apply Forall_forall. intros v Hv. rewrite Forall_forall in Hall.
    assert ((v - m) * (v - m) = 0) as Hv0.
    { apply Hall. apply list_elem_of_In, in_map_iff. exists v.
      split; [reflexivity | apply list_elem_of_In; exact Hv]. }
    nra.
  - intros (c & Hc).
    assert (signal = map (fun _ => c) signal) as Hconst.
    { clear -Hc. induction Hc as [|v l -> _ IH]; simpl; congruence. }
    assert (m = c) as ->.
    { unfold m. rewrite np_mean_R, Hconst, length_map.
      assert (forall l : list R, Rsum (map (fun _ => c) l) = INR (length l) * c) as Hs.
      { induction l as [|x l IH]; [simpl; lra|].
        change (length (x :: l)) with (S (length l)). rewrite S_INR. simpl. rewrite IH. lra. }
      rewrite Hs. field. lra. }
    assert (Rsum (map (fun v => (v - c) * (v - c)) signal) = 0) as ->.
    { clear -Hc. induction Hc as [|v l -> _ IH]; simpl; [reflexivity | rewrite IH; lra]. }
    unfold Rdiv. lra.
Qed.

Lemma perform_fft_analysis_energies_witness :
  0 <= (perform_fft_analysis [1; -1; 1; -1] 1).1
  /\ 0 <= (perform_fft_analysis [1; -1; 1; -1] 1).2.
Proof.
  destruct (perform_fft_analysis_energies [1; -1; 1; -1] 1 ltac:(discriminate))
    as (Hlow & Hhigh & _).
  split; [exact Hlow | exact Hhigh].
Defined.

(** X12.  In exact arithmetic, scaling a signal that is not empty by
    [k] scales its low-frequency energy by [|k|] and its high-frequency
    energy by [k^2], and adding a constant to every sample leaves the
    high-frequency energy unchanged. *)
Theorem perform_fft_analysis_scaling (signal : list R) (sampling_rate k c : R) :
  signal <> [] ->
  (perform_fft_analysis (map (Rmult k) signal) sampling_rate).1
  = Rabs k * (perform_fft_analysis signal sampling_rate).1
  /\ (perform_fft_analysis (map (Rmult k) signal) sampling_rate).2
     = k * k * (perform_fft_analysis signal sampling_rate).2
  /\ (perform_fft_analysis (map (fun v => v + c) signal) sampling_rate).2
     = (perform_fft_analysis signal sampling_rate).2.
Proof.
  intros Hne. rewrite !perform_fft_analysis_R. cbn [fst snd].
  rewrite !length_map, np_mean_scale, (np_mean_shift c signal Hne). rewrite !map_map.
  set (m := np_mean signal).
  replace (map (fun x => Rabs (k * x)) signal) with (map (Rmult (Rabs k)) (map Rabs signal))
    by (rewrite map_map; apply map_ext; intros x; rewrite Rabs_mult; reflexivity).
  replace (map (fun x => (k * x - k * m) * (k * x - k * m)) signal)
    with (map (Rmult (k * k)) (map (fun v => (v - m) * (v - m)) signal))
    by (rewrite map_map; apply map_ext; intros x; ring).
  replace (map (fun x => (x + c - (m + c)) * (x + c - (m + c))) signal)
    with (map (fun v => (v - m) * (v - m)) signal)
    by (apply map_ext; intros x; ring).
  rewrite !Rsum_scale. unfold Rdiv. repeat split; ring.
Qed.

Lemma perform_fft_analysis_scaling_witness :
  (perform_fft_analysis (map (Rmult (-2)) [1; 2; 4]) 1).1
  = Rabs (-2) * (perform_fft_analysis [1; 2; 4] 1).1.
Proof.
  apply (proj1 (perform_fft_analysis_scaling [1; 2; 4] 1 (-2) 0 ltac:(discriminate))).
Defined.

(** ** The classifier stub: loading, prediction, event classes *)

Section LithosMLMore.
Context {F : Type} `{PyFloat F}.

Lemma py_index_head {A : Type} (x : A) (l : list A) : py_index (x :: l) 0 = Ok x.
Proof. apply (py_index_nonneg (x :: l) 0 x). reflexivity. Qed.

Lemma py_index_second {A : Type} (x y : A) (l : list A) : py_index (x :: y :: l) 1 = Ok y.
Proof. apply (py_index_nonneg (x :: y :: l) 1 y). reflexivity. Qed.

Lemma py_index_nil {A : Type} (i : Z) : py_index ([] : list A) i = Raise IndexError.
Proof. unfold py_index. cbv zeta. simpl. destruct (i <? 0)%Z; zbool; reflexivity. Qed.

(** X13.  The constructor keeps the path it is given and ends with
    [model_loaded] true exactly when joblib imports, the model file
    exists and [joblib.load] returns; the model is then what was loaded,
    and is [None] otherwise.  [get_model_info] reports the flag and the
    path among its four entries. *)
Theorem LithosML_init_loaded (env : PyEnv F) (path : string) :
  model_path (LithosML_init env path) = path
  /\ (model_loaded (LithosML_init env path) = true
      <-> joblib_imports env = true /\ os_path_exists env path = true
          /\ exists m, joblib_load env path = Ok m)
  /\ (forall m, joblib_imports env = true -> os_path_exists env path = true ->
                joblib_load env path = Ok m -> model (LithosML_init env path) = Some m)
  /\ (model_loaded (LithosML_init env path) = false -> model (LithosML_init env path) = None)
  /\ get_model_info (LithosML_init env path) !! "xgboost_loaded"%string
     = Some (InfoBool (model_loaded (LithosML_init env path)))
  /\ get_model_info (LithosML_init env path) !! "model_path"%string = Some (InfoStr path)
  /\ size (get_model_info (LithosML_init env path)) = 4%nat.
Proof.
  unfold LithosML_init, _load_model, try_except. simpl.
  destruct (joblib_imports env); simpl;
    [destruct (os_path_exists env path); simpl;
     [destruct (joblib_load env path) as [m|e] eqn:Hload; simpl|]|].
  all: split; [reflexivity|].
  all: split; [split; [intros Hl; try discriminate Hl; eauto
                      | intros (Hj & He & m' & Hm); congruence]|].
  all: split; [intros m' Hj He Hm; congruence|].
  all: split; [intros Hl; try discriminate Hl; reflexivity|].
  all: split; [reflexivity|]. all: split; [reflexivity|].
  all: unfold get_model_info; rewrite !map_size_insert; reflexivity.
Qed.

(** X14.  With a loaded model and pandas at hand, [predict_risk]
    returns "CRITICAL FAILURE" when the first predicted label is 1 and
    "Stable" otherwise, with the second entry of the first probability
    row, or 0.5 when that row has fewer than two entries; an empty label
    array or an empty probability array gives ("Error", 0.0), and so does
    a missing pandas. *)
Theorem predict_risk_loaded (env : PyEnv F) (self : LithosML F) (m : Classifier F)
    (pressure displacement : F) :
  model_loaded self = true -> model self = Some m ->
  (pandas_imports env = false ->
   predict_risk env self pressure displacement = Ok ("Error"%string, of_Z 0))
  /\ (pandas_imports env = true ->
      forall (label : Z) (labels : list Z),
        predict m pressure displacement = Ok (label :: labels) ->
        let risk_label :=
          if (label =? 1)%Z then "CRITICAL FAILURE"%string else "Stable"%string in
        (forall (p0 p1 : F) (ps : list F) (rows : list (list F)),
           predict_proba m pressure displacement = Ok ((p0 :: p1 :: ps) :: rows) ->
           predict_risk env self pressure displacement = Ok (risk_label, p1))
        /\ (forall (row : list F) (rows : list (list F)),
              (length row < 2)%nat ->
              predict_proba m pressure displacement = Ok (row :: rows) ->
              predict_risk env self pressure displacement = Ok (risk_label, dec 5 1))
        /\ (predict_proba m pressure displacement = Ok [] ->
            predict_risk env self pressure displacement = Ok ("Error"%string, of_Z 0)))
  /\ (predict m pressure displacement = Ok [] ->
      predict_risk env self pressure displacement = Ok ("Error"%string, of_Z 0)).
Proof.
  intros Hloaded Hmodel. unfold predict_risk. rewrite Hloaded, Hmodel. simpl.
  split; [|split].
  - intros ->. reflexivity.
  - intros -> label labels Hpred. simpl. rewrite Hpred, bind_Ok, py_index_head, bind_Ok.
    split; [|split].
    + intros p0 p1 ps rows ->. rewrite bind_Ok, py_index_head, bind_Ok.
      simpl length. change (1 <? S (S (length ps)))%nat with true. cbv iota.
      rewrite py_index_second. reflexivity.
    + intros row rows Hrow ->. rewrite bind_Ok, py_index_head, bind_Ok.
      replace (1 <? length row)%nat with false by (symmetry; apply Nat.ltb_ge; lia).
      reflexivity.
    + intros ->. rewrite bind_Ok, py_index_nil. reflexivity.
  - intros ->. destruct (pandas_imports env); [|reflexivity].
    cbn [negb]. cbv iota. rewrite bind_Ok, py_index_nil. reflexivity.
Qed.

End LithosMLMore.


Lemma predict_risk_loaded_witness :
  predict_risk loaded_env loaded_engine 80%float 7.5%float
  = Ok ("CRITICAL FAILURE"%string, 0.875%float).
Proof.
  apply (proj1 (proj1 (proj2 (predict_risk_loaded loaded_env loaded_engine alarmed_classifier
                         80%float 7.5%float eq_refl eq_refl)) eq_refl 1%Z [] eq_refl)
           0.125%float 0.875%float [] [] eq_refl).
Defined.

(** ** The seismic event classes *)

(** X15.  Over the reals the four labels of [classify_seismic_event]
    partition the plane: machinery below 60 Hz, critical fracture above
    1000 Hz with an amplitude above 0.3, micro-seismicity above 1000 Hz
    otherwise, background vibration from 60 to 1000 Hz.  In binary64 a
    frequency that is not a number is classed as background vibration. *)
Theorem classify_seismic_event_table :
  (forall a f : R,
     (classify_seismic_event a f = "Heavy Machinery (Noise)"%string <-> f < 60)
     /\ (classify_seismic_event a f = "CRITICAL FRACTURE"%string <-> 1000 < f /\ 0.3 < a)
     /\ (classify_seismic_event a f = "Rock Micro-seismicity"%string <-> 1000 < f /\ a <= 0.3)
     /\ (classify_seismic_event a f = "Background Vibration"%string <-> 60 <= f <= 1000))
  /\ (forall a : float,
        classify_seismic_event a PrimFloat.nan = "Background Vibration"%string).
Proof.
  split.
  - intros a f. unfold classify_seismic_event. at_R.
    replace (3 / 10) with 0.3 by lra. cbn [flt R_ops]. unfold Rltb.
    destruct (Rlt_dec f 60), (Rlt_dec 1000 f), (Rlt_dec 0.3 a); simpl;
      repeat split; intros; try reflexivity;
      try match goal with Hs : @eq string _ _ |- _ => discriminate Hs end;
      repeat match goal with
      | Hc : _ /\ _ |- _ => destruct Hc
      end; lra.
  - intros a. reflexivity.
Qed.

(** ** Rounding, and the simulated crack detector *)

Lemma Int_part_floor (x : R) : IZR (Int_part x) <= x < IZR (Int_part x) + 1.
Proof. destruct (base_Int_part x). lra. Qed.

Lemma Int_part_ge (x : R) (z : Z) : IZR z <= x -> (z <= Int_part x)%Z.
Proof.
  intros Hz. destruct (Int_part_floor x) as [_ Hhi].
  assert (IZR z < IZR (Int_part x + 1)) as Hlt by (rewrite plus_IZR; lra).
  apply lt_IZR in Hlt. lia.
Qed.

Lemma Rround_half_even_near (x : R) : - (1 / 2) <= IZR (Rround_half_even x) - x <= 1 / 2.
Proof.
  unfold Rround_half_even. cbv zeta. destruct (Int_part_floor x) as [Hlo Hhi].
  destruct (Rlt_dec _ _) as [Hlt|Hge]; [lra|].
  destruct (Rlt_dec _ _) as [Hgt|Hle]; [rewrite plus_IZR; lra|].
  destruct (Z.even _); [|rewrite plus_IZR]; lra.
Qed.

Lemma Rround_half_even_le (x : R) (z : Z) : x <= IZR z -> (Rround_half_even x <= z)%Z.
Proof.
  intros Hx. unfold Rround_half_even. cbv zeta. destruct (Int_part_floor x) as [Hlo Hhi].
  assert (Int_part x <= z)%Z as Hz by (apply le_IZR; lra).
  destruct (Rlt_dec _ _) as [Hlt|Hge]; [exact Hz|].
  assert (Int_part x < z)%Z.
  { destruct (Z.eq_dec (Int_part x) z) as [Heq|Hne]; [|lia]. rewrite Heq in Hge. lra. }
  destruct (Rlt_dec _ _); [lia|]. destruct (Z.even _); lia.
Qed.

Lemma Rround_half_even_ge (x : R) (z : Z) : IZR z <= x -> (z <= Rround_half_even x)%Z.
Proof.
  intros Hx. pose proof (Int_part_ge x z Hx) as Hz. unfold Rround_half_even. cbv zeta.
  destruct (Rlt_dec _ _); [exact Hz|]. destruct (Rlt_dec _ _); [lia|].
  destruct (Z.even _); lia.
Qed.

Lemma fround_R (x : R) (ndigits : nat) :
  fround x ndigits
  = IZR (Rround_half_even (x * IZR (10 ^ Z.of_nat ndigits))) / IZR (10 ^ Z.of_nat ndigits).
Proof. reflexivity. Qed.

Lemma analyze_crack_image_R (crack_intensity confidence_threshold std_exponential : R) :
  analyze_crack_image crack_intensity confidence_threshold std_exponential
  = (IZR (Rround_half_even
            ((if Rlt_dec 0.7 crack_intensity
              then 0.5 + crack_intensity * 5 * std_exponential
              else 0.5 + crack_intensity * 0.5) * 100)) / 100,
     IZR (Rround_half_even (Rmin 0.98 (0.85 + crack_intensity * 0.13) * 1000)) / 1000).
Proof.
  unfold analyze_crack_image, pymin. cbv zeta. rewrite !fround_R.
  change (10 ^ Z.of_nat 2)%Z with 100%Z. change (10 ^ Z.of_nat 3)%Z with 1000%Z.
  at_R. cbn [flt R_ops]. unfold Rltb.
  replace (7 / 10) with 0.7 by lra. replace (5 / 10) with 0.5 by lra.
  replace (98 / 100) with 0.98 by lra. replace (85 / 100) with 0.85 by lra.
  replace (13 / 100) with 0.13 by lra.
  f_equal.
  - destruct (Rlt_dec 0.7 crack_intensity); reflexivity.
  - do 3 f_equal. unfold Rmin.
    destruct (Rlt_dec _ _), (Rle_dec _ _); try reflexivity; lra.
Qed.

(** X16.  In exact arithmetic the simulated crack detector ignores its
    confidence threshold; its confidence never exceeds 0.98, is at least
    0.85 for an intensity that is not negative and is 0.98 from intensity
    1 on; up to intensity 0.7 the crack width is [0.5 + 0.5 * intensity]
    to within 0.005 and no random variate enters it; and for an intensity
    and a variate that are not negative the width is at least 0.5. *)
Theorem analyze_crack_image_bounds (crack_intensity threshold variate : R) :
  (forall threshold' : R,
     analyze_crack_image crack_intensity threshold' variate
     = analyze_crack_image crack_intensity threshold variate)
  /\ (analyze_crack_image crack_intensity threshold variate).2 <= 0.98
  /\ (0 <= crack_intensity ->
      0.85 <= (analyze_crack_image crack_intensity threshold variate).2)
  /\ (1 <= crack_intensity ->
      (analyze_crack_image crack_intensity threshold variate).2 = 0.98)
  /\ (crack_intensity <= 0.7 ->
      Rabs ((analyze_crack_image crack_intensity threshold variate).1
            - (0.5 + 0.5 * crack_intensity)) <= 0.005
      /\ forall variate' : R,
           analyze_crack_image crack_intensity threshold variate'
           = analyze_crack_image crack_intensity threshold variate)
  /\ (0 <= crack_intensity -> 0 <= variate ->
      0.5 <= (analyze_crack_image crack_intensity threshold variate).1).
Proof.
  split; [intros threshold'; reflexivity|].
  rewrite analyze_crack_image_R. cbn [fst snd].
  set (conf := Rmin 0.98 (0.85 + crack_intensity * 0.13)).
  assert (conf <= 0.98) as Hconf by apply Rmin_l.
  split; [|split; [|split; [|split]]].
  - assert (Rround_half_even (conf * 1000) <= 980)%Z as Hz
      by (apply Rround_half_even_le; lra).
    apply IZR_le in Hz. lra.
  - intros Hci.
    assert (0.85 <= conf) as Hlo by (apply Rmin_glb; nra).
    assert (850 <= Rround_half_even (conf * 1000))%Z as Hz
      by (apply Rround_half_even_ge; lra).
    apply IZR_le in Hz. lra.
  - intros Hci.
    assert (conf = 0.98) as -> by (apply Rmin_left; lra).
    assert (Rround_half_even (0.98 * 1000) = 980%Z) as ->.
    { apply Z.le_antisymm; [apply Rround_half_even_le | apply Rround_half_even_ge]; lra. }
    lra.
  - intros Hci. destruct (Rlt_dec 0.7 crack_intensity) as [?|_]; [lra|]. split.
    + pose proof (Rround_half_even_near ((0.5 + crack_intensity * 0.5) * 100)) as Hnear.
      apply Rabs_le. lra.
    + intros variate'. rewrite !analyze_crack_image_R.
      destruct (Rlt_dec 0.7 crack_intensity); [lra | reflexivity].
  - intros Hci Hv.
    assert (forall raw : R, 0.5 <= raw -> 0.5 <= IZR (Rround_half_even (raw * 100)) / 100)
      as Hround.
    { intros raw Hraw.
      assert (50 <= Rround_half_even (raw * 100))%Z as Hz
        by (apply Rround_half_even_ge; lra).
      apply IZR_le in Hz. lra. }
    apply Hround. destruct (Rlt_dec 0.7 crack_intensity); nra.
Qed.

(** ** The failure injection *)

Lemma Rtrunc_four_fifths (n : nat) : Rtrunc (IZR (Z.of_nat n) * (8 / 10)) = (4 * Z.of_nat n / 5)%Z.
Proof.
  unfold Rtrunc. pose proof (pos_INR n) as Hn. rewrite INR_IZR_INZ in Hn.
  destruct (Rle_dec 0 _) as [_|Hneg]; [|exfalso; apply Hneg; lra].
  symmetry. apply Int_part_spec.
  pose proof (Z.mul_div_le (4 * Z.of_nat n) 5 ltac:(lia)) as Hle.
  pose proof (Z.mod_pos_bound (4 * Z.of_nat n) 5 ltac:(lia)) as Hmod.
  pose proof (Z.div_mod (4 * Z.of_nat n) 5 ltac:(lia)) as Hdm.
  assert (4 * Z.of_nat n < 5 * (4 * Z.of_nat n / 5) + 5)%Z as Hlt by lia.
  apply IZR_le in Hle. apply IZR_lt in Hlt.
  rewrite !mult_IZR in Hle. rewrite plus_IZR, !mult_IZR in Hlt. lra.
Qed.

(** X17.  In exact arithmetic the failure injection of a frame of [n]
    rows multiplies the pore pressure by 1.5 in the rows from index
    [floor(4n/5)] on, leaves the pressure of the rows before and every
    other column as they were, and never raises; on the 1000 rows the
    dashboard loads these are the last 200 rows, in binary64 too. *)
Theorem inject_failure_spike_rows :
  (forall df : DataFrame R,
     exists df',
       inject_failure_spike df = Ok df'
       /\ (Time_Hrs df', Lithology df', RQD df') = (Time_Hrs df, Lithology df, RQD df)
       /\ (Raw_Acoustic_Emission_g df', Displacement_mm df', Scenario_Intensity df')
          = (Raw_Acoustic_Emission_g df, Displacement_mm df, Scenario_Intensity df)
       /\ length (Pore_Water_Pressure_kPa df') = length (Pore_Water_Pressure_kPa df)
       /\ forall (i : nat) (p : R),
            Pore_Water_Pressure_kPa df !! i = Some p ->
            Pore_Water_Pressure_kPa df' !! i
            = Some (if (4 * Z.of_nat (df_len df) / 5 <=? Z.of_nat i)%Z then p * 1.5 else p))
  /\ (forall df : DataFrame float,
        df_len df = 1000%nat ->
        exists df',
          inject_failure_spike df = Ok df'
          /\ forall (i : nat) (p : float),
               Pore_Water_Pressure_kPa df !! i = Some p ->
               Pore_Water_Pressure_kPa df' !! i
               = Some (if (800 <=? Z.of_nat i)%Z then (p * 1.5)%float else p)).
Proof.
  split.
  - intros df. unfold inject_failure_spike. at_R. cbn [ftrunc R_ops]. rewrite bind_Ok.
    rewrite Rtrunc_four_fifths.
    eexists. split; [reflexivity|]. cbn [Time_Hrs Lithology RQD Pore_Water_Pressure_kPa
      Raw_Acoustic_Emission_g Displacement_mm Scenario_Intensity].
    split; [reflexivity|]. split; [reflexivity|]. split; [apply length_imap|].
    intros i p Hp. rewrite list_lookup_imap, Hp. simpl.
    destruct (_ <=? _)%Z; f_equal; lra.
  - intros df Hlen. unfold inject_failure_spike. rewrite Hlen.
    change (ftrunc (fmul (of_Z (Z.of_nat 1000)) (dec 8 1))) with (Ok 800%Z : result Z).
    rewrite bind_Ok. eexists. split; [reflexivity|].
    cbn [Pore_Water_Pressure_kPa]. intros i p Hp. rewrite list_lookup_imap, Hp. simpl.
    destruct (_ <=? _)%Z; reflexivity.
Qed.

(** ** The sector heatmap *)

Lemma sector_colors_R (sector_fos : R) :
  sector_colors sector_fos
  = if Rlt_dec 1.2 sector_fos then ("rgba(0, 255, 136, 0.6)", "#00ff88")%string
    else if Rlt_dec sector_fos 1.05 then ("rgba(255, 0, 60, 0.8)", "#ff003c")%string
    else ("rgba(255, 170, 0, 0.6)", "#ffaa00")%string.
Proof.
  unfold sector_colors. at_R. cbn [flt R_ops]. unfold Rltb.
  replace (12 / 10) with 1.2 by lra. replace (105 / 100) with 1.05 by lra.
  destruct (Rlt_dec 1.2 sector_fos); [|destruct (Rlt_dec sector_fos 1.05)]; reflexivity.
Qed.

(** X18.  The heatmap draws the five sectors in their order, each label
    at the centre of its unit square.  Sectors 1, 2, 3 and 5 are always
    green; sector 4 is red exactly when the point is critical (factor of
    safety below 1.05), green above 1.2 and amber in between.  The fixed
    sectors and the label positions are the same in binary64. *)
Theorem heatmap_sector_colors :
  (forall fos : R,
     map tr_name (heatmap fos)
     = ["Sector 1"; "Sector 2"; "Sector 3"; "Sector 4"; "Sector 5"]%string
     /\ map (fun t => (tr_center_x t, tr_center_y t)) (heatmap fos)
        = [(0.5, 2.5); (1.5, 2.5); (2.5, 2.5); (0.5, 1.5); (1.5, 1.5)]
     /\ map tr_line_color (heatmap fos)
        = ["#00ff88"; "#00ff88"; "#00ff88"; (sector_colors fos).2; "#00ff88"]%string
     /\ ((sector_colors fos).2 = "#ff003c"%string <-> is_critical_fos fos = true)
     /\ ((sector_colors fos).2 = "#00ff88"%string <-> 1.2 < fos)
     /\ ((sector_colors fos).2 = "#ffaa00"%string <-> 1.05 <= fos <= 1.2))
  /\ (forall fos : float,
        map tr_line_color (heatmap fos)
        = ["#00ff88"; "#00ff88"; "#00ff88"; (sector_colors fos).2; "#00ff88"]%string
        /\ map (fun t => (tr_center_x t, tr_center_y t)) (heatmap fos)
           = [(0.5, 2.5); (1.5, 2.5); (2.5, 2.5); (0.5, 1.5); (1.5, 1.5)]%float).
Proof.
  split.
  - intros fos. split; [|split; [|split; [|split; [|split]]]].
    + unfold heatmap, sector_polys. cbn [map sec_fos sec_x sec_y].
      repeat (destruct (sector_colors _)). reflexivity.
    + unfold heatmap, sector_polys. cbn [map sec_fos sec_x sec_y].
      repeat (destruct (sector_colors _)). cbn [tr_center_x tr_center_y].
      unfold sector_center, py_slice_to. simpl. at_R.
      repeat match goal with
      | |- context [IZR (?a + ?b)] =>
          let v := eval vm_compute in (a + b)%Z in change (a + b)%Z with v
      end.
      repeat f_equal; lra.
    + unfold heatmap, sector_polys. cbn [map sec_fos sec_x sec_y].
      rewrite !sector_colors_R. at_R.
      destruct (Rlt_dec 1.2 (18 / 10)) as [_|?]; [|lra].
      destruct (Rlt_dec 1.2 (16 / 10)) as [_|?]; [|lra].
      destruct (Rlt_dec 1.2 (15 / 10)) as [_|?]; [|lra].
      destruct (Rlt_dec 1.2 (17 / 10)) as [_|?]; [|lra].
      destruct (Rlt_dec 1.2 fos); [|destruct (Rlt_dec fos 1.05)]; reflexivity.
    + rewrite sector_colors_R, is_critical_fos_R. unfold Rltb.
      destruct (Rlt_dec 1.2 fos), (Rlt_dec fos 1.05); simpl;
        split; intros Hx; try discriminate Hx; try reflexivity; lra.
    + rewrite sector_colors_R.
      destruct (Rlt_dec 1.2 fos), (Rlt_dec fos 1.05); simpl;
        split; intros Hx; try discriminate Hx; try reflexivity; lra.
    + rewrite sector_colors_R.
      destruct (Rlt_dec 1.2 fos), (Rlt_dec fos 1.05); simpl;
        split; intros Hx; try discriminate Hx; try reflexivity; lra.
  - intros fos. unfold heatmap, sector_polys. cbn [map sec_fos sec_x sec_y].
    destruct (sector_colors fos) as [color line_color]. split; reflexivity.
Qed.

(** ** Sessions: what no sequence of interactions does *)


Section SessionFacts.
Context {F : Type} `{PyFloat F} `{PyTranscendental F}.

Lemma buffer_aligned_empty : buffer_aligned (empty_buffer (F := F)).
Proof.
  exists [], [], [], []. unfold buffer_holds, empty_buffer.
  repeat first [rewrite lookup_insert_eq | rewrite lookup_insert_ne by done].
  simpl. repeat split; lia.
Qed.

Lemma session_invariant_fresh : session_invariant (initial_session (F := F)).
Proof.
  split; [exact buffer_aligned_empty|]. split; [reflexivity|]. split; [reflexivity|].
  intros Hl. discriminate Hl.
Qed.

Lemma stream_alarm_invariant (ct : string) (c : bool) (st : SessionState F) :
  session_invariant st ->
  session_invariant (stream_alarm ct c st)
  /\ telemetry_buffer (stream_alarm ct c st) = telemetry_buffer st
  /\ inject_failure (stream_alarm ct c st) = inject_failure st
  /\ data_source (stream_alarm ct c st) = data_source st.
Proof.
  intros (Hbuf & Hapi & Hsiren & Hlog). unfold stream_alarm.
  destruct (c && negb (alarm_already_logged st));
    [|split; [exact (conj Hbuf (conj Hapi (conj Hsiren Hlog))) | repeat split]].
  split; [|repeat split]. split; [exact Hbuf|]. split; [exact Hapi|].
  split; [exact Hsiren|]. intros _. split; [reflexivity|]. simpl. intros Hnil.
  apply app_eq_nil in Hnil as [_ Hnil]. discriminate Hnil.
Qed.

Lemma stream_alarms_invariant (now : Z -> string) (df : DataFrame F) (indices : list Z)
    (st : SessionState F) :
  session_invariant st ->
  session_invariant (stream_alarms now df indices st)
  /\ telemetry_buffer (stream_alarms now df indices st) = telemetry_buffer st
  /\ inject_failure (stream_alarms now df indices st) = inject_failure st
  /\ data_source (stream_alarms now df indices st) = data_source st.
Proof.
  revert st. induction indices as [|i rest IH]; intros st Hinv;
    [split; [exact Hinv | repeat split]|].
  unfold stream_alarms in *. simpl.
  destruct (stream_alarm_invariant (now i) (is_critical_at df i) st Hinv)
    as (Hinv' & Hb & Hi & Hd).
  destruct (IH _ Hinv') as (Hinv'' & Hb' & Hi' & Hd').
  split; [exact Hinv''|]. repeat split; congruence.
Qed.

Lemma forensic_alarm_invariant (ct : string) (c : bool) (st : SessionState F) :
  session_invariant st ->
  session_invariant (forensic_alarm ct c st)
  /\ inject_failure (forensic_alarm ct c st) = inject_failure st
  /\ data_source (forensic_alarm ct c st) = data_source st.
Proof.
  intros (Hbuf & Hapi & Hsiren & Hlog). unfold forensic_alarm.
  destruct (c && negb (alarm_already_logged st)).
  - split; [|repeat split]. split; [exact Hbuf|]. split; [exact Hapi|].
    split; [exact Hsiren|]. intros _. split; [reflexivity|]. simpl. intros Hnil.
    apply app_eq_nil in Hnil as [_ Hnil]. discriminate Hnil.
  - destruct (negb c && alarm_already_logged st).
    + split; [|repeat split]. split; [exact Hbuf|]. split; [exact Hapi|].
      split; [exact Hsiren|]. intros Hl. discriminate Hl.
    + split; [exact (conj Hbuf (conj Hapi (conj Hsiren Hlog))) | repeat split].
Qed.

Lemma select_source_invariant (source_option : string) (st : SessionState F) :
  session_invariant st -> session_invariant (select_source source_option st).
Proof.
  intros (Hbuf & Hapi & Hsiren & Hlog). unfold select_source.
  destruct (negb (String.eqb source_option (data_source st))).
  - split; [exact buffer_aligned_empty|]. split; [reflexivity|].
    split; [exact Hsiren | exact Hlog].
  - split; [exact Hbuf|]. split; [exact Hapi|]. split; [exact Hsiren | exact Hlog].
Qed.

Lemma sidebar_invariant (inp : Inputs F) (st : SessionState F) :
  session_invariant st -> session_invariant (sidebar inp st).1.
Proof.
  intros Hinv. unfold sidebar.
  assert (session_invariant
            match in_mode inp with
            | LIVE_STREAM source_option _ => select_source source_option st
            | MANUAL_FORENSICS _ => st
            end) as Hsel.
  { destruct (in_mode inp); [exact Hinv | apply select_source_invariant, Hinv]. }
  set (st1 := match in_mode inp with
              | LIVE_STREAM source_option _ => select_source source_option st
              | MANUAL_FORENSICS _ => st
              end) in *.
  destruct (in_button inp); simpl.
  - exact Hsel.
  - destruct Hinv as (Hbuf & Hapi & Hsiren & Hlog).
    split; [exact Hbuf|]. split; [exact Hapi|]. split; [reflexivity|].
    intros Hl. split; [exact (proj1 (Hlog Hl))|]. intros Hnil.
    apply app_eq_nil in Hnil as [_ Hnil]. discriminate Hnil.
  - destruct Hsel as (Hbuf & Hapi & Hsiren & Hlog).
    split; [exact Hbuf|]. split; [exact Hapi|]. split; [exact Hsiren|].
    intros Hl. discriminate Hl.
  - destruct (inject_failure st1) eqn:Hinj; simpl; [|exact Hsel].
    unfold press_reset. rewrite Hinj. destruct Hsel as (Hbuf & Hapi & Hsiren & Hlog).
    split; [exact buffer_aligned_empty|]. split; [exact Hapi|]. split; [exact Hsiren|].
    intros Hl. discriminate Hl.
Qed.

Lemma load_full_data_returns (scenario : string) (st : SessionState F) (g : RandomState F) :
  spike_start_returns -> exists full_data, load_full_data scenario st g = Ok full_data.
Proof.
  intros [k Hk]. unfold load_full_data, get_dataset.
  destruct (generate_gsi_dataset_shape 1000 scenario g) as
    (time_hrs & df & g' & _ & Hgen & _ & Hlen & _); [lia|].
  rewrite Hgen, bind_Ok. destruct (inject_failure st); [|eauto].
  unfold inject_failure_spike. rewrite Hlen.
  change (Z.of_nat (Z.to_nat 1000)) with 1000%Z. rewrite Hk, bind_Ok. eauto.
Qed.

Lemma dashboard_tab_from (inp : Inputs F) (st : SessionState F) (full_data : DataFrame F) :
  session_invariant st -> valid_inputs inp ->
  load_full_data (in_scenario inp) st (in_rng inp) = Ok full_data ->
  exists st' shown, dashboard_tab inp st = Ok (st', shown) /\ session_invariant st'.
Proof.
  intros Hinv Hvalid Hload. unfold dashboard_tab.
  destruct (load_full_data_shape _ _ _ _ Hload) as [Hwf Hlen].
  rewrite Hload, bind_Ok. unfold valid_inputs in Hvalid.
  destruct (in_mode inp) as [timeline_hour|source_option playback_speed].
  - destruct (manual_forensics_spec (in_env inp) (in_ml_engine inp) (in_clock inp)
                full_data timeline_hour st Hwf) as (shown & -> & _); [lia|].
    rewrite bind_Ok. eexists _, _. split; [reflexivity|].
    apply forensic_alarm_invariant, Hinv.
  - pose proof Hinv as ((lt & lp & ld & lf & Hbuf & Hlp & Hld & Hlf & Hcap) & _).
    destruct (live_stream_spec (in_env inp) (in_ml_engine inp) (in_tick_clock inp)
                full_data playback_speed st lt lp ld lf Hwf)
      as (indices & trace & buf' & _ & -> & _ & _ & _ & Hrows & Hbuf');
      [lia | exact Hbuf | exact Hlp | exact Hld | exact Hcap | lia |].
    rewrite bind_Ok. eexists _, _. split; [reflexivity|].
    destruct (stream_alarms_invariant (in_tick_clock inp) full_data
                (processed full_data indices) st Hinv)
      as ((_ & Hapi & Hsiren & Hlog) & _).
    split; [|split; [exact Hapi | split; [exact Hsiren | exact Hlog]]].
    simpl. eexists _, _, _, _. split; [exact Hbuf'|].
    rewrite !lastn_length, !length_app, !length_map. repeat split; lia.
Qed.

Lemma dashboard_tab_keeps (inp : Inputs F) (st st' : SessionState F) (shown : Shown F) :
  session_invariant st -> valid_inputs inp ->
  dashboard_tab inp st = Ok (st', shown) -> session_invariant st'.
Proof.
  intros Hinv Hvalid Hrun.
  destruct (load_full_data (in_scenario inp) st (in_rng inp)) as [full_data|e] eqn:Hload.
  - destruct (dashboard_tab_from inp st full_data Hinv Hvalid Hload)
      as (st'' & shown' & Hrun' & Hinv').
    rewrite Hrun in Hrun'. injection Hrun' as <- _. exact Hinv'.
  - unfold dashboard_tab in Hrun. rewrite Hload in Hrun. discriminate Hrun.
Qed.

Lemma script_run_keeps (inp : Inputs F) (st st' : SessionState F) (shown : Shown F) :
  session_invariant st -> valid_inputs inp ->
  script_run inp st = Ok (st', shown) -> session_invariant st'.
Proof.
  intros Hinv Hvalid. unfold script_run.
  pose proof (sidebar_invariant inp st Hinv) as Hside.
  destruct (sidebar inp st) as [st1 rerun]. simpl in Hside.
  destruct rerun.
  - pose proof (sidebar_invariant (no_button inp) st1 Hside) as Hside'.
    destruct (sidebar (no_button inp) st1) as [st2 rerun']. simpl in Hside'.
    apply dashboard_tab_keeps; [exact Hside' | exact Hvalid].
  - apply dashboard_tab_keeps; assumption.
Qed.

Lemma script_run_returns (inp : Inputs F) (st : SessionState F) :
  spike_start_returns -> session_invariant st -> valid_inputs inp ->
  exists st' shown, script_run inp st = Ok (st', shown).
Proof.
  intros Hspike Hinv Hvalid. unfold script_run.
  pose proof (sidebar_invariant inp st Hinv) as Hside.
  destruct (sidebar inp st) as [st1 rerun]. simpl in Hside.
  destruct rerun.
  - pose proof (sidebar_invariant (no_button inp) st1 Hside) as Hside'.
    destruct (sidebar (no_button inp) st1) as [st2 rerun']. simpl in Hside'.
    destruct (load_full_data_returns (in_scenario inp) st2 (in_rng inp) Hspike)
      as [full_data Hload].
    destruct (dashboard_tab_from (no_button inp) st2 full_data Hside' Hvalid Hload)
      as (st' & shown & Hrun & _).
    eauto.
  - destruct (load_full_data_returns (in_scenario inp) st1 (in_rng inp) Hspike)
      as [full_data Hload].
    destruct (dashboard_tab_from inp st1 full_data Hside Hvalid Hload)
      as (st' & shown & Hrun & _).
    eauto.
Qed.

Lemma reachable_invariant (st : SessionState F) : reachable st -> session_invariant st.
Proof.
  induction 1 as [|inp st st' shown _ IH Hvalid Hrun]; [exact session_invariant_fresh|].
  exact (script_run_keeps inp st st' shown IH Hvalid Hrun).
Qed.

(** X19.  From a fresh session, whatever buttons are pressed and
    whatever mode, source, scenario, slider positions, random state and
    classifier each run of the script meets, no run raises: every run
    ends in a session state, with the four series of the telemetry
    buffer present, equally long and at most 200 long. *)
Theorem script_run_never_raises (inp : Inputs F) (st : SessionState F) :
  spike_start_returns -> reachable st -> valid_inputs inp ->
  exists st' shown,
    script_run inp st = Ok (st', shown)
    /\ reachable st'
    /\ exists times pressures displacements foss,
         buffer_holds (telemetry_buffer st') times pressures displacements foss
         /\ length pressures = length times /\ length displacements = length times
         /\ length foss = length times /\ (length times <= 200)%nat.
Proof.
  intros Hspike Hreach Hvalid.
  destruct (script_run_returns inp st Hspike (reachable_invariant st Hreach) Hvalid)
    as (st' & shown & Hrun).
  pose proof (reachable_run inp st st' shown Hreach Hvalid Hrun) as Hreach'.
  exists st', shown. split; [exact Hrun|]. split; [exact Hreach'|].
  exact (proj1 (reachable_invariant st' Hreach')).
Qed.

(** X20.  In every session state that completed runs of the script leave
    behind, starting from a fresh session, the hardware link is down, so
    the sensor nodes are shown OFFLINE exactly when the data source is
    the physical API; and a latched alarm is a triggered alarm, shown as
    ALARM ACTIVE, with at least one command in the log. *)
Theorem reachable_session_status (st : SessionState F) :
  reachable st ->
  api_connected st = false
  /\ node_status st
     = (if String.eqb (data_source st) "PHYSICAL API" then "OFFLINE" else "ACTIVE")%string
  /\ (alarm_already_logged st = true ->
      alarm_triggered st = true /\ siren_status st = "ALARM ACTIVE"%string
      /\ command_log st <> []).
Proof.
  intros Hreach. destruct (reachable_invariant st Hreach) as (_ & Hapi & _ & Hlog).
  split; [exact Hapi|].
  unfold node_status, siren_status, siren_active. rewrite Hapi.
  split; [rewrite andb_true_r; reflexivity|].
  intros Hl. destruct (Hlog Hl) as [-> Hne]. split; [reflexivity|].
  split; [reflexivity | exact Hne].
Qed.

End SessionFacts.

Lemma script_run_never_raises_witness :
  exists st' shown,
    script_run (mkInputs InjectFailureButton (LIVE_STREAM "PHYSICAL API" 5) "monsoon"
                  "12:00:00" noon zero_rng no_model_env demo_engine) initial_session
    = Ok (st', shown)
    /\ reachable st'.
Proof.
  destruct (script_run_never_raises
              (mkInputs InjectFailureButton (LIVE_STREAM "PHYSICAL API" 5) "monsoon"
                 "12:00:00" noon zero_rng no_model_env demo_engine) initial_session)
    as (st' & shown & Hrun & Hreach & _).
  - eexists. reflexivity.
  - exact reachable_fresh.
  - unfold valid_inputs. simpl. lia.
  - exists st', shown. split; [exact Hrun | exact Hreach].
Defined.

(** ** MANUAL FORENSICS against the LIVE STREAM *)

Lemma mask_column_prefix {A : Type} (k m : nat) (col : list A) :
  mask_column (replicate k true ++ replicate m false) col = take k col.
Proof.
  unfold mask_column. revert col. induction k as [|k IH]; intros col.
  - rewrite take_0. change (replicate 0 true ++ replicate m false) with (replicate m false).
    revert col. induction m as [|m IHm]; intros col; [reflexivity|].
    destruct col as [|x col]; [reflexivity|].
    change (zip (replicate (S m) false) (x :: col))
      with ((false, x) :: zip (replicate m false) col).
    rewrite filter_cons_False by (simpl; discriminate). apply IHm.
  - destruct col as [|x col]; [reflexivity|].
    change (zip (replicate (S k) true ++ replicate m false) (x :: col))
      with ((true, x) :: zip (replicate k true ++ replicate m false) col).
    rewrite filter_cons_True by reflexivity.
    change (take (S k) (x :: col)) with (x :: take k col).
    rewrite fmap_cons. simpl snd. f_equal. apply IH.
Qed.

Lemma time_mask_prefix (times : list R) (i : nat) (t h : R) :
  strictly_increasing times -> times !! i = Some t -> t <= h ->
  (forall t', times !! S i = Some t' -> h < t') ->
  map (fun x => Rleb x h) times
  = replicate (S i) true ++ replicate (length times - S i) false.
Proof.
  intros Hinc Hi Hth Hnext.
  assert (i < length times)%nat as Hlen by (apply lookup_lt_is_Some; eauto).
  apply list_eq. intros j.
  change (map (fun x => Rleb x h) times) with ((fun x => Rleb x h) <$> times).
  rewrite list_lookup_fmap.
  destruct (Nat.lt_ge_cases j (S i)) as [Hj|Hj].
  - rewrite lookup_app_l by (rewrite length_replicate; exact Hj).
    rewrite lookup_replicate_2 by exact Hj.
    destruct (times !! j) as [x|] eqn:Hx;
      [|apply lookup_ge_None in Hx; lia].
    simpl. f_equal. apply Rleb_true.
    destruct (Nat.eq_dec j i) as [->|Hne]; [rewrite Hi in Hx; injection Hx as <-; exact Hth|].
    pose proof (Hinc j i x t Hx Hi ltac:(lia)). lra.
  - rewrite lookup_app_r by (rewrite length_replicate; exact Hj).
    rewrite length_replicate.
    destruct (times !! j) as [x|] eqn:Hx.
    + assert (j < length times)%nat by (apply lookup_lt_is_Some; eauto).
      rewrite lookup_replicate_2 by lia. simpl. f_equal. apply Rleb_false.
      destruct (times !! S i) as [t'|] eqn:Ht'; [|apply lookup_ge_None in Ht'; lia].
      pose proof (Hnext t' eq_refl).
      destruct (Nat.eq_dec j (S i)) as [->|Hne];
        [rewrite Ht' in Hx; injection Hx as <-; lra|].
      pose proof (Hinc (S i) j t' x Ht' Hx ltac:(lia)). lra.
    + apply lookup_ge_None in Hx. simpl. symmetry. apply lookup_replicate_None. lia.
Qed.

Lemma py_slice_to_take {A : Type} (k : nat) (l : list A) :
  py_slice_to (Z.of_nat k) l = take k l.
Proof.
  unfold py_slice_to. cbv zeta.
  destruct (Z.ltb_spec (Z.of_nat k) 0) as [?|_]; [lia|].
  destruct (Nat.le_gt_cases k (length l)) as [Hk|Hk].
  - f_equal. lia.
  - rewrite !take_ge by lia. reflexivity.
Qed.

Lemma forensic_slice_history (df : DataFrame R) (i : nat) (t h : R) :
  df_wf df -> strictly_increasing (Time_Hrs df) -> Time_Hrs df !! i = Some t -> t <= h ->
  (forall t', Time_Hrs df !! S i = Some t' -> h < t') ->
  forensic_slice df h = iloc_to (Z.of_nat i + 1) df.
Proof.
  intros Hwf Hinc Hi Hth Hnext. unfold forensic_slice. cbv zeta.
  change (fun t0 : R => fle t0 h) with (fun t0 : R => Rleb t0 h).
  rewrite (time_mask_prefix (Time_Hrs df) i t h Hinc Hi Hth Hnext).
  assert (i < length (Time_Hrs df))%nat as Hlen by (apply lookup_lt_is_Some; eauto).
  assert (df_mask (replicate (S i) true ++ replicate (length (Time_Hrs df) - S i) false) df
          = iloc_to (Z.of_nat i + 1) df) as ->.
  { unfold df_mask, iloc_to. rewrite !mask_column_prefix.
    replace (Z.of_nat i + 1)%Z with (Z.of_nat (S i)) by lia.
    rewrite !py_slice_to_take. reflexivity. }
  replace (df_len (iloc_to (Z.of_nat i + 1) df) =? 0)%nat with false; [reflexivity|].
  symmetry. apply Nat.eqb_neq. unfold df_len, iloc_to. simpl.
  replace (Z.of_nat i + 1)%Z with (Z.of_nat (S i)) by lia.
  rewrite py_slice_to_take, length_take. lia.
Qed.

Lemma py_index_take_last {A : Type} (i : nat) (l : list A) :
  (i < length l)%nat -> py_index (take (S i) l) (-1) = py_index l (Z.of_nat i).
Proof.
  intros Hi. destruct (lookup_lt_is_Some_2 l i Hi) as [x Hx].
  rewrite (py_index_nonneg l i x Hx).
  rewrite (take_S_r l i x Hx). apply py_index_last.
Qed.

Lemma iloc_history_last (df : DataFrame R) (i : nat) :
  df_wf df -> (i < df_len df)%nat ->
  iloc (iloc_to (Z.of_nat i + 1) df) (-1) = iloc df (Z.of_nat i).
Proof.
  intros (Hl & Hq & Hp & Ha & Hd & Hs) Hi. unfold iloc, iloc_to. simpl.
  replace (Z.of_nat i + 1)%Z with (Z.of_nat (S i)) by lia.
  rewrite !py_slice_to_take. unfold df_len in *.
  rewrite !py_index_take_last by lia. reflexivity.
Qed.

(** X21.  On a frame whose time values are strictly increasing, MANUAL
    FORENSICS at slider position [h] renders exactly what the LIVE STREAM
    renders at the tick of the last row whose time is at most [h]: the
    same factor of safety, time to failure, classifier verdict and
    critical flag. *)
Theorem forensics_agrees_with_stream (env : PyEnv R) (ml_engine : LithosML R)
    (ct : string) (now : Z -> string) (df : DataFrame R) (i : nat) (t h : R)
    (forensic_session stream_session : SessionState R) :
  df_wf df -> strictly_increasing (Time_Hrs df) ->
  Time_Hrs df !! i = Some t -> t <= h ->
  (forall t', Time_Hrs df !! S i = Some t' -> h < t') ->
  buffer_synced (telemetry_buffer stream_session) ->
  exists st1 st2 shown stop,
    live_stream_tick env ml_engine now df (Z.of_nat i) stream_session = Ok (st1, shown, stop)
    /\ manual_forensics env ml_engine ct df h forensic_session = Ok (st2, shown).
Proof.
  intros Hwf Hinc Hi Hth Hnext (lt & lp & ld & lf & Hbuf & Hlp & Hld & Hcap & Hcapf).
  assert (i < df_len df)%nat as Hlen by (apply lookup_lt_is_Some; eauto).
  pose proof (forensic_slice_history df i t h Hwf Hinc Hi Hth Hnext) as Hslice.
  destruct (iloc_total df (Z.of_nat i) Hwf) as [row Hrow]; [lia|].
  destruct (calculate_ttf_default_total (Displacement_mm (iloc_to (Z.of_nat i + 1) df))
              (Time_Hrs (iloc_to (Z.of_nat i + 1) df))) as [ttf Httf].
  { apply iloc_to_columns, Hwf. }
  destruct (predict_risk_total env ml_engine (row_Pore_Water_Pressure_kPa row)
              (row_Displacement_mm row)) as (ml_risk & ml_prob & Hml).
  destruct (buffer_point_spec row (telemetry_buffer stream_session) lt lp ld lf Hbuf Hlp Hld)
    as (buf1 & lf1 & Hbuf1 & Hholds1 & _).
  destruct (buffer_fos_spec (point_fos row) buf1 lf1 (proj2 (proj2 (proj2 Hholds1))))
    as (buf2 & Hbuf2 & _).
  eexists _, _, (mkRendered (point_fos row) ttf ml_risk ml_prob
                   (is_critical_fos (point_fos row))), _.
  split.
  - unfold live_stream_tick.
    rewrite Hrow, bind_Ok, Hbuf1, bind_Ok, Httf, bind_Ok, Hml, bind_Ok, Hbuf2, bind_Ok.
    reflexivity.
  - unfold manual_forensics. cbv zeta. fold (forensic_slice df h). rewrite Hslice.
    rewrite (iloc_history_last df i Hwf Hlen), Hrow, bind_Ok, Httf, bind_Ok, Hml, bind_Ok.
    reflexivity.
Qed.

Lemma forensics_agrees_with_stream_witness :
  exists st1 st2 shown stop,
    live_stream_tick no_model_env demo_engine noon demo_frame (Z.of_nat 1) initial_session
    = Ok (st1, shown, stop)
    /\ manual_forensics no_model_env demo_engine "12:00:00" demo_frame 1.5 initial_session
       = Ok (st2, shown).
Proof.
  apply (forensics_agrees_with_stream no_model_env demo_engine "12:00:00" noon demo_frame
           1 1 1.5 initial_session initial_session).
  - exact demo_frame_wf.
  - intros i j x y Hx Hy Hij.
    destruct i as [|[|[|i]]], j as [|[|[|j]]]; simpl in Hx, Hy;
      try discriminate; try lia; injection Hx as <-; injection Hy as <-; lra.
  - reflexivity.
  - lra.
  - intros t' Ht'. injection Ht' as <-. lra.
  - exact buffer_synced_empty.
Defined.

(** ** What a tick renders *)

Lemma strictly_increasing_NoDup (l : list R) : strictly_increasing l -> NoDup l.
Proof.
  intros Hinc. apply NoDup_alt. intros i j x Hi Hj.
  destruct (Nat.lt_trichotomy i j) as [Hlt|[Heq|Hgt]]; [|exact Heq|].
  - pose proof (Hinc i j x x Hi Hj Hlt). lra.
  - pose proof (Hinc j i x x Hj Hi Hgt). lra.
Qed.

Lemma strictly_increasing_take (k : nat) (l : list R) :
  strictly_increasing l -> strictly_increasing (take k l).
Proof.
  intros Hinc i j x y Hx Hy Hij.
  apply lookup_take_Some in Hx as [Hx _]. apply lookup_take_Some in Hy as [Hy _].
  exact (Hinc i j x y Hx Hy Hij).
Qed.

(** X22.  On a frame whose time values are strictly increasing, every
    tick of the replay returns, and what it renders is within bounds: a
    factor of safety that is not negative and a time to failure above 0
    and at most 5000 hours, which is 499.5 hours while fewer than five
    rows have been replayed. *)
Theorem live_stream_tick_renders (env : PyEnv R) (ml_engine : LithosML R)
    (now : Z -> string) (df : DataFrame R) (i : nat) (st : SessionState R) :
  df_wf df -> strictly_increasing (Time_Hrs df) -> (i < df_len df)%nat ->
  buffer_synced (telemetry_buffer st) ->
  exists st' shown stop,
    live_stream_tick env ml_engine now df (Z.of_nat i) st = Ok (st', shown, stop)
    /\ 0 <= r_fos shown
    /\ r_is_critical shown = Rltb (r_fos shown) 1.05
    /\ 0 < r_ttf shown <= 5000
    /\ ((i < 4)%nat -> r_ttf shown = 499.5).
Proof.
  intros Hwf Hinc Hi (lt & lp & ld & lf & Hbuf & Hlp & Hld & Hcap & Hcapf).
  destruct (iloc_total df (Z.of_nat i) Hwf) as [row Hrow]; [lia|].
  set (history := iloc_to (Z.of_nat i + 1) df).
  assert (length (Time_Hrs history) = S i /\ length (Displacement_mm history) = S i
          /\ NoDup (Time_Hrs history)) as (HlenT & HlenD & Hnodup).
  { unfold history, iloc_to. simpl.
    replace (Z.of_nat i + 1)%Z with (Z.of_nat (S i)) by lia.
    rewrite !py_slice_to_take, !length_take.
    destruct Hwf as (_ & _ & _ & _ & Hd & _). unfold df_len in *.
    split; [lia|]. split; [lia|].
    apply strictly_increasing_NoDup, strictly_increasing_take, Hinc. }
  assert (exists ttf,
    calculate_ttf_default (Displacement_mm history) (Some (Time_Hrs history)) = Ok ttf
    /\ 0 < ttf <= 5000 /\ ((i < 4)%nat -> ttf = 499.5)) as (ttf & Httf & Hbound & Hshort).
  { unfold calculate_ttf_default, calculate_ttf.
    destruct (inverse_velocity_R (Displacement_mm history) (Some (Time_Hrs history)))
      as [[Hlt Hinv]|(Hge & d' & a & b & step & _ & _ & Hnz & Hinv)].
    - intros ts Hts. injection Hts as Hts. subst ts.
      change (py_slice_to (Z.of_nat i + 1) (Time_Hrs df)) with (Time_Hrs history).
      split; [rewrite HlenT, HlenD; reflexivity | exact Hnodup].
    - rewrite Hinv, bind_Ok. eexists. split; [reflexivity|]. at_R. split; lra.
    - rewrite Hinv. destruct (Rlt_dec (Rabs ((b - a) / step)) 0.0001) as [Hsmall|Hlarge].
      + rewrite Rltb_true by exact Hsmall. rewrite bind_Ok.
        eexists. split; [reflexivity|]. at_R. split; [lra|]. intros ?. lia.
      + rewrite Rltb_false by lra. rewrite bind_Ok.
        eexists. split; [reflexivity|].
        pose proof (reciprocal_bounds ((b - a) / step) ltac:(lra)) as Hrec.
        at_R. split; [lra|]. intros ?. lia. }
  destruct (predict_risk_total env ml_engine (row_Pore_Water_Pressure_kPa row)
              (row_Displacement_mm row)) as (ml_risk & ml_prob & Hml).
  destruct (buffer_point_spec row (telemetry_buffer st) lt lp ld lf Hbuf Hlp Hld)
    as (buf1 & lf1 & Hbuf1 & Hholds1 & _).
  destruct (buffer_fos_spec (point_fos row) buf1 lf1 (proj2 (proj2 (proj2 Hholds1))))
    as (buf2 & Hbuf2 & _).
  eexists _, (mkRendered (point_fos row) ttf ml_risk ml_prob
                (is_critical_fos (point_fos row))), _.
  split.
  - unfold live_stream_tick. fold history.
    rewrite Hrow, bind_Ok, Hbuf1, bind_Ok, Httf, bind_Ok, Hml, bind_Ok, Hbuf2, bind_Ok.
    reflexivity.
  - cbn [r_fos r_ttf r_is_critical]. split; [|split; [apply is_critical_fos_R|]].
    + rewrite point_fos_R. pose proof tan_35_degrees as [Htan _].
      apply (mohr_coulomb_ratio_antitone 50 (tan (35 * (PI / 180))) 120
               (row_Pore_Water_Pressure_kPa row) (row_Pore_Water_Pressure_kPa row)
               (80 + row_Displacement_mm row * 2.5) (80 + row_Displacement_mm row * 2.5));
        lra.
    + split; [exact Hbound | exact Hshort].
Qed.

Lemma live_stream_tick_renders_witness :
  exists st' shown stop,
    live_stream_tick no_model_env demo_engine noon demo_frame (Z.of_nat 2) initial_session
    = Ok (st', shown, stop)
    /\ r_ttf shown = 499.5.
Proof.
  destruct (live_stream_tick_renders no_model_env demo_engine noon demo_frame 2
              initial_session) as (st' & shown & stop & Hrun & _ & _ & _ & Hshort).
  - exact demo_frame_wf.
  - intros i j x y Hx Hy Hij.
    destruct i as [|[|[|i]]], j as [|[|[|j]]]; simpl in Hx, Hy;
      try discriminate; try lia; injection Hx as <-; injection Hy as <-; lra.
  - unfold df_len, demo_frame. simpl. lia.
  - exact buffer_synced_empty.
  - exists st', shown, stop. split; [exact Hrun | apply Hshort; lia].
Defined.

(** ** Which rows are critical *)

Lemma py_index_lookup {A : Type} (l : list A) (i : nat) (x : A) :
  py_index l (Z.of_nat i) = Ok x -> l !! i = Some x.
Proof.
  unfold py_index. cbv zeta.
  destruct (Z.ltb_spec (Z.of_nat i) 0) as [?|_]; [lia|].
  destruct (_ || _); [discriminate|]. rewrite Nat2Z.id.
  destruct (l !! i); [intros [= ->]; reflexivity | discriminate].
Qed.

Lemma iloc_row_fields (df : DataFrame R) (i : nat) (row : Row R) :
  iloc df (Z.of_nat i) = Ok row ->
  Pore_Water_Pressure_kPa df !! i = Some (row_Pore_Water_Pressure_kPa row)
  /\ Displacement_mm df !! i = Some (row_Displacement_mm row).
Proof.
  unfold iloc. intros Hrow.
  apply bind_Ok_inv in Hrow as (t & _ & Hrow).
  apply bind_Ok_inv in Hrow as (l & _ & Hrow).
  apply bind_Ok_inv in Hrow as (q & _ & Hrow).
  apply bind_Ok_inv in Hrow as (p & Hp & Hrow).
  apply bind_Ok_inv in Hrow as (a & _ & Hrow).
  apply bind_Ok_inv in Hrow as (d & Hd & Hrow).
  apply bind_Ok_inv in Hrow as (s & _ & Hrow).
  injection Hrow as <-. simpl.
  split; apply py_index_lookup; assumption.
Qed.

(** The verdict at a row follows from bounds on its pressure and its
    displacement. *)
Lemma is_critical_at_bounds (df : DataFrame R) (i : nat) (p d : R) :
  df_wf df -> Pore_Water_Pressure_kPa df !! i = Some p -> Displacement_mm df !! i = Some d ->
  (forall p0 d0 : R,
     p <= p0 -> d <= d0 -> p0 <= 119.9 -> 0.1 <= 80 + 2.5 * d0 ->
     1.05 * (80 + 2.5 * d0) <= 50 + (120 - p0) * 0.70019 ->
     is_critical_at df (Z.of_nat i) = false)
  /\ (forall p0 d0 : R,
        p0 <= p -> d0 <= d -> p0 <= 119.9 -> 0 <= d0 ->
        50 + (120 - p0) * 0.70022 < 1.05 * (80 + 2.5 * d0) ->
        is_critical_at df (Z.of_nat i) = true).
Proof.
  intros Hwf Hp Hd.
  assert (i < df_len df)%nat as Hi.
  { destruct Hwf as (_ & _ & Hlen & _). rewrite <- Hlen. apply lookup_lt_is_Some. eauto. }
  destruct (iloc_total df (Z.of_nat i) Hwf) as [row Hrow]; [lia|].
  rewrite (is_critical_at_row df (Z.of_nat i) row Hrow).
  destruct (iloc_row_fields df i row Hrow) as [Hp' Hd'].
  rewrite Hp in Hp'. rewrite Hd in Hd'. injection Hp' as ->. injection Hd' as ->.
  split; intros p0 d0 ? ? ? ? ?.
  - apply (point_not_critical row p0 d0); assumption.
  - apply (point_critical row p0 d0); assumption.
Qed.

(** ** The data the dashboard loads, row by row *)

Lemma load_full_data_rows (scenario : string) (st : SessionState R) (g g' : RandomState R)
    (df : DataFrame R) :
  generate_gsi_dataset 1000 scenario g = Ok (df, g') ->
  exists full_data,
    load_full_data scenario st g = Ok full_data
    /\ df_wf full_data /\ df_len full_data = 1000%nat
    /\ Displacement_mm full_data = Displacement_mm df
    /\ forall (i : nat) (p : R),
         Pore_Water_Pressure_kPa df !! i = Some p ->
         Pore_Water_Pressure_kPa full_data !! i
         = Some (if inject_failure st && (800 <=? Z.of_nat i)%Z then p * 1.5 else p).
Proof.
  intros Hgen.
  assert (exists full_data,
    load_full_data scenario st g = Ok full_data
    /\ Displacement_mm full_data = Displacement_mm df
    /\ forall (i : nat) (p : R),
         Pore_Water_Pressure_kPa df !! i = Some p ->
         Pore_Water_Pressure_kPa full_data !! i
         = Some (if inject_failure st && (800 <=? Z.of_nat i)%Z then p * 1.5 else p))
    as (full_data & Hload & Hd & Hp).
  { unfold load_full_data, get_dataset. rewrite Hgen, bind_Ok.
    destruct (inject_failure st).
    - destruct (generate_gsi_dataset_shape 1000 scenario g) as
        (time_hrs & df0 & g0 & _ & Hgen0 & _ & Hlen & _); [lia|].
      rewrite Hgen in Hgen0. injection Hgen0 as <- <-.
      unfold inject_failure_spike. at_R. cbn [ftrunc R_ops]. rewrite bind_Ok.
      rewrite Rtrunc_four_fifths, Hlen.
      change (4 * Z.of_nat (Z.to_nat 1000) / 5)%Z with 800%Z.
      eexists. split; [reflexivity|]. split; [reflexivity|].
      cbn [Pore_Water_Pressure_kPa]. intros i p Hp.
      rewrite list_lookup_imap, Hp. simpl.
      destruct (_ <=? _)%Z; f_equal; lra.
    - exists df. split; [reflexivity|]. split; [reflexivity|]. intros i p Hp. exact Hp. }
  exists full_data. split; [exact Hload|].
  destruct (load_full_data_shape scenario st g full_data Hload) as [Hwf Hlen].
  split; [exact Hwf|]. split; [exact Hlen|]. split; [exact Hd | exact Hp].
Qed.

(** ** Replays without and with an alarm *)

Section ReplayFacts.
Context {F : Type} `{PyFloat F} `{PyTranscendental F}.

Lemma stream_alarms_none (now : Z -> string) (df : DataFrame F) (indices : list Z)
    (st : SessionState F) :
  Forall (fun i => is_critical_at df i = false) indices ->
  stream_alarms now df indices st = st.
Proof.
  induction 1 as [|i rest Hi _ IH]; [reflexivity|].
  unfold stream_alarms in *. simpl. unfold stream_alarm at 2. rewrite Hi. exact IH.
Qed.

Lemma processed_cut (df : DataFrame F) (pre post : list Z) (i : Z) :
  Forall (fun j => (j <= 800)%Z) pre -> is_critical_at df i = true -> (800 < i)%Z ->
  processed df (pre ++ i :: post) = pre ++ [i].
Proof.
  intros Hpre Hi Hgt. induction Hpre as [|j pre Hj _ IH]; simpl.
  - rewrite Hi. replace (800 <? i)%Z with true by (symmetry; apply Z.ltb_lt; exact Hgt).
    reflexivity.
  - replace (800 <? j)%Z with false by (symmetry; apply Z.ltb_ge; exact Hj).
    rewrite andb_false_r, IH. reflexivity.
Qed.

End ReplayFacts.

Lemma py_range_multiples (stop step : Z) :
  (0 < step)%Z -> (0 <= stop)%Z ->
  py_range 0 stop step
  = Ok (map (fun k => (Z.of_nat k * step)%Z) (seq 0 (Z.to_nat ((stop + step - 1) / step)))).
Proof.
  intros Hstep Hstop. unfold py_range.
  destruct (Z.eqb_spec step 0) as [?|_]; [lia|].
  destruct (Z.ltb_spec 0 step) as [_|?]; [|lia].
  cbv zeta. f_equal. replace (stop - 0 + step - 1)%Z with (stop + step - 1)%Z by lia.
  apply map_ext. intros k. lia.
Qed.

(** ** The quiet scenarios send no command *)

Lemma grid_hour_1000 (i : nat) : grid_hour 1000 i = INR i * (24 / 999).
Proof. unfold grid_hour. change (1000 - 1)%Z with 999%Z. reflexivity. Qed.

Lemma seismic_pulse_tail (t : R) : 19.2 <= t -> seismic_pulse t <= 1 / 26.
Proof.
  intros Ht. rewrite seismic_pulse_R.
  replace (- ((t - 12) * (t - 12)) / 2) with (- ((t - 12) * (t - 12) / 2)) by lra.
  rewrite exp_Ropp.
  assert (25.92 <= (t - 12) * (t - 12) / 2) as Hsq by nra.
  pose proof (exp_ineq1_le ((t - 12) * (t - 12) / 2)) as Hexp.
  unfold Rdiv. rewrite Rmult_1_l. apply Rinv_le_contravar; lra.
Qed.

Lemma quiet_frame_not_critical (scenario : string) (st : SessionState R)
    (g : RandomState R) :
  scenario <> "monsoon"%string -> (forall k, std_normal g k <= 3.8) ->
  exists full_data,
    load_full_data scenario st g = Ok full_data
    /\ df_wf full_data /\ df_len full_data = 1000%nat
    /\ forall i : Z, (0 <= i < 1000)%Z -> is_critical_at full_data i = false.
Proof.
  intros Hm Hg.
  assert (exists df g',
    generate_gsi_dataset 1000 scenario g = Ok (df, g')
    /\ forall i : nat,
         (i < 1000)%nat ->
         exists p d,
           Pore_Water_Pressure_kPa df !! i = Some p /\ Displacement_mm df !! i = Some d
           /\ p <= 37.6 /\ d <= 9 /\ ((800 <= i)%nat -> d <= 1.7))
    as (df & g' & Hgen & Hrows).
  { destruct (String.eqb_spec scenario "seismic") as [->|Hs].
    - destruct (seismic_frame_rows 1000 g) as (df & g' & Hgen & Hrows); [lia|].
      exists df, g'. split; [exact Hgen|]. intros i Hi.
      destruct (Hrows i) as [Hp Hd]; [lia|].
      eexists _, _. split; [exact Hp|]. split; [exact Hd|].
      pose proof (Hg (cursor g + Z.to_nat 1000 + i)%nat).
      pose proof (seismic_pulse_range (grid_hour 1000 i)).
      split; [lra|]. split; [lra|]. intros Hlate.
      assert (19.2 <= grid_hour 1000 i) as Ht.
      { rewrite grid_hour_1000. apply le_INR in Hlate.
        rewrite (INR_IZR_INZ 800) in Hlate. change (Z.of_nat 800) with 800%Z in Hlate.
        lra. }
      pose proof (seismic_pulse_tail _ Ht). lra.
    - destruct (stable_frame_rows 1000 scenario g) as (df & g' & Hgen & _ & Hrows);
        [lia | exact Hm | exact Hs |].
      exists df, g'. split; [exact Hgen|]. intros i Hi.
      destruct (Hrows i) as [Hp Hd]; [lia|].
      eexists _, _. split; [exact Hp|]. split; [exact Hd|].
      pose proof (Hg (cursor g + Z.to_nat 1000 + i)%nat).
      pose proof (Hg (cursor g + 3 * Z.to_nat 1000 + i)%nat).
      assert (0 <= INR i / IZR (1000 - 1) <= 1) as Hramp.
      { change (1000 - 1)%Z with 999%Z. pose proof (pos_INR i) as Hi0.
        assert (INR i <= 999) as Hi1.
        { assert (INR i <= INR 999) as Hle by (apply le_INR; lia).
          rewrite (INR_IZR_INZ 999) in Hle. change (Z.of_nat 999) with 999%Z in Hle.
          exact Hle. }
        unfold Rdiv. lra. }
      split; [lra|]. split; [lra|]. intros _. lra. }
  destruct (load_full_data_rows scenario st g g' df Hgen)
    as (full_data & Hload & Hwf & Hlen & Hd & Hp).
  exists full_data. split; [exact Hload|]. split; [exact Hwf|]. split; [exact Hlen|].
  intros i Hi. replace i with (Z.of_nat (Z.to_nat i)) by lia.
  destruct (Hrows (Z.to_nat i)) as (p & d & Hpi & Hdi & Hpb & Hdb & Hlate); [lia|].
  rewrite <- Hd in Hdi. apply Hp in Hpi.
  destruct (inject_failure st && (800 <=? Z.of_nat (Z.to_nat i))%Z) eqn:Hspike.
  - apply andb_prop in Hspike as [_ Hge]. apply Z.leb_le in Hge.
    apply (proj1 (is_critical_at_bounds full_data (Z.to_nat i) _ d Hwf Hpi Hdi) 56.4 1.7);
      [lra | apply Hlate; lia | lra | lra | lra].
  - apply (proj1 (is_critical_at_bounds full_data (Z.to_nat i) _ d Hwf Hpi Hdi) 37.6 9);
      lra.
Qed.

(** X23.  In the seismic and the stable scenario, with or without the
    failure injection, no point is critical unless a standard normal
    variate of the generator exceeds 3.8: the replay at any speed runs
    through all its ticks, sends no command and leaves both alarm flags
    as they were. *)
Theorem quiet_scenarios_never_alarm (env : PyEnv R) (ml_engine : LithosML R)
    (now : Z -> string) (scenario : string) (g : RandomState R) (st : SessionState R)
    (playback_speed : Z) :
  scenario <> "monsoon"%string -> (forall k, std_normal g k <= 3.8) ->
  (0 < playback_speed)%Z -> buffer_synced (telemetry_buffer st) ->
  exists full_data indices st' trace,
    load_full_data scenario st g = Ok full_data
    /\ py_range 0 1000 playback_speed = Ok indices
    /\ live_stream env ml_engine now full_data playback_speed st = Ok (st', trace)
    /\ map fst trace = indices
    /\ length trace = Z.to_nat ((1000 + playback_speed - 1) / playback_speed)
    /\ Forall (fun ir => r_is_critical ir.2 = false) trace
    /\ command_log st' = command_log st
    /\ (alarm_triggered st', alarm_already_logged st')
       = (alarm_triggered st, alarm_already_logged st).
Proof.
  intros Hm Hg Hspeed (lt & lp & ld & lf & Hbuf & Hlp & Hld & Hcap & Hcapf).
  destruct (quiet_frame_not_critical scenario st g Hm Hg)
    as (full_data & Hload & Hwf & Hlen & Hquiet).
  destruct (live_stream_spec env ml_engine now full_data playback_speed st lt lp ld lf
              Hwf Hspeed Hbuf Hlp Hld Hcap Hcapf)
    as (indices & trace & buf' & Hrange & Hrun & Hidx & Hcrit & _).
  rewrite Hlen in Hrange. change (Z.of_nat 1000) with 1000%Z in Hrange.
  destruct (py_range_from_zero 1000 playback_speed Hspeed) as (indices' & Hrange' & Hin).
  rewrite Hrange in Hrange'. injection Hrange' as <-.
  assert (Forall (fun i => is_critical_at full_data i = false) indices) as Hnone.
  { eapply Forall_impl; [exact Hin|]. intros i Hi. apply Hquiet, Hi. }
  assert (processed full_data indices = indices) as Hall.
  { apply processed_all. eapply Forall_impl; [exact Hnone|].
    intros i Hi. simpl in Hi |- *. rewrite Hi. reflexivity. }
  rewrite Hall in Hrun, Hidx, Hcrit. rewrite stream_alarms_none in Hrun by exact Hnone.
  exists full_data, indices, (set_buffer buf' st), trace.
  split; [exact Hload|]. split; [exact Hrange|]. split; [exact Hrun|].
  split; [exact Hidx|]. split; [|split; [|split; reflexivity]].
  { rewrite <- (length_map fst trace), Hidx.
    rewrite py_range_multiples in Hrange by lia. injection Hrange as <-.
    rewrite length_map, length_seq. reflexivity. }
  apply Forall_forall. intros ir Hir.
  assert (r_is_critical ir.2 ∈ map (fun ir => r_is_critical ir.2) trace) as Hmem.
  { apply list_elem_of_In, in_map_iff. exists ir.
    split; [reflexivity | apply list_elem_of_In; exact Hir]. }
  rewrite Hcrit in Hmem. apply list_elem_of_In, in_map_iff in Hmem.
  destruct Hmem as (i & Hi & Hi'). rewrite <- Hi.
  rewrite Forall_forall in Hnone. apply Hnone, list_elem_of_In, Hi'.
Qed.

Lemma quiet_scenarios_never_alarm_witness :
  exists full_data indices st' trace,
    load_full_data "seismic" (press_inject_failure initial_session) zero_rng = Ok full_data
    /\ py_range 0 1000 5 = Ok indices
    /\ live_stream no_model_env demo_engine noon full_data 5
         (press_inject_failure initial_session) = Ok (st', trace)
    /\ map fst trace = indices
    /\ command_log st' = [].
Proof.
  destruct (quiet_scenarios_never_alarm no_model_env demo_engine noon "seismic" zero_rng
              (press_inject_failure initial_session) 5)
    as (full_data & indices & st' & trace & Hload & Hrange & Hrun & Hidx & _ & _ & Hlog
        & _).
  - discriminate.
  - intros k. simpl. lra.
  - lia.
  - exact buffer_synced_empty.
  - exists full_data, indices, st', trace.
    split; [exact Hload|]. split; [exact Hrange|]. split; [exact Hrun|].
    split; [exact Hidx | exact Hlog].
Defined.

(** ** The monsoon replay raises the alarm *)

Lemma exp_0_6_lower : 1.82 < exp 0.6.
Proof.
  apply Rlt_le_trans with ((1 + 0.6 / INR 256) ^ 256).
  - rewrite INR_IZR_INZ. change (Z.of_nat 256) with 256%Z. lra.
  - apply exp_lower_compound; [lia|]. rewrite INR_IZR_INZ.
    change (Z.of_nat 256) with 256%Z. lra.
Qed.

Lemma monsoon_pressure_late (t : R) : 19.2 <= t -> 61.9 < monsoon_pressure t.
Proof.
  intros Ht. rewrite monsoon_pressure_rain, monsoon_rain_event_R.
  pose proof exp_0_6_lower as H06.
  assert (exp (-0.5 * (t - 18)) <= exp (Ropp 0.6)) as Hle.
  { destruct (Req_dec t 19.2) as [->|Hne]; [right; f_equal; lra|].
    left. apply exp_increasing. lra. }
  rewrite exp_Ropp in Hle.
  assert (/ exp 0.6 < / 1.82) as Hinv by (apply Rinv_lt_contravar; nra).
  pose proof (exp_pos (-0.5 * (t - 18))) as Hpos.
  assert (/ 1.55 < 1 / (1 + exp (-0.5 * (t - 18)))) as Hrain.
  { unfold Rdiv. rewrite Rmult_1_l. apply Rinv_lt_contravar; [nra | lra]. }
  lra.
Qed.

Lemma monsoon_displacement_late (p : R) : 61.9 <= p -> 3.1 < monsoon_displacement p.
Proof.
  intros Hp. rewrite monsoon_displacement_R.
  assert (6.2 < exp 1.857) as Hexp.
  { apply Rlt_le_trans with ((1 + 1.857 / INR 256) ^ 256).
    - rewrite INR_IZR_INZ. change (Z.of_nat 256) with 256%Z. lra.
    - apply exp_lower_compound; [lia|]. rewrite INR_IZR_INZ.
      change (Z.of_nat 256) with 256%Z. lra. }
  assert (exp 1.857 <= exp (0.03 * p)) as Hle.
  { destruct (Req_dec p 61.9) as [->|Hne]; [right; f_equal; lra|].
    left. apply exp_increasing. lra. }
  lra.
Qed.

Lemma monsoon_point_early (t : R) :
  t <= 18 ->
  monsoon_pressure t <= 52.5 /\ monsoon_displacement (monsoon_pressure t) <= 2.45.
Proof.
  intros Ht.
  assert (monsoon_pressure t <= 52.5) as Hp.
  { rewrite monsoon_pressure_rain, monsoon_rain_event_R.
    assert (1 <= exp (-0.5 * (t - 18))) as Hexp.
    { rewrite <- exp_0. destruct (Req_dec t 18) as [->|Hne]; [right; f_equal; lra|].
      left. apply exp_increasing. lra. }
    assert (1 / (1 + exp (-0.5 * (t - 18))) <= / 2) as Hrain.
    { unfold Rdiv. rewrite Rmult_1_l. apply Rinv_le_contravar; lra. }
    lra. }
  split; [exact Hp|]. rewrite monsoon_displacement_R.
  assert (exp 1.575 < 4.9) as Hexp.
  { apply Rle_lt_trans with (/ (1 - 1.575 / INR 256) ^ 256).
    - apply exp_upper_compound; [lia|]. rewrite INR_IZR_INZ.
      change (Z.of_nat 256) with 256%Z. lra.
    - rewrite INR_IZR_INZ. change (Z.of_nat 256) with 256%Z. lra. }
  assert (exp (0.03 * monsoon_pressure t) <= exp 1.575) as Hle.
  { destruct (Req_dec (monsoon_pressure t) 52.5) as [->|Hne]; [right; f_equal; lra|].
    left. apply exp_increasing. lra. }
  lra.
Qed.

Lemma monsoon_frame_critical (st : SessionState R) (g : RandomState R) :
  exists full_data,
    load_full_data "monsoon" st g = Ok full_data
    /\ df_wf full_data /\ df_len full_data = 1000%nat
    /\ (forall i : Z, (800 <= i < 1000)%Z -> is_critical_at full_data i = true)
    /\ (forall i : Z, (0 <= i < 750)%Z -> is_critical_at full_data i = false).
Proof.
  destruct (monsoon_frame_rows 1000 g) as (df & g' & Hgen & Hrows); [lia|].
  destruct (load_full_data_rows "monsoon" st g g' df Hgen)
    as (full_data & Hload & Hwf & Hlen & Hd & Hp).
  exists full_data. split; [exact Hload|]. split; [exact Hwf|]. split; [exact Hlen|].
  split; intros i Hi; replace i with (Z.of_nat (Z.to_nat i)) by lia;
    destruct (Hrows (Z.to_nat i)) as [Hpi Hdi]; try lia;
    rewrite <- Hd in Hdi; apply Hp in Hpi.
  - assert (19.2 <= grid_hour 1000 (Z.to_nat i)) as Ht.
    { rewrite grid_hour_1000.
      assert (INR 800 <= INR (Z.to_nat i)) as Hle by (apply le_INR; lia).
      rewrite (INR_IZR_INZ 800) in Hle. change (Z.of_nat 800) with 800%Z in Hle. lra. }
    pose proof (monsoon_pressure_late _ Ht) as Hpl.
    assert (3.1 < monsoon_displacement (monsoon_pressure (grid_hour 1000 (Z.to_nat i))))
      as Hdl by (apply monsoon_displacement_late; lra).
    apply (proj2 (is_critical_at_bounds full_data (Z.to_nat i) _ _ Hwf Hpi Hdi) 61.9 3.1);
      try lra.
    destruct (inject_failure st && _); lra.
  - assert (grid_hour 1000 (Z.to_nat i) <= 18) as Ht.
    { rewrite grid_hour_1000.
      assert (INR (Z.to_nat i) <= INR 749) as Hle by (apply le_INR; lia).
      rewrite (INR_IZR_INZ 749) in Hle. change (Z.of_nat 749) with 749%Z in Hle. lra. }
    destruct (monsoon_point_early _ Ht) as [Hpe Hde].
    replace (800 <=? Z.of_nat (Z.to_nat i))%Z with false in Hpi
      by (symmetry; apply Z.leb_gt; lia).
    rewrite andb_false_r in Hpi.
    apply (proj1 (is_critical_at_bounds full_data (Z.to_nat i) _ _ Hwf Hpi Hdi) 52.5 2.45);
      lra.
Qed.

Lemma range_split_at_800 (playback_speed : Z) :
  (1 <= playback_speed <= 20)%Z ->
  exists pre i_stop post,
    py_range 0 1000 playback_speed = Ok (pre ++ i_stop :: post)
    /\ Forall (fun j => (0 <= j <= 800)%Z) pre
    /\ (800 < i_stop <= 800 + playback_speed)%Z
    /\ exists k : Z, i_stop = (k * playback_speed)%Z.
Proof.
  intros Hs. rewrite py_range_multiples by lia.
  set (n := Z.to_nat ((1000 + playback_speed - 1) / playback_speed)).
  set (k0 := Z.to_nat (800 / playback_speed + 1)).
  assert (800 / playback_speed * playback_speed <= 800)%Z as Hlo
    by (rewrite Z.mul_comm; apply Z.mul_div_le; lia).
  pose proof (Z.mod_pos_bound 800 playback_speed ltac:(lia)) as Hmod.
  pose proof (Z.div_mod 800 playback_speed ltac:(lia)) as Hdm.
  assert (0 <= 800 / playback_speed)%Z as Hq by (apply Z.div_pos; lia).
  assert (k0 < n)%nat as Hk.
  { unfold k0, n.
    assert (800 / playback_speed + 2 <= (1000 + playback_speed - 1) / playback_speed)%Z
      by (apply Z.div_le_lower_bound; nia).
    lia. }
  exists (map (fun k => (Z.of_nat k * playback_speed)%Z) (seq 0 k0)),
    (Z.of_nat k0 * playback_speed)%Z,
    (map (fun k => (Z.of_nat k * playback_speed)%Z) (seq (S k0) (n - S k0))).
  split; [|split; [|split; [|eauto]]].
  - f_equal.
    assert (seq 0 n = seq 0 k0 ++ k0 :: seq (S k0) (n - S k0)) as ->.
    { replace n with (k0 + S (n - S k0))%nat at 1 by lia. rewrite seq_app. reflexivity. }
    rewrite map_app. reflexivity.
  - apply Forall_forall. intros j Hj.
    apply list_elem_of_In, in_map_iff in Hj. destruct Hj as (k & <- & Hk').
    apply in_seq in Hk'. unfold k0 in Hk'. nia.
  - unfold k0. rewrite Z2Nat.id by lia. nia.
Qed.

(** X24.  In the monsoon scenario, with or without the failure
    injection and whatever the random state, a replay at any speed from 1
    to 20 that starts with the latch open sends exactly one batch of
    commands, stamped at a tick from index 750 on before which no rendered
    tick is critical, and pauses at the first tick past index 800. *)
Theorem monsoon_replay_alarms_once (env : PyEnv R) (ml_engine : LithosML R)
    (now : Z -> string) (g : RandomState R) (st : SessionState R) (playback_speed : Z) :
  (1 <= playback_speed <= 20)%Z -> alarm_already_logged st = false ->
  buffer_synced (telemetry_buffer st) ->
  exists full_data st' trace before i_alarm after i_stop,
    load_full_data "monsoon" st g = Ok full_data
    /\ live_stream env ml_engine now full_data playback_speed st = Ok (st', trace)
    /\ command_log st' = command_log st ++ stream_alarm_batch (now i_alarm)
    /\ (alarm_triggered st', alarm_already_logged st') = (true, true)
    /\ map fst trace = before ++ i_alarm :: after
    /\ Forall (fun i => is_critical_at full_data i = false) before
    /\ (750 <= i_alarm <= i_stop)%Z
    /\ last (map fst trace) = Some i_stop
    /\ (800 < i_stop <= 800 + playback_speed)%Z
    /\ exists k : Z, i_stop = (k * playback_speed)%Z.
Proof.
  intros Hs Hst (lt & lp & ld & lf & Hbuf & Hlp & Hld & Hcap & Hcapf).
  destruct (monsoon_frame_critical st g) as (full_data & Hload & Hwf & Hlen & Hlate & Hearly).
  destruct (live_stream_spec env ml_engine now full_data playback_speed st lt lp ld lf
              Hwf ltac:(lia) Hbuf Hlp Hld Hcap Hcapf)
    as (indices & trace & buf' & Hrange & Hrun & Hidx & _).
  rewrite Hlen in Hrange. change (Z.of_nat 1000) with 1000%Z in Hrange.
  destruct (range_split_at_800 playback_speed Hs)
    as (pre & i_stop & post & Hsplit & Hpre & Hstop & Hmult).
  rewrite Hrange in Hsplit. injection Hsplit as ->.
  assert (is_critical_at full_data i_stop = true) as Hcrit by (apply Hlate; lia).
  assert (processed full_data (pre ++ i_stop :: post) = pre ++ [i_stop]) as Hproc.
  { apply processed_cut; [|exact Hcrit | lia].
    eapply Forall_impl; [exact Hpre|]. intros j Hj. simpl in *. lia. }
  rewrite Hproc in Hrun, Hidx.
  destruct (stream_alarms_first_critical now full_data (pre ++ [i_stop]) st i_stop Hst)
    as (before & i_alarm & after & Hdecomp & Hbefore & Halarm & Hstate);
    [apply elem_of_app; right; apply list_elem_of_singleton; reflexivity | exact Hcrit |].
  rewrite Hstate in Hrun.
  assert (i_alarm ∈ pre ++ [i_stop]) as Hmem.
  { rewrite Hdecomp. apply elem_of_app. right. apply elem_of_cons. left. reflexivity. }
  assert (0 <= i_alarm <= i_stop)%Z as Hrange_alarm.
  { apply elem_of_app in Hmem as [Hmem|Hmem].
    - rewrite Forall_forall in Hpre. pose proof (Hpre i_alarm Hmem). lia.
    - apply list_elem_of_singleton in Hmem. lia. }
  assert (750 <= i_alarm)%Z as Hfrom.
  { destruct (Z.lt_ge_cases i_alarm 750) as [Hlt|Hge]; [|exact Hge].
    rewrite Hearly in Halarm by lia. discriminate Halarm. }
  eexists full_data, _, trace, before, i_alarm, after, i_stop.
  split; [exact Hload|]. split; [exact Hrun|]. split; [reflexivity|].
  split; [reflexivity|]. split; [rewrite Hidx; exact Hdecomp|].
  split; [exact Hbefore|]. split; [lia|].
  split; [rewrite Hidx; apply last_snoc|]. split; [exact Hstop | exact Hmult].
Qed.

Lemma monsoon_replay_alarms_once_witness :
  exists full_data st' trace i_alarm,
    load_full_data "monsoon" initial_session zero_rng = Ok full_data
    /\ live_stream no_model_env demo_engine noon full_data 5 initial_session = Ok (st', trace)
    /\ command_log st' = stream_alarm_batch (noon i_alarm)
    /\ last (map fst trace) = Some 805%Z.
Proof.
  destruct (monsoon_replay_alarms_once no_model_env demo_engine noon zero_rng
              initial_session 5)
    as (full_data & st' & trace & before & i_alarm & after & i_stop & Hload & Hrun & Hlog
        & _ & _ & _ & _ & Hlast & Hstop & k & Hk).
  - lia.
  - reflexivity.
  - exact buffer_synced_empty.
  - exists full_data, st', trace, i_alarm.
    split; [exact Hload|]. split; [exact Hrun|]. split; [exact Hlog|].
    rewrite Hlast. f_equal. lia.
Defined.

(** ** A series moving at constant velocity *)

(** X25.  In exact arithmetic, a displacement series of five or more
    samples that moves at constant velocity [v] along its distinct time
    stamps has inverse velocity [1/|v|], whatever the spacing of the
    stamps, and the sentinel 99 when [|v| < 1e-4]; a series that does not
    move gives a time to failure of 49.5 hours. *)
Theorem inverse_velocity_constant_velocity (ts : list R) (a v : R) :
  (5 <= length ts)%nat -> NoDup ts ->
  inverse_velocity (map (fun t => a + v * t) ts) (Some ts)
  = Ok (if Rlt_dec (Rabs v) 0.0001 then 99 else 1 / Rabs v)
  /\ (v = 0 ->
      calculate_ttf_default (map (fun t => a + v * t) ts) (Some ts) = Ok 49.5).
Proof.
  intros Hlen Hnodup.
  assert (inverse_velocity (map (fun t => a + v * t) ts) (Some ts)
          = Ok (if Rlt_dec (Rabs v) 0.0001 then 99 else 1 / Rabs v)) as Hinv.
  { destruct (inverse_velocity_R (map (fun t => a + v * t) ts) (Some ts))
      as [[Hshort _]|(_ & d' & x & y & step & Hd & Hstep & Hnz & ->)].
    - intros ts' [= <-]. rewrite length_map. split; [reflexivity | exact Hnodup].
    - rewrite length_map in Hshort. lia.
    - destruct Hstep as (ts' & s & u & Hts & ->).
      rewrite Hts, map_app in Hd. simpl in Hd.
      apply snoc2_inj in Hd as (_ & <- & <-).
      replace ((a + v * u - (a + v * s)) / (u - s)) with v by (field; lra).
      unfold Rltb. destruct (Rlt_dec (Rabs v) 0.0001); at_R; reflexivity. }
  split; [exact Hinv|]. intros ->.
  unfold calculate_ttf_default, calculate_ttf. rewrite Hinv, bind_Ok.
  destruct (Rlt_dec (Rabs 0) 0.0001) as [_|Hn]; [at_R; f_equal; lra|].
  exfalso. apply Hn. rewrite Rabs_R0. lra.
Qed.

Lemma inverse_velocity_constant_velocity_witness :
  inverse_velocity (map (fun t => 3 + 2 * t) [0; 1; 3; 4; 8]) (Some [0; 1; 3; 4; 8])
  = Ok (if Rlt_dec (Rabs 2) 0.0001 then 99 else 1 / Rabs 2).
Proof.
  apply (proj1 (inverse_velocity_constant_velocity [0; 1; 3; 4; 8] 3 2
                  ltac:(simpl; lia)
                  ltac:(repeat (apply NoDup_cons_2;
                                [rewrite ?elem_of_cons, elem_of_nil; intros Hin;
                                 decompose [or] Hin; lra|]);
                        apply NoDup_nil_2))).
Defined.

(** ** The acoustic emission of the monsoon scenario *)

Section MaskedAssign.
Context {F : Type} `{PyFloat F}.

Lemma masked_assign_unmasked (mask : list bool) (dst vals : list F) (i : nat) :
  mask !! i = Some false -> masked_assign mask dst vals !! i = dst !! i.
Proof.
  revert dst vals i. induction mask as [|b mask IH]; intros dst vals i Hi; [discriminate|].
  destruct dst as [|d dst]; [destruct b; reflexivity|].
  destruct i as [|i].
  - injection Hi as ->. reflexivity.
  - simpl in Hi. destruct b; [destruct vals as [|v vals]|]; simpl; apply IH, Hi.
Qed.

End MaskedAssign.

Lemma monsoon_acoustic_column (time_hrs : list R) (rows : Z) (g : RandomState R)
    (consumed : nat) :
  length time_hrs = Z.to_nat rows ->
  exists fracture_signal,
    sd_acoustic (_generate_monsoon_scenario time_hrs rows (advance consumed g)).1
    = zip_with Rplus
        (zip_with Rplus (map (fun t => 0.2 * sin (PI * t)) time_hrs) fracture_signal)
        (map (fun i =>
                0.01 * std_normal g
                         (cursor g + consumed
                          + np_sum_bool (map (fun t => Rltb 60 (monsoon_pressure t)) time_hrs)
                          + i)%nat)
           (seq 0 (Z.to_nat rows)))
    /\ length fracture_signal = Z.to_nat rows
    /\ forall (i : nat) (t : R),
         time_hrs !! i = Some t -> monsoon_pressure t <= 60 -> fracture_signal !! i = Some 0.
Proof.
  intros Hlen. unfold _generate_monsoon_scenario.
  cbn [random_normal advance fst snd sd_acoustic cursor std_normal].
  assert (map (fun p : R => flt (of_Z 60) p)
            (map (fun r : R => fadd (of_Z 20) (fmul r (of_Z 65)))
               (map monsoon_rain_event time_hrs))
          = map (fun t => Rltb 60 (monsoon_pressure t)) time_hrs) as ->.
  { rewrite !map_map. reflexivity. }
  eexists. split; [|split].
  - change (zip_with fadd) with (zip_with Rplus).
    rewrite (map_ext (fun t : R => fmul (dec 2 1) (fsin (fmul (fmul (fmul (of_Z 2) fpi)
                                                              (dec 5 1)) t)))
               (fun t => 0.2 * sin (PI * t)))
      by (intros t; at_R; replace (2 * PI * (5 / 10) * t) with (PI * t) by lra; lra).
    f_equal. apply map_ext. intros i. at_R. lra.
  - rewrite masked_assign_length, np_zeros_length. reflexivity.
  - intros i t Ht Hp. rewrite masked_assign_unmasked.
    + unfold np_zeros. apply lookup_replicate_2.
      rewrite <- Hlen. apply lookup_lt_is_Some. eauto.
    + rewrite (lookup_map_lt _ _ i t Ht). f_equal. apply Rltb_false. exact Hp.
Qed.

(** X26.  In a monsoon frame of two or more rows, a row whose pore
    pressure is at most 60 kPa carries no fracture signal: its acoustic
    emission is the truck noise [0.2 sin(pi t)] plus 0.01 times a standard
    normal variate. *)
Theorem monsoon_acoustic_below_60 (rows : Z) (g : RandomState R) :
  (2 <= rows)%Z ->
  exists df g' (fractured : nat),
    generate_gsi_dataset rows "monsoon" g = Ok (df, g')
    /\ fractured
       = np_sum_bool (map (fun p => Rltb 60 p) (Pore_Water_Pressure_kPa df))
    /\ forall (i : nat) (t p : R),
         Time_Hrs df !! i = Some t -> Pore_Water_Pressure_kPa df !! i = Some p -> p <= 60 ->
         Raw_Acoustic_Emission_g df !! i
         = Some (0.2 * sin (PI * t) + 0
                 + 0.01 * std_normal g (cursor g + Z.to_nat rows + fractured + i)).
Proof.
  intros Hrows.
  destruct (generate_gsi_dataset_columns rows "monsoon" g)
    as (time_hrs & data & g' & _ & Hlen & Hdata & Hgen); [lia|].
  unfold scenario_data in Hdata.
  change (String.eqb "monsoon" "monsoon") with true in Hdata. cbv iota in Hdata.
  change (random_randint 40 50 (Z.to_nat rows) g).2 with (advance (Z.to_nat rows) g)
    in Hdata.
  destruct (monsoon_acoustic_column time_hrs rows g (Z.to_nat rows) Hlen)
    as (fracture_signal & Hac & Hfl & Hquiet).
  pose proof (monsoon_columns time_hrs rows (advance (Z.to_nat rows) g)) as Hcols.
  destruct (_generate_monsoon_scenario _ _ _) as [data0 g0].
  injection Hdata as -> ->. cbv zeta in Hcols. destruct Hcols as (Hcp & _ & _).
  cbn [fst] in Hac, Hcp.
  eexists _, _, _. split; [exact Hgen|].
  cbn [Time_Hrs Pore_Water_Pressure_kPa Raw_Acoustic_Emission_g].
  split; [reflexivity|]. intros i t p Ht Hp Hle.
  rewrite Hcp in Hp |- *. rewrite (lookup_map_lt _ _ i t Ht) in Hp. injection Hp as <-.
  rewrite Hac, map_map.
  assert (i < Z.to_nat rows)%nat as Hi by (rewrite <- Hlen; apply lookup_lt_is_Some; eauto).
  rewrite lookup_zip_with, lookup_zip_with.
  rewrite (lookup_map_lt _ _ i t Ht), (Hquiet i t Ht Hle), lookup_map_seq.
  replace (i <? Z.to_nat rows)%nat with true by (symmetry; apply Nat.ltb_lt; exact Hi).
  simpl. reflexivity.
Qed.

Lemma monsoon_acoustic_below_60_witness :
  exists df g' (fractured : nat),
    generate_gsi_dataset 1000 "monsoon" zero_rng = Ok (df, g')
    /\ fractured
       = np_sum_bool (map (fun p => Rltb 60 p) (Pore_Water_Pressure_kPa df)).
Proof.
  destruct (monsoon_acoustic_below_60 1000 zero_rng) as (df & g' & k & Hgen & Hk & _);
    [lia|].
  exists df, g', k. split; [exact Hgen | exact Hk].
Defined.

(** ** MANUAL FORENSICS before the first row *)




(** ** The claims on the data the dashboard loads *)

(** A monsoon replay that starts with the latch open closes it and
    appends one batch. *)
Lemma monsoon_stream_latches (env : PyEnv R) (ml_engine : LithosML R) (now : Z -> string)
    (g : RandomState R) (st : SessionState R) (playback_speed : Z) :
  (1 <= playback_speed <= 20)%Z -> alarm_already_logged st = false ->
  buffer_synced (telemetry_buffer st) ->
  exists full_data st' trace i_alarm,
    load_full_data "monsoon" st g = Ok full_data
    /\ live_stream env ml_engine now full_data playback_speed st = Ok (st', trace)
    /\ command_log st' = command_log st ++ stream_alarm_batch (now i_alarm)
    /\ alarm_triggered st' = true /\ alarm_already_logged st' = true
    /\ data_source st' = data_source st /\ inject_failure st' = inject_failure st
    /\ buffer_synced (telemetry_buffer st').
Proof.
  intros Hs Hst (lt & lp & ld & lf & Hbuf & Hlp & Hld & Hcap & Hcapf).
  destruct (monsoon_frame_critical st g) as (full_data & Hload & Hwf & Hlen & Hlate & _).
  destruct (live_stream_spec env ml_engine now full_data playback_speed st lt lp ld lf
              Hwf ltac:(lia) Hbuf Hlp Hld Hcap Hcapf)
    as (indices & trace & buf' & Hrange & Hrun & _ & _ & _ & _ & Hbuf').
  rewrite Hlen in Hrange. change (Z.of_nat 1000) with 1000%Z in Hrange.
  destruct (range_split_at_800 playback_speed Hs)
    as (pre & i_stop & post & Hsplit & Hpre & Hstop & _).
  rewrite Hrange in Hsplit. injection Hsplit as ->.
  assert (is_critical_at full_data i_stop = true) as Hcrit by (apply Hlate; lia).
  destruct (processed_keeps_critical full_data (pre ++ i_stop :: post) i_stop)
    as (i1 & Hi1 & Hc1);
    [apply elem_of_app; right; apply elem_of_cons; left; reflexivity | exact Hcrit |].
  destruct (stream_alarms_first_critical now full_data
              (processed full_data (pre ++ i_stop :: post)) st i1 Hst Hi1 Hc1)
    as (before & i_alarm & after & _ & _ & _ & Hstate).
  rewrite Hstate in Hrun.
  eexists full_data, _, trace, i_alarm.
  split; [exact Hload|]. split; [exact Hrun|]. do 5 (split; [reflexivity|]).
  simpl. eexists _, _, _, _. split; [exact Hbuf'|].
  rewrite !lastn_length, !length_app, !length_map. repeat split; lia.
Qed.

(** One run of the dashboard tab in LIVE STREAM mode on the monsoon
    scenario at speed 5, with the clock standing still. *)
Lemma monsoon_stream_run (button : Button) (source_option clock : string)
    (st : SessionState R) :
  alarm_already_logged st = false -> buffer_synced (telemetry_buffer st) ->
  exists st' shown,
    dashboard_tab (demo_inputs button source_option clock) st = Ok (st', shown)
    /\ command_log st' = command_log st ++ stream_alarm_batch clock
    /\ alarm_triggered st' = true /\ alarm_already_logged st' = true
    /\ data_source st' = data_source st /\ inject_failure st' = inject_failure st
    /\ buffer_synced (telemetry_buffer st').
Proof.
  intros Hst Hbuf.
  destruct (monsoon_stream_latches no_model_env demo_engine (fun _ => clock) zero_rng st 5
              ltac:(lia) Hst Hbuf)
    as (full_data & st' & trace & i_alarm & Hload & Hrun & Hrest).
  exists st', (StreamShown trace). split; [|exact Hrest].
  unfold dashboard_tab, demo_inputs.
  cbn [in_scenario in_rng in_mode in_env in_ml_engine in_tick_clock].
  rewrite Hload, bind_Ok, Hrun, bind_Ok. reflexivity.
Qed.


(** X20 after a LIVE STREAM run on the monsoon scenario with the
    physical API selected: the latch is closed, the nodes are shown
    OFFLINE and the siren ALARM ACTIVE. *)
Lemma reachable_session_status_witness :
  exists st shown,
    script_run (demo_inputs NoButton "PHYSICAL API" "12:00:00") initial_session
    = Ok (st, shown)
    /\ alarm_already_logged st = true
    /\ node_status st = "OFFLINE"%string
    /\ siren_status st = "ALARM ACTIVE"%string
    /\ command_log st <> [].
Proof.
  destruct (monsoon_stream_run NoButton "PHYSICAL API" "12:00:00"
              (select_source "PHYSICAL API" initial_session) eq_refl buffer_synced_empty)
    as (st & shown & Hrun & _ & _ & Hlatched & Hsrc & _).
  assert (script_run (demo_inputs NoButton "PHYSICAL API" "12:00:00") initial_session
          = Ok (st, shown)) as Hscript by exact Hrun.
  assert (reachable st) as Hreach.
  { apply (reachable_run (demo_inputs NoButton "PHYSICAL API" "12:00:00")
             initial_session st shown reachable_fresh); [|exact Hscript].
    unfold valid_inputs. simpl. lia. }
  destruct (reachable_session_status st Hreach) as (_ & Hnode & Hlatch).
  destruct (Hlatch Hlatched) as (_ & Hsiren & Hlog).
  exists st, shown. split; [exact Hscript|]. split; [exact Hlatched|].
  split; [rewrite Hnode, Hsrc; reflexivity|]. split; [exact Hsiren | exact Hlog].
Defined.

(** C5 on the monsoon scenario as the dashboard loads it, replayed at
    speed 5: of the 200 replay indices 0, 5, ..., 995 the loop runs the
    162 up to 805, the first critical one past index 800, and stops. *)
Lemma stream_stops_past_80_percent_witness :
  exists full_data st' trace,
    load_full_data "monsoon" initial_session zero_rng = Ok full_data
    /\ py_range 0 (Z.of_nat (df_len full_data)) 5
       = Ok (map (fun k => (Z.of_nat k * 5)%Z) (seq 0 200))
    /\ live_stream no_model_env demo_engine noon full_data 5 initial_session = Ok (st', trace)
    /\ map fst trace = map (fun k => (Z.of_nat k * 5)%Z) (seq 0 162)
    /\ last (map fst trace) = Some 805%Z
    /\ is_critical_at full_data 805 = true
    /\ Forall (fun ir => r_is_critical ir.2 = is_critical_at full_data ir.1) trace.
Proof.
  destruct (monsoon_frame_critical initial_session zero_rng)
    as (full_data & Hload & _ & Hlen & Hlate & _).
  destruct (stream_stops_past_80_percent no_model_env demo_engine noon "monsoon" zero_rng
              initial_session 5 full_data Hload)
    as (indices & st' & trace & Hrange & Hrun & Hflags & _ & Hstop & _).
  - lia.
  - exact buffer_synced_empty.
  - assert (is_critical_at full_data 805 = true) as Hcrit by (apply Hlate; lia).
    rewrite Hlen in Hrange, Hstop. change (Z.of_nat 1000) with 1000%Z in Hrange, Hstop.
    assert (indices = map (fun k => (Z.of_nat k * 5)%Z) (seq 0 200)) as ->.
    { rewrite py_range_multiples in Hrange by lia.
      change (Z.to_nat ((1000 + 5 - 1) / 5)) with 200%nat in Hrange. congruence. }
    pose proof (Hstop (map (fun k => (Z.of_nat k * 5)%Z) (seq 0 161)) 805%Z
                  (map (fun k => (Z.of_nat k * 5)%Z) (seq 162 38)) eq_refl Hcrit
                  ltac:(lia)) as Htrace.
    assert (map fst trace = map (fun k => (Z.of_nat k * 5)%Z) (seq 0 162)) as Hidx.
    { apply Htrace. apply Forall_forall. intros j Hj.
      apply list_elem_of_In, in_map_iff in Hj. destruct Hj as (k & <- & Hk).
      apply in_seq in Hk. right. lia. }
    exists full_data, st', trace. split; [exact Hload|].
    split; [rewrite Hlen; apply py_range_multiples; lia|].
    split; [exact Hrun|]. split; [exact Hidx|].
    split; [rewrite Hidx; reflexivity|]. split; [exact Hcrit | exact Hflags].
Defined.

(** C8 on the stable scenario as the dashboard loads it, replayed at
    speed 4 from the empty buffer: 250 ticks, after which every key holds
    200 entries, the first 50 appended having been evicted. *)
Lemma telemetry_buffer_rolling_witness :
  exists full_data st' trace,
    load_full_data "stable" initial_session zero_rng = Ok full_data
    /\ live_stream no_model_env demo_engine noon full_data 4 initial_session = Ok (st', trace)
    /\ map fst trace = map (fun k => (Z.of_nat k * 4)%Z) (seq 0 250)
    /\ length trace = 250%nat
    /\ telemetry_buffer st' !! "time"%string
       = Some (drop 50 (map row_Time_Hrs (rows_at full_data (map fst trace))))
    /\ telemetry_buffer st' !! "fos"%string
       = Some (drop 50 (map (fun ir => r_fos ir.2) trace))
    /\ forall key series,
         key ∈ ["time"; "pressure"; "displacement"; "fos"]%string ->
         telemetry_buffer st' !! key = Some series -> length series = 200%nat.
Proof.
  destruct (quiet_frame_not_critical "stable" initial_session zero_rng)
    as (full_data & Hload & Hwf & Hlen & Hquiet);
    [discriminate | intros k; simpl; lra |].
  destruct (telemetry_buffer_rolling no_model_env demo_engine noon full_data 4
              initial_session [] [] [] [])
    as (indices & st' & trace & rest & Hrange & Hrun & Hprefix & Hstop & Hrows & _ & Ht
        & _ & _ & Hf & Hcount).
  - exact Hwf.
  - lia.
  - repeat split.
  - reflexivity.
  - reflexivity.
  - reflexivity.
  - simpl. lia.
  - rewrite Hlen in Hrange. change (Z.of_nat 1000) with 1000%Z in Hrange.
    assert (indices = map (fun k => (Z.of_nat k * 4)%Z) (seq 0 250)) as ->.
    { rewrite py_range_multiples in Hrange by lia.
      change (Z.to_nat ((1000 + 4 - 1) / 4)) with 250%nat in Hrange. congruence. }
    assert (rest = []) as ->.
    { destruct Hstop as [->|(i & Hlast & Hcrit & Hgt)]; [reflexivity|].
      apply last_Some in Hlast as [l' Hl'].
      assert (i ∈ map fst trace ++ rest) as Hin.
      { rewrite Hl'. apply elem_of_app. left. apply elem_of_app. right.
        apply list_elem_of_singleton. reflexivity. }
      rewrite <- Hprefix in Hin.
      apply list_elem_of_In, in_map_iff in Hin. destruct Hin as (k & <- & Hk).
      apply in_seq in Hk. rewrite Hquiet in Hcrit by lia. discriminate Hcrit. }
    rewrite app_nil_r in Hprefix.
    assert (length trace = 250%nat) as Hticks.
    { rewrite <- (length_map fst trace), <- Hprefix, length_map, length_seq. reflexivity. }
    exists full_data, st', trace. split; [exact Hload|]. split; [exact Hrun|].
    split; [symmetry; exact Hprefix|]. split; [exact Hticks|].
    split; [|split].
    + rewrite Ht. unfold lastn. simpl app. rewrite length_map, Hrows, Hticks. reflexivity.
    + rewrite Hf. unfold lastn. simpl app. rewrite length_map, Hticks. reflexivity.
    + intros key series Hkey Hseries. rewrite (Hcount key series Hkey Hseries), Hticks.
      reflexivity.
Defined.
